(** * Power-state orchestration of the mesh-radio firmware

    A shallow embedding of [PowerProfileManager.cpp] (the layered profile
    resolver) and of [PowerFSM.cpp] (the ten-state power machine, its hooks
    and the recreate/schedule coordinator), with the properties of the
    specification stated over them.

    Conventions.
    - C++ globals live in one record, [World]; every function of the source
      that reads or writes a global is a computation in the monad [M].
    - A computation also returns the list of externally visible operations it
      performed (screen, radio, sleep primitives, lock operations, stores to
      profile records, calls of [powerFSM.trigger]), in program order.
    - [uint32_t] values are [Z]; products wrap modulo [2^32].
    - Pointers to profile records are the constructors of [ProfilePtr];
      [nullptr] is [None]. *)

From Stdlib Require Import ZArith List Bool String Lia Relations.
Import ListNotations.
Local Open Scope string_scope.
Local Open Scope list_scope.
Local Open Scope Z_scope.

(* ===================================================================== *)
(** ** Configuration enums and the profile record                        *)
(* ===================================================================== *)

(** [meshtastic_Config_DeviceConfig_Role]: the roles the two source files
    name, and one constructor for every other value of the enum. *)
Inductive Role : Type :=
| Role_CLIENT
| Role_CLIENT_MUTE
| Role_ROUTER
| Role_TRACKER
| Role_SENSOR
| Role_TAK_TRACKER
| Role_other (raw : Z).

(** [meshtastic_Config_PowerConfig_ProfileOverride]; [PROFILE_other] stands
    for any value that reaches the [default:] label of the switch. *)
Inductive ProfileOverride : Type :=
| PROFILE_AUTO
| PROFILE_ALWAYS_PLUGGED
| PROFILE_ALWAYS_BATTERY
| PROFILE_other (raw : Z).

(** [meshtastic_Config_PowerConfig_PowerProfile_MaxPowerState].
    Modelled from the spec: the enum is declared in [config.pb.h]; its order
    (deepest sleep first) and numbering are the ones the comment in
    [isPowerStateAllowed] gives: SDS 0, LS 1, NB 2, DARK 3, ON 4. *)
Inductive MaxPowerState : Type :=
| MAX_SDS
| MAX_LS
| MAX_NO_BLUETOOTH
| MAX_DARK
| MAX_ON.

Definition MaxPowerState_ord (s : MaxPowerState) : Z :=
  match s with
  | MAX_SDS => 0
  | MAX_LS => 1
  | MAX_NO_BLUETOOTH => 2
  | MAX_DARK => 3
  | MAX_ON => 4
  end.

(** [meshtastic_Config_PowerConfig_PowerProfile], the fields the source
    initialises. *)
Record PowerProfile : Type := mkProfile {
  allow_deep_sleep : bool;
  allow_light_sleep : bool;
  bluetooth_enabled : bool;
  wifi_enabled : bool;
  screen_stays_responsive : bool;
  gps_enabled : bool;
  screen_timeout_secs : Z;
  bluetooth_timeout_secs : Z;
  min_wake_secs : Z;
  max_power_state : MaxPowerState
}.

Definition systemDefaultPluggedProfile : PowerProfile :=
  {| allow_deep_sleep := false;
     allow_light_sleep := false;
     bluetooth_enabled := true;
     wifi_enabled := true;
     screen_stays_responsive := true;
     gps_enabled := true;
     screen_timeout_secs := 0;
     bluetooth_timeout_secs := 0;
     min_wake_secs := 0;
     max_power_state := MAX_ON |}.

Definition systemDefaultBatteryProfile : PowerProfile :=
  {| allow_deep_sleep := false;
     allow_light_sleep := false;
     bluetooth_enabled := false;
     wifi_enabled := false;
     screen_stays_responsive := false;
     gps_enabled := true;
     screen_timeout_secs := 30;
     bluetooth_timeout_secs := 30;
     min_wake_secs := 5;
     max_power_state := MAX_NO_BLUETOOTH |}.

Definition legacyPowerSavingProfile : PowerProfile :=
  {| allow_deep_sleep := true;
     allow_light_sleep := true;
     bluetooth_enabled := false;
     wifi_enabled := false;
     screen_stays_responsive := true;
     gps_enabled := true;
     screen_timeout_secs := 0;
     bluetooth_timeout_secs := 0;
     min_wake_secs := 0;
     max_power_state := MAX_SDS |}.

Definition legacyNormalProfile : PowerProfile :=
  {| allow_deep_sleep := false;
     allow_light_sleep := false;
     bluetooth_enabled := true;
     wifi_enabled := true;
     screen_stays_responsive := true;
     gps_enabled := true;
     screen_timeout_secs := 0;
     bluetooth_timeout_secs := 0;
     min_wake_secs := 0;
     max_power_state := MAX_DARK |}.

(** The profile records whose address the source takes. *)
Inductive ProfilePtr : Type :=
| P_systemDefaultPluggedProfile
| P_systemDefaultBatteryProfile
| P_legacyPowerSavingProfile
| P_legacyNormalProfile
| P_computedProfile
| P_config_plugged_in_profile
| P_config_battery_profile.

Definition ProfilePtr_eqb (p q : ProfilePtr) : bool :=
  match p, q with
  | P_systemDefaultPluggedProfile, P_systemDefaultPluggedProfile
  | P_systemDefaultBatteryProfile, P_systemDefaultBatteryProfile
  | P_legacyPowerSavingProfile, P_legacyPowerSavingProfile
  | P_legacyNormalProfile, P_legacyNormalProfile
  | P_computedProfile, P_computedProfile
  | P_config_plugged_in_profile, P_config_plugged_in_profile
  | P_config_battery_profile, P_config_battery_profile => true
  | _, _ => false
  end.

(** Comparison of two [const PowerProfile*], [nullptr] included. *)
Definition ptr_eqb (p q : option ProfilePtr) : bool :=
  match p, q with
  | None, None => true
  | Some a, Some b => ProfilePtr_eqb a b
  | _, _ => false
  end.

(** [profile ? profile : &legacyNormalProfile], the fallback of
    [getActiveProfile]. *)
Definition active_ptr (profile : option ProfilePtr) : ProfilePtr :=
  match profile with
  | Some p => p
  | None => P_legacyNormalProfile
  end.

(** Memory holding the profile records.  The four static defaults start with
    their initialisers; [computedProfile] is zero-initialised. *)
Definition ProfileMem : Type := ProfilePtr -> PowerProfile.

Definition zeroProfile : PowerProfile :=
  mkProfile false false false false false false 0 0 0 MAX_SDS.

Definition initialProfileMem (plugged battery : PowerProfile) : ProfileMem :=
  fun p =>
    match p with
    | P_systemDefaultPluggedProfile => systemDefaultPluggedProfile
    | P_systemDefaultBatteryProfile => systemDefaultBatteryProfile
    | P_legacyPowerSavingProfile => legacyPowerSavingProfile
    | P_legacyNormalProfile => legacyNormalProfile
    | P_computedProfile => zeroProfile
    | P_config_plugged_in_profile => plugged
    | P_config_battery_profile => battery
    end.

Definition mem_store (m : ProfileMem) (p : ProfilePtr) (v : PowerProfile)
  : ProfileMem :=
  fun q => if ProfilePtr_eqb q p then v else m q.

(** A store to one field of a profile record ([profile->field = value]). *)
Inductive FieldStore : Type :=
| F_allow_deep_sleep (b : bool)
| F_allow_light_sleep (b : bool)
| F_bluetooth_enabled (b : bool)
| F_screen_stays_responsive (b : bool)
| F_gps_enabled (b : bool)
| F_screen_timeout_secs (n : Z)
| F_min_wake_secs (n : Z)
| F_max_power_state (s : MaxPowerState).

Definition store_field (f : FieldStore) (p : PowerProfile) : PowerProfile :=
  match f with
  | F_allow_deep_sleep b =>
      mkProfile b (allow_light_sleep p) (bluetooth_enabled p) (wifi_enabled p)
        (screen_stays_responsive p) (gps_enabled p) (screen_timeout_secs p)
        (bluetooth_timeout_secs p) (min_wake_secs p) (max_power_state p)
  | F_allow_light_sleep b =>
      mkProfile (allow_deep_sleep p) b (bluetooth_enabled p) (wifi_enabled p)
        (screen_stays_responsive p) (gps_enabled p) (screen_timeout_secs p)
        (bluetooth_timeout_secs p) (min_wake_secs p) (max_power_state p)
  | F_bluetooth_enabled b =>
      mkProfile (allow_deep_sleep p) (allow_light_sleep p) b (wifi_enabled p)
        (screen_stays_responsive p) (gps_enabled p) (screen_timeout_secs p)
        (bluetooth_timeout_secs p) (min_wake_secs p) (max_power_state p)
  | F_screen_stays_responsive b =>
      mkProfile (allow_deep_sleep p) (allow_light_sleep p)
        (bluetooth_enabled p) (wifi_enabled p) b (gps_enabled p)
        (screen_timeout_secs p) (bluetooth_timeout_secs p) (min_wake_secs p)
        (max_power_state p)
  | F_gps_enabled b =>
      mkProfile (allow_deep_sleep p) (allow_light_sleep p)
        (bluetooth_enabled p) (wifi_enabled p) (screen_stays_responsive p) b
        (screen_timeout_secs p) (bluetooth_timeout_secs p) (min_wake_secs p)
        (max_power_state p)
  | F_screen_timeout_secs n =>
      mkProfile (allow_deep_sleep p) (allow_light_sleep p)
        (bluetooth_enabled p) (wifi_enabled p) (screen_stays_responsive p)
        (gps_enabled p) n (bluetooth_timeout_secs p) (min_wake_secs p)
        (max_power_state p)
  | F_min_wake_secs n =>
      mkProfile (allow_deep_sleep p) (allow_light_sleep p)
        (bluetooth_enabled p) (wifi_enabled p) (screen_stays_responsive p)
        (gps_enabled p) (screen_timeout_secs p) (bluetooth_timeout_secs p) n
        (max_power_state p)
  | F_max_power_state s =>
      mkProfile (allow_deep_sleep p) (allow_light_sleep p)
        (bluetooth_enabled p) (wifi_enabled p) (screen_stays_responsive p)
        (gps_enabled p) (screen_timeout_secs p) (bluetooth_timeout_secs p)
        (min_wake_secs p) s
  end.

(** The fields of [config] the two source files read.  The two user profiles
    [config.power.plugged_in_profile] and [config.power.battery_profile] are
    records in [ProfileMem]; here are their presence flags. *)
Record Config : Type := mkConfig {
  device_role : Role;
  device_button_gpio : Z;
  power_is_power_saving : bool;
  power_use_granular_power_management : bool;
  power_force_profile : ProfileOverride;
  power_has_plugged_in_profile : bool;
  power_has_battery_profile : bool;
  power_sds_secs : Z;
  power_ls_secs : Z;
  power_wait_bluetooth_secs : Z;
  power_min_wake_secs : Z;
  display_screen_on_secs : Z
}.

(** [class PowerProfileManager]: its three atomics. *)
Record PowerProfileManager : Type := mkManager {
  currentProfile : option ProfilePtr;
  granularEnabled : bool;
  lastUSBStatus : bool
}.

(* ===================================================================== *)
(** ** The state machine engine: data                                    *)
(* ===================================================================== *)

(** The ten [State] objects of [PowerFSM.cpp], by address. *)
Inductive State : Type :=
| stateSHUTDOWN
| stateSDS
| stateLowBattSDS
| stateLS
| stateNB
| stateDARK
| stateSERIAL
| stateBOOT
| stateON
| statePOWER.

Definition State_eqb (a b : State) : bool :=
  match a, b with
  | stateSHUTDOWN, stateSHUTDOWN
  | stateSDS, stateSDS
  | stateLowBattSDS, stateLowBattSDS
  | stateLS, stateLS
  | stateNB, stateNB
  | stateDARK, stateDARK
  | stateSERIAL, stateSERIAL
  | stateBOOT, stateBOOT
  | stateON, stateON
  | statePOWER, statePOWER => true
  | _, _ => false
  end.

(** The events [PowerFSM.cpp] registers or fires ([PowerFSM.h] declares
    them). *)
Inductive Event : Type :=
| EVENT_WAKE_TIMER
| EVENT_PACKET_FOR_PHONE
| EVENT_PRESS
| EVENT_LOW_BATTERY
| EVENT_SHUTDOWN
| EVENT_INPUT
| EVENT_BLUETOOTH_PAIR
| EVENT_SERIAL_CONNECTED
| EVENT_SERIAL_DISCONNECTED
| EVENT_POWER_CONNECTED
| EVENT_POWER_DISCONNECTED
| EVENT_CONTACT_FROM_PHONE
| EVENT_RECEIVED_MSG
| EVENT_NODEDB_UPDATED.

Definition Event_eqb (a b : Event) : bool :=
  match a, b with
  | EVENT_WAKE_TIMER, EVENT_WAKE_TIMER
  | EVENT_PACKET_FOR_PHONE, EVENT_PACKET_FOR_PHONE
  | EVENT_PRESS, EVENT_PRESS
  | EVENT_LOW_BATTERY, EVENT_LOW_BATTERY
  | EVENT_SHUTDOWN, EVENT_SHUTDOWN
  | EVENT_INPUT, EVENT_INPUT
  | EVENT_BLUETOOTH_PAIR, EVENT_BLUETOOTH_PAIR
  | EVENT_SERIAL_CONNECTED, EVENT_SERIAL_CONNECTED
  | EVENT_SERIAL_DISCONNECTED, EVENT_SERIAL_DISCONNECTED
  | EVENT_POWER_CONNECTED, EVENT_POWER_CONNECTED
  | EVENT_POWER_DISCONNECTED, EVENT_POWER_DISCONNECTED
  | EVENT_CONTACT_FROM_PHONE, EVENT_CONTACT_FROM_PHONE
  | EVENT_RECEIVED_MSG, EVENT_RECEIVED_MSG
  | EVENT_NODEDB_UPDATED, EVENT_NODEDB_UPDATED => true
  | _, _ => false
  end.

(** The callbacks stored in states and transitions, by name. *)
Inductive Callback : Type :=
| sdsEnter_cb
| lowBattSDSEnter_cb
| shutdownEnter_cb
| lsEnter_cb
| lsIdle_cb
| lsExit_cb
| nbEnter_cb
| darkEnter_cb
| serialEnter_cb
| serialExit_cb
| powerEnter_cb
| powerIdle_cb
| powerExit_cb
| onEnter_cb
| onIdle_cb
| screenPress_cb
| bootEnter_cb.

(** [State x(enter, idle, exit, name)]: the three hooks of each state, [None]
    for [NULL]. *)
Definition on_enter (s : State) : option Callback :=
  match s with
  | stateSHUTDOWN => Some shutdownEnter_cb
  | stateSDS => Some sdsEnter_cb
  | stateLowBattSDS => Some lowBattSDSEnter_cb
  | stateLS => Some lsEnter_cb
  | stateNB => Some nbEnter_cb
  | stateDARK => Some darkEnter_cb
  | stateSERIAL => Some serialEnter_cb
  | stateBOOT => Some bootEnter_cb
  | stateON => Some onEnter_cb
  | statePOWER => Some powerEnter_cb
  end.

Definition on_state (s : State) : option Callback :=
  match s with
  | stateLS => Some lsIdle_cb
  | stateON => Some onIdle_cb
  | statePOWER => Some powerIdle_cb
  | _ => None
  end.

Definition on_exit (s : State) : option Callback :=
  match s with
  | stateLS => Some lsExit_cb
  | stateSERIAL => Some serialExit_cb
  | statePOWER => Some powerExit_cb
  | _ => None
  end.

Definition State_name (s : State) : string :=
  match s with
  | stateSHUTDOWN => "SHUTDOWN"
  | stateSDS => "SDS"
  | stateLowBattSDS => "SDS"
  | stateLS => "LS"
  | stateNB => "NB"
  | stateDARK => "DARK"
  | stateSERIAL => "SERIAL"
  | stateBOOT => "BOOT"
  | stateON => "ON"
  | statePOWER => "POWER"
  end.

(** Modelled from the spec: a plain rule is "(source state, event, target
    state, optional action)" (spec 3). *)
Record Transition : Type := mkTransition {
  state_from : State;
  state_to : State;
  event : Event;
  on_transition : option Callback
}.

(** Modelled from the spec: a timed rule is "(source state, target state,
    duration, optional action)" (spec 3); [interval] is in milliseconds. *)
Record TimedTransition : Type := mkTimedTransition {
  timed_from : State;
  timed_to : State;
  interval : Z;
  timed_on_transition : option Callback
}.

(** Modelled from the spec: the engine class [Fsm] is a library outside the
    repository files at hand.  Its state is the current state, the rules in
    registration order, whether the entry action of the initial state has
    run, and the time at which the current state was entered (the spec's
    "deadline = entry timestamp + duration"). *)
Record Fsm : Type := mkFsm {
  m_current_state : State;
  m_transitions : list Transition;
  m_timed_transitions : list TimedTransition;
  m_initialized : bool;
  m_entry_time : Z
}.

(** [Fsm(initial_state)]. *)
Definition Fsm_new (initial_state : State) : Fsm :=
  mkFsm initial_state [] [] false 0.

Definition Fsm_add_transition (t : Transition) (f : Fsm) : Fsm :=
  mkFsm (m_current_state f) (m_transitions f ++ [t]) (m_timed_transitions f)
    (m_initialized f) (m_entry_time f).

Definition Fsm_add_timed_transition (t : TimedTransition) (f : Fsm) : Fsm :=
  mkFsm (m_current_state f) (m_transitions f) (m_timed_transitions f ++ [t])
    (m_initialized f) (m_entry_time f).

Definition Fsm_enter (s : State) (now : Z) (f : Fsm) : Fsm :=
  mkFsm s (m_transitions f) (m_timed_transitions f) (m_initialized f) now.

Definition Fsm_set_initialized (now : Z) (f : Fsm) : Fsm :=
  mkFsm (m_current_state f) (m_transitions f) (m_timed_transitions f) true now.

(** Modelled from the spec: lookup of the plain rule for (state, event);
    when a pair was registered twice "the later registration is the
    effective one" (spec 4.3). *)
Fixpoint Fsm_lookup (s : State) (e : Event) (ts : list Transition)
  : option Transition :=
  match ts with
  | [] => None
  | t :: rest =>
      match Fsm_lookup s e rest with
      | Some t' => Some t'
      | None =>
          if State_eqb (state_from t) s && Event_eqb (event t) e
          then Some t else None
      end
  end.

(** Modelled from the spec: the first timed rule of the current state whose
    duration the elapsed time exceeds. *)
Fixpoint Fsm_lookup_timed (s : State) (elapsed : Z)
  (ts : list TimedTransition) : option TimedTransition :=
  match ts with
  | [] => None
  | t :: rest =>
      if State_eqb (timed_from t) s && (interval t <? elapsed)
      then Some t else Fsm_lookup_timed s elapsed rest
  end.

(* ===================================================================== *)
(** ** The world: globals, collaborators, observable operations          *)
(* ===================================================================== *)

(** [meshtastic::PowerStatus], as far as the source reads it. *)
Record PowerStatus : Type := mkPowerStatus {
  getHasUSB : bool
}.

(** [esp_sleep_source_t], the causes [lsIdle] distinguishes. *)
Inductive esp_sleep_source_t : Type :=
| ESP_SLEEP_WAKEUP_TIMER
| ESP_SLEEP_WAKEUP_UART
| ESP_SLEEP_WAKEUP_other (raw : Z).

(** What the collaborators outside the two files answer when asked:
    [isWifiAvailable()], [doPreflightSleep()], the wake cause returned by the
    first [doLightSleep] of [lsIdle], and [digitalRead(pin)]. *)
Record External : Type := mkExternal {
  isWifiAvailable : bool;
  doPreflightSleep : bool;
  doLightSleep_cause : esp_sleep_source_t;
  digitalRead : Z -> bool
}.

(** Preprocessor configuration and the declarations of [Default.h], which the
    source uses and does not define.  The embedding is of the build with
    [EXCLUDE_POWER_FSM] unset. *)
Record Platform : Type := mkPlatform {
  ARCH_ESP32 : bool;
  USE_EINK : bool;
  HAS_WIFI : bool;
  MESHTASTIC_EXCLUDE_WIFI : bool;
  BUTTON_PIN : option Z;
  SLEEP_TIME : Z;
  getConfiguredOrDefaultMs1 : Z -> Z;
  getConfiguredOrDefaultMs : Z -> Z -> Z;
  default_screen_on_secs : Z;
  default_wait_bluetooth_secs : Z;
  default_min_wake_secs : Z
}.

(** Modelled from the spec: the advertising controller ([NimbleBluetooth]);
    the header declares [advertisingActive], the implementation file is not
    among the sources. *)
Record NimbleBluetooth : Type := mkNimble {
  advertisingActive : bool
}.

(** Operations visible outside the two files, in the order performed. *)
Inductive Ev : Type :=
| EvLock
| EvUnlock
| EvProfileStore (p : ProfilePtr) (v : PowerProfile)
| EvPendingRead
| EvPendingWrite (b : bool)
| EvFsmWrite
| EvTrigger (e : Event)
| EvScreenSetOn (b : bool)
| EvScreenPrint (s : string)
| EvScreenOnPress
| EvSetBluetoothEnable (b : bool)
| EvDoDeepSleep (ms : Z) (skipPreflight skipSaveNodeDb : bool)
| EvPowerShutdown
| EvPowerMonSetState
| EvPowerMonClearState
| EvLedBlinkSet (b : bool)
| EvDoLightSleep (ms : Z)
| EvDelay (ms : Z)
| EvRadioStartAdvertising
| EvRadioStopAdvertising.

Record World : Type := mkWorld {
  config : Config;
  powerStatus : option PowerStatus;
  external : External;
  millis : Z;
  profiles : ProfileMem;
  powerProfileManager : PowerProfileManager;
  powerFSM : Fsm;
  preservedState : option State;
  fsmRecreationPending : bool;
  fsmInitialSetupComplete : bool;
  secsSlept : Z;
  nimbleBluetooth : NimbleBluetooth
}.

Definition with_profiles (m : ProfileMem) (w : World) : World :=
  mkWorld (config w) (powerStatus w) (external w) (millis w) m
    (powerProfileManager w) (powerFSM w) (preservedState w)
    (fsmRecreationPending w) (fsmInitialSetupComplete w) (secsSlept w)
    (nimbleBluetooth w).

Definition with_powerProfileManager (m : PowerProfileManager) (w : World)
  : World :=
  mkWorld (config w) (powerStatus w) (external w) (millis w) (profiles w) m
    (powerFSM w) (preservedState w) (fsmRecreationPending w)
    (fsmInitialSetupComplete w) (secsSlept w) (nimbleBluetooth w).

Definition with_powerFSM (f : Fsm) (w : World) : World :=
  mkWorld (config w) (powerStatus w) (external w) (millis w) (profiles w)
    (powerProfileManager w) f (preservedState w) (fsmRecreationPending w)
    (fsmInitialSetupComplete w) (secsSlept w) (nimbleBluetooth w).

Definition with_preservedState (s : option State) (w : World) : World :=
  mkWorld (config w) (powerStatus w) (external w) (millis w) (profiles w)
    (powerProfileManager w) (powerFSM w) s (fsmRecreationPending w)
    (fsmInitialSetupComplete w) (secsSlept w) (nimbleBluetooth w).

Definition with_fsmRecreationPending (b : bool) (w : World) : World :=
  mkWorld (config w) (powerStatus w) (external w) (millis w) (profiles w)
    (powerProfileManager w) (powerFSM w) (preservedState w) b
    (fsmInitialSetupComplete w) (secsSlept w) (nimbleBluetooth w).

Definition with_fsmInitialSetupComplete (b : bool) (w : World) : World :=
  mkWorld (config w) (powerStatus w) (external w) (millis w) (profiles w)
    (powerProfileManager w) (powerFSM w) (preservedState w)
    (fsmRecreationPending w) b (secsSlept w) (nimbleBluetooth w).

Definition with_secsSlept (n : Z) (w : World) : World :=
  mkWorld (config w) (powerStatus w) (external w) (millis w) (profiles w)
    (powerProfileManager w) (powerFSM w) (preservedState w)
    (fsmRecreationPending w) (fsmInitialSetupComplete w) n
    (nimbleBluetooth w).

Definition with_nimbleBluetooth (b : NimbleBluetooth) (w : World) : World :=
  mkWorld (config w) (powerStatus w) (external w) (millis w) (profiles w)
    (powerProfileManager w) (powerFSM w) (preservedState w)
    (fsmRecreationPending w) (fsmInitialSetupComplete w) (secsSlept w) b.

(** The collaborators change between calls: new power status, new clock. *)
Definition with_powerStatus (p : option PowerStatus) (w : World) : World :=
  mkWorld (config w) p (external w) (millis w) (profiles w)
    (powerProfileManager w) (powerFSM w) (preservedState w)
    (fsmRecreationPending w) (fsmInitialSetupComplete w) (secsSlept w)
    (nimbleBluetooth w).

Definition with_millis (t : Z) (w : World) : World :=
  mkWorld (config w) (powerStatus w) (external w) t (profiles w)
    (powerProfileManager w) (powerFSM w) (preservedState w)
    (fsmRecreationPending w) (fsmInitialSetupComplete w) (secsSlept w)
    (nimbleBluetooth w).

(* ===================================================================== *)
(** ** The monad of the embedding                                        *)
(* ===================================================================== *)

(** A computation maps the world to a result, the new world and the
    operations performed; [None] only when the recursion budget of the
    dispatcher ran out. *)
Definition M (A : Type) : Type := World -> option (A * World * list Ev).

Definition ret {A : Type} (a : A) : M A := fun w => Some (a, w, []).

Definition bind {A B : Type} (m : M A) (k : A -> M B) : M B :=
  fun w =>
    match m w with
    | None => None
    | Some (a, w1, l1) =>
        match k a w1 with
        | None => None
        | Some (b, w2, l2) => Some (b, w2, l1 ++ l2)
        end
    end.

Declare Scope fw_scope.
Delimit Scope fw_scope with fw.
Notation "x <- m ;; k" := (bind m (fun x => k))
  (at level 61, m at next level, right associativity) : fw_scope.
Notation "m ;; k" := (bind m (fun _ => k))
  (at level 61, right associativity) : fw_scope.
Local Open Scope fw_scope.

Definition gets {A : Type} (f : World -> A) : M A :=
  fun w => Some (f w, w, []).

Definition modify (f : World -> World) : M unit :=
  fun w => Some (tt, f w, []).

Definition emit (e : Ev) : M unit := fun w => Some (tt, w, [e]).

Definition out_of_fuel {A : Type} : M A := fun _ => None.

Definition when (b : bool) (m : M unit) : M unit := if b then m else ret tt.

(** The world and the operations of a finished computation. *)
Definition world_after {A : Type} (m : M A) (w : World) : option World :=
  match m w with Some (_, w', _) => Some w' | None => None end.

Definition events_of {A : Type} (m : M A) (w : World) : list Ev :=
  match m w with Some (_, _, l) => l | None => [] end.

Definition wrap32 (z : Z) : Z := z mod 4294967296.

(** [*p = v], a store of a whole record. *)
Definition store (p : ProfilePtr) (v : PowerProfile) : M unit :=
  modify (fun w => with_profiles (mem_store (profiles w) p v) w) ;;
  emit (EvProfileStore p v).

(** [p->field = value]. *)
Definition store_to (p : ProfilePtr) (f : FieldStore) : M unit :=
  old <- gets (fun w => profiles w p) ;;
  store p (store_field f old).

Definition load (p : ProfilePtr) : M PowerProfile :=
  gets (fun w => profiles w p).

(** [concurrency::LockGuard guard(&powerFSMLock)] around a function body:
    the lock is taken on entry and released when the body is left.
    [PowerFSM_recreate] calls [PowerFSM_create] with the guard alive, so the
    trace nests; [concurrency/Lock.h] is not among the files at hand, and
    the nested acquisition is taken to succeed. *)
Definition LockGuard {A : Type} (body : M A) : M A :=
  emit EvLock ;;
  r <- body ;;
  emit EvUnlock ;;
  ret r.

Section Firmware.

Variable pf : Platform.

(* ===================================================================== *)
(** ** PowerFSM.cpp: scheduling a recreation                             *)
(* ===================================================================== *)

(** [PowerFSM_scheduleRecreation]: only sets the flag, and only once the
    initial setup is complete. *)
Definition PowerFSM_scheduleRecreation : M unit :=
  done <- gets fsmInitialSetupComplete ;;
  if done then
    modify (with_fsmRecreationPending true) ;;
    emit (EvPendingWrite true)
  else ret tt.

(** [PowerFSM_reconfigure]. *)
Definition PowerFSM_reconfigure : M unit := PowerFSM_scheduleRecreation.

(* ===================================================================== *)
(** ** PowerProfileManager.cpp                                           *)
(* ===================================================================== *)

(** [powerStatus ? powerStatus->getHasUSB() : false], which is also
    [powerStatus && powerStatus->getHasUSB()]. *)
Definition read_hasUSB : M bool :=
  ps <- gets powerStatus ;;
  ret (match ps with Some s => getHasUSB s | None => false end).

Definition getLegacyProfile : M ProfilePtr :=
  cfg <- gets config ;;
  let isRouter :=
    match device_role cfg with Role_ROUTER => true | _ => false end in
  let isPowerSavingMode := power_is_power_saving cfg || isRouter in
  if isPowerSavingMode then ret P_legacyPowerSavingProfile
  else ret P_legacyNormalProfile.

Definition applyRoleModifiers (profile : ProfilePtr) (role : Role) : M unit :=
  match role with
  | Role_ROUTER =>
      store_to profile (F_allow_deep_sleep false) ;;
      store_to profile (F_allow_light_sleep false) ;;
      store_to profile (F_min_wake_secs 1) ;;
      store_to profile (F_max_power_state MAX_DARK)
  | Role_TRACKER =>
      store_to profile (F_gps_enabled true) ;;
      store_to profile (F_screen_timeout_secs 10)
  | Role_SENSOR =>
      store_to profile (F_bluetooth_enabled false) ;;
      store_to profile (F_screen_stays_responsive false) ;;
      store_to profile (F_screen_timeout_secs 5)
  | Role_CLIENT_MUTE =>
      store_to profile (F_screen_stays_responsive false)
  | Role_CLIENT | Role_TAK_TRACKER | Role_other _ =>
      ret tt
  end.

Definition applyUserOverrides (profile : ProfilePtr) (hasUSB : bool) : M unit :=
  cfg <- gets config ;;
  if hasUSB && power_has_plugged_in_profile cfg then
    userProfile <- load P_config_plugged_in_profile ;;
    store profile userProfile
  else if negb hasUSB && power_has_battery_profile cfg then
    userProfile <- load P_config_battery_profile ;;
    store profile userProfile
  else
    ret tt.

Definition computeLayeredProfile : M ProfilePtr :=
  hasUSB <- read_hasUSB ;;
  cfg <- gets config ;;
  let baseProfile :=
    match power_force_profile cfg with
    | PROFILE_ALWAYS_PLUGGED => P_systemDefaultPluggedProfile
    | PROFILE_ALWAYS_BATTERY => P_systemDefaultBatteryProfile
    | PROFILE_AUTO | PROFILE_other _ =>
        if hasUSB then P_systemDefaultPluggedProfile
        else P_systemDefaultBatteryProfile
    end in
  base <- load baseProfile ;;
  store P_computedProfile base ;;
  applyRoleModifiers P_computedProfile (device_role cfg) ;;
  applyUserOverrides P_computedProfile hasUSB ;;
  ret P_computedProfile.

Definition selectActiveProfile : M ProfilePtr :=
  granular <- gets (fun w => granularEnabled (powerProfileManager w)) ;;
  if negb granular then getLegacyProfile
  else computeLayeredProfile.

Definition currentProfile_store (p : ProfilePtr) : M unit :=
  modify (fun w =>
    let m := powerProfileManager w in
    with_powerProfileManager
      (mkManager (Some p) (granularEnabled m) (lastUSBStatus m)) w).

Definition lastUSBStatus_store (b : bool) : M unit :=
  modify (fun w =>
    let m := powerProfileManager w in
    with_powerProfileManager
      (mkManager (currentProfile m) (granularEnabled m) b) w).

Definition granularEnabled_store (b : bool) : M unit :=
  modify (fun w =>
    let m := powerProfileManager w in
    with_powerProfileManager
      (mkManager (currentProfile m) b (lastUSBStatus m)) w).

Definition updateActiveProfile : M bool :=
  newProfile <- selectActiveProfile ;;
  oldProfile <- gets (fun w => currentProfile (powerProfileManager w)) ;;
  if negb (ptr_eqb (Some newProfile) oldProfile) then
    currentProfile_store newProfile ;;
    ps <- gets powerStatus ;;
    match ps with
    | Some s => lastUSBStatus_store (getHasUSB s)
    | None => ret tt
    end ;;
    PowerFSM_scheduleRecreation ;;
    ret true
  else
    ret false.

Definition init : M unit :=
  cfg <- gets config ;;
  granularEnabled_store (power_use_granular_power_management cfg) ;;
  ps <- gets powerStatus ;;
  match ps with
  | Some s => lastUSBStatus_store (getHasUSB s)
  | None => ret tt
  end ;;
  _ <- updateActiveProfile ;;
  ret tt.

Definition getActiveProfile : M ProfilePtr :=
  profile <- gets (fun w => currentProfile (powerProfileManager w)) ;;
  ret (active_ptr profile).

Definition isGranularModeEnabled : M bool :=
  gets (fun w => granularEnabled (powerProfileManager w)).

Definition forceProfile (profile : option ProfilePtr) : M unit :=
  match profile with
  | Some p => currentProfile_store p
  | None => ret tt
  end.

Definition query {A : Type} (field : PowerProfile -> A) : M A :=
  profile <- getActiveProfile ;;
  v <- load profile ;;
  ret (field v).

Definition allowDeepSleep : M bool := query allow_deep_sleep.
Definition allowLightSleep : M bool := query allow_light_sleep.
Definition bluetoothEnabled : M bool := query bluetooth_enabled.
Definition wifiEnabled : M bool := query wifi_enabled.
Definition screenStaysResponsive : M bool := query screen_stays_responsive.
Definition gpsEnabled : M bool := query gps_enabled.

Definition getScreenTimeoutSecs : M Z :=
  secs <- query screen_timeout_secs ;;
  cfg <- gets config ;;
  ret (if 0 <? secs then secs
       else getConfiguredOrDefaultMs pf (display_screen_on_secs cfg)
              (default_screen_on_secs pf) / 1000).

Definition getBluetoothTimeoutSecs : M Z :=
  secs <- query bluetooth_timeout_secs ;;
  cfg <- gets config ;;
  ret (if 0 <? secs then secs
       else getConfiguredOrDefaultMs pf (power_wait_bluetooth_secs cfg)
              (default_wait_bluetooth_secs pf) / 1000).

Definition getMinWakeSecs : M Z :=
  secs <- query min_wake_secs ;;
  cfg <- gets config ;;
  ret (if 0 <? secs then secs
       else getConfiguredOrDefaultMs pf (power_min_wake_secs cfg)
              (default_min_wake_secs pf) / 1000).

Definition getMaxPowerState : M MaxPowerState := query max_power_state.

(** [return state >= maxState;] on the enum values. *)
Definition isPowerStateAllowed (state : MaxPowerState) : M bool :=
  maxState <- getMaxPowerState ;;
  ret (MaxPowerState_ord state >=? MaxPowerState_ord maxState).

(* ===================================================================== *)
(** ** PowerFSM.cpp: the callbacks                                       *)
(* ===================================================================== *)

(** Callbacks that fire events call [powerFSM.trigger]; they take the
    dispatcher as an argument, the dispatcher being defined after them. *)
Section Callbacks.

Variable trigger : Event -> M unit.

Definition sdsEnter : M unit :=
  allow <- allowDeepSleep ;;
  if negb allow then
    trigger EVENT_WAKE_TIMER
  else
    cfg <- gets config ;;
    emit (EvDoDeepSleep (getConfiguredOrDefaultMs1 pf (power_sds_secs cfg))
            false false).

Definition lowBattSDSEnter : M unit :=
  cfg <- gets config ;;
  emit (EvDoDeepSleep (getConfiguredOrDefaultMs1 pf (power_sds_secs cfg))
          false true).

Definition shutdownEnter : M unit := emit EvPowerShutdown.

Definition lsEnter : M unit :=
  emit (EvScreenSetOn false) ;;
  modify (with_secsSlept 0).

Definition lsIdle : M unit :=
  if ARCH_ESP32 pf then
    slept <- gets secsSlept ;;
    cfg <- gets config ;;
    ext <- gets external ;;
    if slept <? power_ls_secs cfg then
      if doPreflightSleep ext then
        let sleepTime := SLEEP_TIME pf in
        emit EvPowerMonSetState ;;
        emit (EvLedBlinkSet false) ;;
        emit (EvDoLightSleep (sleepTime * 1000)) ;;
        emit EvPowerMonClearState ;;
        match doLightSleep_cause ext with
        | ESP_SLEEP_WAKEUP_TIMER =>
            emit (EvLedBlinkSet true) ;;
            emit (EvDoLightSleep 100) ;;
            modify (with_secsSlept (wrap32 (slept + sleepTime)))
        | ESP_SLEEP_WAKEUP_UART =>
            trigger EVENT_SERIAL_CONNECTED
        | ESP_SLEEP_WAKEUP_other _ =>
            let pressed :=
              match BUTTON_PIN pf with
              | Some pin =>
                  negb (digitalRead ext
                          (if device_button_gpio cfg =? 0 then pin
                           else device_button_gpio cfg))
              | None => false
              end in
            if pressed then trigger EVENT_PRESS
            else trigger EVENT_WAKE_TIMER
        end
      else
        emit (EvDelay 100)
    else
      emit (EvLedBlinkSet false) ;;
      trigger EVENT_WAKE_TIMER
  else ret tt.

Definition lsExit : M unit := ret tt.

Definition nbEnter : M unit :=
  emit (EvScreenSetOn false) ;;
  if ARCH_ESP32 pf then
    bt <- bluetoothEnabled ;;
    emit (EvSetBluetoothEnable bt)
  else ret tt.

Definition darkEnter : M unit :=
  bt <- bluetoothEnabled ;;
  emit (EvSetBluetoothEnable bt) ;;
  emit (EvScreenSetOn false).

(** [\n] in a C string literal: one character, the line feed. *)
Definition LF : string := String (Ascii.ascii_of_nat 10) EmptyString.

Definition serialEnter : M unit :=
  emit (EvSetBluetoothEnable false) ;;
  emit (EvScreenSetOn true) ;;
  emit (EvScreenPrint ("Serial connected" ++ LF)).

Definition serialExit : M unit :=
  emit (EvSetBluetoothEnable true) ;;
  emit (EvScreenPrint ("Serial disconnected" ++ LF)).

Definition powerEnter : M unit :=
  emit (EvScreenSetOn true) ;;
  emit (EvSetBluetoothEnable true).

Definition powerIdle : M unit :=
  hasUSB <- read_hasUSB ;;
  if negb hasUSB then trigger EVENT_POWER_DISCONNECTED
  else ret tt.

Definition powerExit : M unit :=
  emit (EvScreenSetOn true) ;;
  emit (EvSetBluetoothEnable true).

Definition onEnter : M unit :=
  emit (EvScreenSetOn true) ;;
  emit (EvSetBluetoothEnable true).

Definition onIdle : M unit :=
  hasUSB <- read_hasUSB ;;
  if hasUSB then trigger EVENT_POWER_CONNECTED
  else ret tt.

Definition screenPress : M unit := emit EvScreenOnPress.

Definition bootEnter : M unit := ret tt.

(** A call through a callback pointer; [NULL] is skipped. *)
Definition call (cb : option Callback) : M unit :=
  match cb with
  | None => ret tt
  | Some sdsEnter_cb => sdsEnter
  | Some lowBattSDSEnter_cb => lowBattSDSEnter
  | Some shutdownEnter_cb => shutdownEnter
  | Some lsEnter_cb => lsEnter
  | Some lsIdle_cb => lsIdle
  | Some lsExit_cb => lsExit
  | Some nbEnter_cb => nbEnter
  | Some darkEnter_cb => darkEnter
  | Some serialEnter_cb => serialEnter
  | Some serialExit_cb => serialExit
  | Some powerEnter_cb => powerEnter
  | Some powerIdle_cb => powerIdle
  | Some powerExit_cb => powerExit
  | Some onEnter_cb => onEnter
  | Some onIdle_cb => onIdle
  | Some screenPress_cb => screenPress
  | Some bootEnter_cb => bootEnter
  end.

(** Modelled from the spec: "run exit(current), switch current pointer, run
    enter(new), run the rule's action, in that order" (spec 4.2); the entry
    timestamp of the new state is taken at the switch. *)
Definition make_transition (from to : State) (action : option Callback)
  : M unit :=
  call (on_exit from) ;;
  now <- gets millis ;;
  modify (fun w => with_powerFSM (Fsm_enter to now (powerFSM w)) w) ;;
  call (on_enter to) ;;
  call action.

End Callbacks.

(* ===================================================================== *)
(** ** The engine: dispatch                                              *)
(* ===================================================================== *)

(** Modelled from the spec: [Fsm::trigger(event)], "look up the plain rule
    for (current, event); if present, [make the transition]; if absent,
    silently ignore" (spec 4.2).  The entry hook of SDS calls [trigger]
    again; [fuel] bounds that nesting. *)
Fixpoint Fsm_trigger (fuel : nat) (e : Event) : M unit :=
  match fuel with
  | O => out_of_fuel
  | S fuel' =>
      emit (EvTrigger e) ;;
      f <- gets powerFSM ;;
      match Fsm_lookup (m_current_state f) e (m_transitions f) with
      | None => ret tt
      | Some t =>
          make_transition (Fsm_trigger fuel')
            (state_from t) (state_to t) (on_transition t)
      end
  end.

(** Modelled from the spec: [tick()] "invokes current.idle()" (spec 4.2). *)
Definition Fsm_tick (fuel : nat) : M unit :=
  f <- gets powerFSM ;;
  call (Fsm_trigger fuel) (on_state (m_current_state f)).

(** Modelled from the spec: a timed rule "fires once elapsed time exceeds
    duration", the deadline being "entry timestamp + duration" (spec 3,
    4.2). *)
Definition Fsm_check_timed_transitions (fuel : nat) : M unit :=
  f <- gets powerFSM ;;
  now <- gets millis ;;
  match Fsm_lookup_timed (m_current_state f) (now - m_entry_time f)
          (m_timed_transitions f) with
  | None => ret tt
  | Some t =>
      make_transition (Fsm_trigger fuel)
        (timed_from t) (timed_to t) (timed_on_transition t)
  end.

(** Modelled from the spec: [Fsm::run_machine()] as [PowerFSM_create] uses
    it, "run one pass to fire consistent entry actions" (spec 4.5): the
    first pass of an engine runs the entry hook of its current state. *)
Definition Fsm_run_machine (fuel : nat) : M unit :=
  f <- gets powerFSM ;;
  if m_initialized f then ret tt
  else
    now <- gets millis ;;
    modify (fun w => with_powerFSM (Fsm_set_initialized now (powerFSM w)) w) ;;
    call (Fsm_trigger fuel) (on_enter (m_current_state f)).

(** [powerFSM.getState()]. *)
Definition getState : M State :=
  gets (fun w => m_current_state (powerFSM w)).

(** [powerFSM = Fsm(initialState)]. *)
Definition powerFSM_assign (f : Fsm) : M unit :=
  modify (with_powerFSM f) ;;
  emit EvFsmWrite.

(** [powerFSM.add_transition(from, to, event, action, name)]; the name is
    for the log only and the rule does not keep it. *)
Definition add_transition (from to : State) (e : Event)
  (action : option Callback) (name : string) : M unit :=
  modify (fun w =>
    with_powerFSM
      (Fsm_add_transition (mkTransition from to e action) (powerFSM w))
      w) ;;
  emit EvFsmWrite.

(** [powerFSM.add_timed_transition(from, to, interval, action, name)]. *)
Definition add_timed_transition (from to : State) (ms : Z)
  (action : option Callback) (name : string) : M unit :=
  modify (fun w =>
    with_powerFSM
      (Fsm_add_timed_transition (mkTimedTransition from to ms action)
         (powerFSM w))
      w) ;;
  emit EvFsmWrite.

(* ===================================================================== *)
(** ** PowerFSM.cpp: building and rebuilding the machine                 *)
(* ===================================================================== *)

Definition PowerFSM_create (fuel : nat) : M unit :=
  LockGuard (
    hasUSB <- read_hasUSB ;;
    preserved <- gets preservedState ;;
    initialState <-
      match preserved with
      | Some s => modify (with_preservedState None) ;; ret s
      | None => ret stateBOOT
      end ;;
    powerFSM_assign (Fsm_new initialState) ;;
    when (State_eqb initialState stateBOOT)
      (add_timed_transition stateBOOT (if hasUSB then statePOWER else stateON)
         (3 * 1000) None "boot timeout") ;;

    bt <- bluetoothEnabled ;;
    let wakeTarget := if bt then stateDARK else stateNB in
    (if ARCH_ESP32 pf then
       add_transition stateLS wakeTarget EVENT_WAKE_TIMER None "Wake timer"
     else
       add_transition stateLS stateDARK EVENT_WAKE_TIMER None "Wake timer") ;;

    add_transition stateLS wakeTarget EVENT_PACKET_FOR_PHONE None "Received packet, exiting light sleep" ;;
    add_transition stateNB stateNB EVENT_PACKET_FOR_PHONE None "Received packet, resetting wake" ;;
    add_transition stateNB stateDARK EVENT_PACKET_FOR_PHONE None "Packet for phone" ;;

    add_transition stateLS stateON EVENT_PRESS None "Press" ;;
    add_transition stateNB stateON EVENT_PRESS None "Press" ;;
    add_transition stateDARK (if hasUSB then statePOWER else stateON) EVENT_PRESS None "Press" ;;
    add_transition statePOWER statePOWER EVENT_PRESS (Some screenPress_cb) "Press" ;;
    add_transition stateON stateON EVENT_PRESS (Some screenPress_cb) "Press" ;;
    add_transition stateSERIAL stateSERIAL EVENT_PRESS (Some screenPress_cb) "Press" ;;

    add_transition stateBOOT stateLowBattSDS EVENT_LOW_BATTERY None "LowBat" ;;
    add_transition stateLS stateLowBattSDS EVENT_LOW_BATTERY None "LowBat" ;;
    add_transition stateNB stateLowBattSDS EVENT_LOW_BATTERY None "LowBat" ;;
    add_transition stateDARK stateLowBattSDS EVENT_LOW_BATTERY None "LowBat" ;;
    add_transition stateON stateLowBattSDS EVENT_LOW_BATTERY None "LowBat" ;;
    add_transition stateSERIAL stateLowBattSDS EVENT_LOW_BATTERY None "LowBat" ;;

    add_transition stateBOOT stateSHUTDOWN EVENT_SHUTDOWN None "Shutdown" ;;
    add_transition stateLS stateSHUTDOWN EVENT_SHUTDOWN None "Shutdown" ;;
    add_transition stateNB stateSHUTDOWN EVENT_SHUTDOWN None "Shutdown" ;;
    add_transition stateDARK stateSHUTDOWN EVENT_SHUTDOWN None "Shutdown" ;;
    add_transition stateON stateSHUTDOWN EVENT_SHUTDOWN None "Shutdown" ;;
    add_transition stateSERIAL stateSHUTDOWN EVENT_SHUTDOWN None "Shutdown" ;;

    add_transition stateLS stateON EVENT_INPUT None "Input Device" ;;
    add_transition stateNB stateON EVENT_INPUT None "Input Device" ;;
    add_transition stateDARK stateON EVENT_INPUT None "Input Device" ;;
    add_transition stateON stateON EVENT_INPUT None "Input Device" ;;
    add_transition statePOWER statePOWER EVENT_INPUT None "Input Device" ;;

    add_transition stateDARK stateON EVENT_BLUETOOTH_PAIR None "Bluetooth pairing" ;;
    add_transition stateON stateON EVENT_BLUETOOTH_PAIR None "Bluetooth pairing" ;;

    add_transition stateLS stateSERIAL EVENT_SERIAL_CONNECTED None "serial API" ;;
    add_transition stateNB stateSERIAL EVENT_SERIAL_CONNECTED None "serial API" ;;
    add_transition stateDARK stateSERIAL EVENT_SERIAL_CONNECTED None "serial API" ;;
    add_transition stateON stateSERIAL EVENT_SERIAL_CONNECTED None "serial API" ;;
    add_transition statePOWER stateSERIAL EVENT_SERIAL_CONNECTED None "serial API" ;;
    add_transition stateSERIAL stateON EVENT_SERIAL_DISCONNECTED None "serial disconnect" ;;

    add_transition stateLS statePOWER EVENT_POWER_CONNECTED None "power connect" ;;
    add_transition stateNB statePOWER EVENT_POWER_CONNECTED None "power connect" ;;
    add_transition stateDARK statePOWER EVENT_POWER_CONNECTED None "power connect" ;;
    add_transition stateON statePOWER EVENT_POWER_CONNECTED None "power connect" ;;
    add_transition statePOWER stateON EVENT_POWER_DISCONNECTED None "power disconnected" ;;

    add_transition stateDARK stateDARK EVENT_CONTACT_FROM_PHONE None "Contact from phone" ;;

    (let screenTimeouts :=
       onSecs <- getScreenTimeoutSecs ;;
       add_timed_transition stateON stateDARK (wrap32 (onSecs * 1000)) None "Screen-on timeout" ;;
       powerSecs <- getScreenTimeoutSecs ;;
       add_timed_transition statePOWER stateDARK (wrap32 (powerSecs * 1000)) None "Screen-on timeout" in
     if USE_EINK pf then
       secs <- getScreenTimeoutSecs ;;
       when (0 <? secs) screenTimeouts
     else screenTimeouts) ;;

    responsive <- screenStaysResponsive ;;
    (if responsive then
       add_transition stateLS stateON EVENT_RECEIVED_MSG None "Received text (wake)" ;;
       add_transition stateNB stateON EVENT_RECEIVED_MSG None "Received text (wake)" ;;
       add_transition stateDARK stateON EVENT_RECEIVED_MSG None "Received text (wake)" ;;
       add_transition stateNB stateON EVENT_NODEDB_UPDATED None "NodeDB update (wake)" ;;
       add_transition stateDARK stateON EVENT_NODEDB_UPDATED None "NodeDB update (wake)"
     else
       add_transition stateLS stateLS EVENT_RECEIVED_MSG None "Received text (no wake)" ;;
       add_transition stateNB stateNB EVENT_RECEIVED_MSG None "Received text (no wake)" ;;
       add_transition stateDARK stateDARK EVENT_RECEIVED_MSG None "Received text (no wake)" ;;
       add_transition stateNB stateNB EVENT_NODEDB_UPDATED None "NodeDB update (no wake)" ;;
       add_transition stateDARK stateDARK EVENT_NODEDB_UPDATED None "NodeDB update (no wake)") ;;

    add_transition stateON stateON EVENT_RECEIVED_MSG None "Received text (restart timer)" ;;
    add_transition stateON stateON EVENT_NODEDB_UPDATED None "NodeDB update (restart timer)" ;;

    (if ARCH_ESP32 pf then
       when (HAS_WIFI pf || negb (MESHTASTIC_EXCLUDE_WIFI pf))
         (cfg <- gets config ;;
          ext <- gets external ;;
          let isTrackerOrSensor :=
            match device_role cfg with
            | Role_TRACKER | Role_TAK_TRACKER | Role_SENSOR => true
            | _ => false
            end in
          lightSleep <- allowLightSleep ;;
          let shouldEnableLightSleep :=
            lightSleep && negb (isWifiAvailable ext) && negb isTrackerOrSensor in
          if shouldEnableLightSleep then
            minWake <- getMinWakeSecs ;;
            add_timed_transition stateNB stateLS (wrap32 (minWake * 1000)) None "Min wake timeout" ;;
            btSecs <- getBluetoothTimeoutSecs ;;
            add_timed_transition stateDARK stateLS (wrap32 (btSecs * 1000)) None "Bluetooth timeout"
          else
            darkSecs <- getScreenTimeoutSecs ;;
            add_timed_transition stateDARK stateDARK (wrap32 (darkSecs * 1000)) None "Screen-on timeout")
     else
       darkSecs <- getScreenTimeoutSecs ;;
       add_timed_transition stateDARK stateDARK (wrap32 (darkSecs * 1000)) None "Screen-on timeout") ;;

    Fsm_run_machine fuel).

Definition PowerFSM_recreate (fuel : nat) : M unit :=
  LockGuard (
    s <- getState ;;
    modify (with_preservedState (Some s)) ;;
    PowerFSM_create fuel).

Definition PowerFSM_setup (fuel : nat) : M unit :=
  PowerFSM_create fuel ;;
  modify (with_fsmInitialSetupComplete true).

Definition PowerFSM_processRecreation (fuel : nat) : M unit :=
  emit EvPendingRead ;;
  pending <- gets fsmRecreationPending ;;
  if pending then
    modify (with_fsmRecreationPending false) ;;
    emit (EvPendingWrite false) ;;
    PowerFSM_recreate fuel
  else ret tt.

(* ===================================================================== *)
(** ** The advertising controller                                        *)
(* ===================================================================== *)

(** Modelled from the spec: [NimbleBluetooth::startAdvertising], the spec's
    [enable()]: "idempotent, no redundant radio calls if already in the
    desired state" (spec 4.4). *)
Definition startAdvertising : M unit :=
  nb <- gets nimbleBluetooth ;;
  if advertisingActive nb then ret tt
  else
    emit EvRadioStartAdvertising ;;
    modify (with_nimbleBluetooth (mkNimble true)).

(** Modelled from the spec: [NimbleBluetooth::stopAdvertising], the spec's
    [disable()]. *)
Definition stopAdvertising : M unit :=
  nb <- gets nimbleBluetooth ;;
  if advertisingActive nb then
    emit EvRadioStopAdvertising ;;
    modify (with_nimbleBluetooth (mkNimble false))
  else ret tt.

(** Modelled from the spec: [NimbleBluetooth::isAdvertising]. *)
Definition isAdvertising : M bool :=
  gets (fun w => advertisingActive (nimbleBluetooth w)).

(** Modelled from the spec: the disconnect callback of the BLE server, which
    "re-reads the current active profile's bluetoothEnabled() and enables
    only if true" (spec 4.4; BLE_ADVERTISING_CONTROL.md, Client
    Disconnect). *)
Definition onClientDisconnect : M unit :=
  bt <- bluetoothEnabled ;;
  if bt then startAdvertising else ret tt.

End Firmware.

(* ===================================================================== *)
(** ** Properties of traces and of rule tables                           *)
(* ===================================================================== *)

Definition is_lock_event (e : Ev) : bool :=
  match e with EvLock | EvUnlock => true | _ => false end.

Definition is_deep_sleep (e : Ev) : bool :=
  match e with EvDoDeepSleep _ _ _ => true | _ => false end.

Definition is_fsm_write (e : Ev) : bool :=
  match e with EvFsmWrite => true | _ => false end.

Definition is_trigger (e : Ev) : bool :=
  match e with EvTrigger _ => true | _ => false end.

Definition is_pending_access (e : Ev) : bool :=
  match e with EvPendingRead | EvPendingWrite _ => true | _ => false end.

Definition is_radio_call (e : Ev) : bool :=
  match e with
  | EvRadioStartAdvertising | EvRadioStopAdvertising => true
  | _ => false
  end.

Definition is_store_to (p : ProfilePtr) (e : Ev) : bool :=
  match e with EvProfileStore q _ => ProfilePtr_eqb q p | _ => false end.

(** The calls of the deep-sleep primitive in a trace. *)
Definition deep_sleeps (evs : list Ev) : list Ev := filter is_deep_sleep evs.



(** One step of the machine over a rule table: some registered plain rule or
    some registered timed rule leads from one state to the other.  Whichever
    of two rules of one (state, event) pair is effective, and whenever a
    deadline passes, a move of the engine is such a step. *)
Inductive Fsm_step (f : Fsm) : State -> State -> Prop :=
| step_plain : forall t,
    In t (m_transitions f) -> Fsm_step f (state_from t) (state_to t)
| step_timed : forall t,
    In t (m_timed_transitions f) -> Fsm_step f (timed_from t) (timed_to t).

Definition Fsm_reachable (f : Fsm) : State -> State -> Prop :=
  clos_refl_trans State (Fsm_step f).

(** What the claims say of a rule table, as checks. *)
Definition rule_avoids_SDS (t : Transition) : bool :=
  negb (State_eqb (state_to t) stateSDS)
  && negb (State_eqb (state_from t) stateSDS)
  && negb (State_eqb (state_from t) stateLowBattSDS).

Definition timed_rule_avoids_SDS (t : TimedTransition) : bool :=
  negb (State_eqb (timed_to t) stateSDS)
  && negb (State_eqb (timed_from t) stateSDS)
  && negb (State_eqb (timed_from t) stateLowBattSDS).

Definition table_avoids_SDS (f : Fsm) : bool :=
  forallb rule_avoids_SDS (m_transitions f)
  && forallb timed_rule_avoids_SDS (m_timed_transitions f).

(** The timed rules of a table that leave a given state. *)
Definition timed_rules_from (s : State) (f : Fsm) : list TimedTransition :=
  filter (fun t => State_eqb (timed_from t) s) (m_timed_transitions f).

(** The target of the effective plain rule for (state, event), if any. *)
Definition Fsm_target (f : Fsm) (s : State) (e : Event) : option State :=
  match Fsm_lookup s e (m_transitions f) with
  | Some t => Some (state_to t)
  | None => None
  end.

(* ===================================================================== *)
(** ** Granular resolution, in the words of the specification            *)
(* ===================================================================== *)

(** "pick a system-default base profile by forced-override or, if AUTO, by
    hasExternalPower".  A setting outside the three named ones counts as
    AUTO. *)
Definition base_profile_spec (mem : ProfileMem) (force : ProfileOverride)
  (hasExternalPower : bool) : PowerProfile :=
  match force with
  | PROFILE_ALWAYS_PLUGGED => mem P_systemDefaultPluggedProfile
  | PROFILE_ALWAYS_BATTERY => mem P_systemDefaultBatteryProfile
  | PROFILE_AUTO | PROFILE_other _ =>
      if hasExternalPower then mem P_systemDefaultPluggedProfile
      else mem P_systemDefaultBatteryProfile
  end.

(** "Router: disable deep/light sleep, min_wake=1s, ceiling=DARK; Tracker:
    screen_timeout=10s, GPS stays on; Sensor: bluetooth off, not responsive,
    screen_timeout=5s; ClientMute: not responsive; Client: unchanged". *)
Definition role_modifiers_spec (role : Role) (p : PowerProfile)
  : PowerProfile :=
  match role with
  | Role_ROUTER =>
      {| allow_deep_sleep := false;
         allow_light_sleep := false;
         bluetooth_enabled := bluetooth_enabled p;
         wifi_enabled := wifi_enabled p;
         screen_stays_responsive := screen_stays_responsive p;
         gps_enabled := gps_enabled p;
         screen_timeout_secs := screen_timeout_secs p;
         bluetooth_timeout_secs := bluetooth_timeout_secs p;
         min_wake_secs := 1;
         max_power_state := MAX_DARK |}
  | Role_TRACKER =>
      {| allow_deep_sleep := allow_deep_sleep p;
         allow_light_sleep := allow_light_sleep p;
         bluetooth_enabled := bluetooth_enabled p;
         wifi_enabled := wifi_enabled p;
         screen_stays_responsive := screen_stays_responsive p;
         gps_enabled := true;
         screen_timeout_secs := 10;
         bluetooth_timeout_secs := bluetooth_timeout_secs p;
         min_wake_secs := min_wake_secs p;
         max_power_state := max_power_state p |}
  | Role_SENSOR =>
      {| allow_deep_sleep := allow_deep_sleep p;
         allow_light_sleep := allow_light_sleep p;
         bluetooth_enabled := false;
         wifi_enabled := wifi_enabled p;
         screen_stays_responsive := false;
         gps_enabled := gps_enabled p;
         screen_timeout_secs := 5;
         bluetooth_timeout_secs := bluetooth_timeout_secs p;
         min_wake_secs := min_wake_secs p;
         max_power_state := max_power_state p |}
  | Role_CLIENT_MUTE =>
      {| allow_deep_sleep := allow_deep_sleep p;
         allow_light_sleep := allow_light_sleep p;
         bluetooth_enabled := bluetooth_enabled p;
         wifi_enabled := wifi_enabled p;
         screen_stays_responsive := false;
         gps_enabled := gps_enabled p;
         screen_timeout_secs := screen_timeout_secs p;
         bluetooth_timeout_secs := bluetooth_timeout_secs p;
         min_wake_secs := min_wake_secs p;
         max_power_state := max_power_state p |}
  | Role_CLIENT | Role_TAK_TRACKER | Role_other _ => p
  end.

(** "if a user-override profile exists for the current power source". *)
Definition user_override_spec (cfg : Config) (mem : ProfileMem)
  (hasExternalPower : bool) : option PowerProfile :=
  if hasExternalPower then
    if power_has_plugged_in_profile cfg
    then Some (mem P_config_plugged_in_profile) else None
  else
    if power_has_battery_profile cfg
    then Some (mem P_config_battery_profile) else None.

(** "it wholesale replaces the computed profile (no field merge)". *)
Definition resolve_granular_spec (cfg : Config) (mem : ProfileMem)
  (hasExternalPower : bool) : PowerProfile :=
  match user_override_spec cfg mem hasExternalPower with
  | Some user => user
  | None =>
      role_modifiers_spec (device_role cfg)
        (base_profile_spec mem (power_force_profile cfg) hasExternalPower)
  end.

(** The power source as the resolver sees it. *)
Definition hasUSB_of (w : World) : bool :=
  match powerStatus w with
  | Some s => getHasUSB s
  | None => false
  end.

(** The record the published pointer leads to, fallback included. *)
Definition active_profile (w : World) : PowerProfile :=
  profiles w (active_ptr (currentProfile (powerProfileManager w))).

(* ===================================================================== *)
(** ** Reasoning about computations                                      *)
(* ===================================================================== *)

(** [wp m Q w]: run from [w], [m] finishes, and its result, final world and
    trace satisfy [Q]. *)
Definition wp {A : Type} (m : M A) (Q : A -> World -> list Ev -> Prop)
  (w : World) : Prop :=
  match m w with
  | Some (a, w', l) => Q a w' l
  | None => False
  end.

(* ===================================================================== *)
(** ** Concrete boards, configurations and worlds                        *)
(* ===================================================================== *)

(** An ESP32 board with an LCD, WiFi and a button on pin 0; [Default.h]
    taken as "a configured 0 means the default", in milliseconds. *)
Definition esp32 : Platform :=
  {| ARCH_ESP32 := true;
     USE_EINK := false;
     HAS_WIFI := true;
     MESHTASTIC_EXCLUDE_WIFI := false;
     BUTTON_PIN := Some 0;
     SLEEP_TIME := 30;
     getConfiguredOrDefaultMs1 := fun configured => configured * 1000;
     getConfiguredOrDefaultMs := fun configured dflt =>
       (if configured =? 0 then dflt else configured) * 1000;
     default_screen_on_secs := 60;
     default_wait_bluetooth_secs := 60;
     default_min_wake_secs := 10 |}.

(** Granular mode, automatic profile choice, no user profiles. *)
Definition granular_config (role : Role) : Config :=
  {| device_role := role;
     device_button_gpio := 0;
     power_is_power_saving := false;
     power_use_granular_power_management := true;
     power_force_profile := PROFILE_AUTO;
     power_has_plugged_in_profile := false;
     power_has_battery_profile := false;
     power_sds_secs := 3600;
     power_ls_secs := 300;
     power_wait_bluetooth_secs := 0;
     power_min_wake_secs := 0;
     display_screen_on_secs := 0 |}.

(** Legacy mode, with or without the power-saving flag. *)
Definition legacy_config (saving : bool) : Config :=
  {| device_role := Role_CLIENT;
     device_button_gpio := 0;
     power_is_power_saving := saving;
     power_use_granular_power_management := false;
     power_force_profile := PROFILE_AUTO;
     power_has_plugged_in_profile := false;
     power_has_battery_profile := false;
     power_sds_secs := 3600;
     power_ls_secs := 300;
     power_wait_bluetooth_secs := 0;
     power_min_wake_secs := 0;
     display_screen_on_secs := 0 |}.

Definition quiet : External :=
  {| isWifiAvailable := false;
     doPreflightSleep := true;
     doLightSleep_cause := ESP_SLEEP_WAKEUP_TIMER;
     digitalRead := fun _ => true |}.

(** The globals as the static initialisers leave them, at time 0. *)
Definition power_on (cfg : Config) (usb : bool) : World :=
  {| config := cfg;
     powerStatus := Some (mkPowerStatus usb);
     external := quiet;
     millis := 0;
     profiles := initialProfileMem zeroProfile zeroProfile;
     powerProfileManager := mkManager None false false;
     powerFSM := Fsm_new stateBOOT;
     preservedState := None;
     fsmRecreationPending := false;
     fsmInitialSetupComplete := false;
     secsSlept := 0;
     nimbleBluetooth := mkNimble false |}.

(** The world a computation leaves (the start world if it ran out of
    fuel), to chain the steps of a scenario. *)
Definition after {A : Type} (m : M A) (w : World) : World :=
  match m w with
  | Some (_, w', _) => w'
  | None => w
  end.

(** Boot: the profile manager is initialised, then the machine is set up. *)
Definition booted (cfg : Config) (usb : bool) : World :=
  after (PowerFSM_setup esp32 2) (after init (power_on cfg usb)).

(** The machine moved to a given state by the engine, nothing else changed. *)
Definition in_state (s : State) (w : World) : World :=
  with_powerFSM (Fsm_enter s (millis w) (powerFSM w)) w.

Definition plug (usb : bool) (w : World) : World :=
  with_powerStatus (Some (mkPowerStatus usb)) w.

(** [config] replaced, as after a settings change from the phone. *)
Definition reconfigure (cfg : Config) (w : World) : World :=
  {| config := cfg;
     powerStatus := powerStatus w;
     external := external w;
     millis := millis w;
     profiles := profiles w;
     powerProfileManager := powerProfileManager w;
     powerFSM := powerFSM w;
     preservedState := preservedState w;
     fsmRecreationPending := fsmRecreationPending w;
     fsmInitialSetupComplete := fsmInitialSetupComplete w;
     secsSlept := secsSlept w;
     nimbleBluetooth := nimbleBluetooth w |}.

(* ===================================================================== *)
(** ** What a build of the machine registers                             *)
(* ===================================================================== *)

(** Rules appended to both tables of an engine. *)
Definition Fsm_append (rs : list Transition) (ts : list TimedTransition)
  (f : Fsm) : Fsm :=
  mkFsm (m_current_state f) (m_transitions f ++ rs)
    (m_timed_transitions f ++ ts) (m_initialized f) (m_entry_time f).

(** The rules of [if c then ... else ...]: where both branches register a
    rule at the same place, the choice is made rule by rule. *)
Fixpoint zip_if {A : Type} (c : bool) (l1 l2 : list A) : list A :=
  match l1, l2 with
  | [], [] => []
  | a :: l1', b :: l2' => (if c then a else b) :: zip_if c l1' l2'
  | _, _ => if c then l1 else l2
  end.

(** A value read from the world that does not depend on the engine. *)
Definition stable {A : Type} (v : World -> A) : Prop :=
  forall f w, v (with_powerFSM f w) = v w.

(** A computation that only reads, and reads [v]. *)
Definition pure_read {A : Type} (rd : M A) (v : World -> A) : Prop :=
  stable v /\ forall w, rd w = Some (v w, w, []).

(** A computation that only registers rules: [rs] plain and [ts] timed
    ones, one engine write each. *)
Definition registers (m : M unit) (rs : World -> list Transition)
  (ts : World -> list TimedTransition) : Prop :=
  stable rs /\ stable ts /\
  forall w,
    m w = Some (tt,
                with_powerFSM (Fsm_append (rs w) (ts w) (powerFSM w)) w,
                repeat EvFsmWrite (List.length (rs w) + List.length (ts w))).

(** The values of the three timeout getters. *)
Definition screenTimeoutSecs_of (pf : Platform) (w : World) : Z :=
  if 0 <? screen_timeout_secs (active_profile w)
  then screen_timeout_secs (active_profile w)
  else getConfiguredOrDefaultMs pf (display_screen_on_secs (config w))
         (default_screen_on_secs pf) / 1000.

Definition bluetoothTimeoutSecs_of (pf : Platform) (w : World) : Z :=
  if 0 <? bluetooth_timeout_secs (active_profile w)
  then bluetooth_timeout_secs (active_profile w)
  else getConfiguredOrDefaultMs pf (power_wait_bluetooth_secs (config w))
         (default_wait_bluetooth_secs pf) / 1000.

Definition minWakeSecs_of (pf : Platform) (w : World) : Z :=
  if 0 <? min_wake_secs (active_profile w)
  then min_wake_secs (active_profile w)
  else getConfiguredOrDefaultMs pf (power_min_wake_secs (config w))
         (default_min_wake_secs pf) / 1000.

(** The state a build starts in: the preserved one, else BOOT. *)
Definition initial_state_of (w : World) : State :=
  match preservedState w with
  | Some s => s
  | None => stateBOOT
  end.

(** [shouldEnableLightSleep]. *)
Definition lightSleepEligible (w : World) : bool :=
  allow_light_sleep (active_profile w)
  && negb (isWifiAvailable (external w))
  && negb (match device_role (config w) with
           | Role_TRACKER | Role_TAK_TRACKER | Role_SENSOR => true
           | _ => false
           end).

(** The guard of the two screen-on timeouts: with [USE_EINK] the timeout
    must be positive, without it there is no guard. *)
Definition screenTimeoutGuard (pf : Platform) (w : World) : bool :=
  if USE_EINK pf then 0 <? screenTimeoutSecs_of pf w else true.

(** No lock operation in a trace. *)
Definition lock_free (evs : list Ev) : bool :=
  forallb (fun e => negb (is_lock_event e)) evs.



(** What a hook may do: anything but lock operations and engine writes. *)
Definition quiet_event (e : Ev) : bool :=
  negb (is_lock_event e || is_fsm_write e).

(** The action of a rule is absent or [screenPress], the one action
    [PowerFSM_create] registers; its timed rules have none. *)
Definition rule_action_plain (t : Transition) : bool :=
  match on_transition t with
  | None | Some screenPress_cb => true
  | Some _ => false
  end.

Definition timed_rule_action_plain (t : TimedTransition) : bool :=
  match timed_on_transition t with
  | None => true
  | Some _ => false
  end.

Definition table_actions_plain (f : Fsm) : bool :=
  forallb rule_action_plain (m_transitions f)
  && forallb timed_rule_action_plain (m_timed_transitions f).


(** Two engines run the same tables. *)
Definition same_tables (f g : Fsm) : Prop :=
  m_transitions g = m_transitions f /\
  m_timed_transitions g = m_timed_transitions f.




(** What [PowerFSM_create] leaves of the globals other than the engine. *)
Definition frame_of_create (w w' : World) : Prop :=
  config w' = config w /\
  powerStatus w' = powerStatus w /\
  external w' = external w /\
  millis w' = millis w /\
  profiles w' = profiles w /\
  powerProfileManager w' = powerProfileManager w /\
  fsmRecreationPending w' = fsmRecreationPending w /\
  fsmInitialSetupComplete w' = fsmInitialSetupComplete w /\
  nimbleBluetooth w' = nimbleBluetooth w /\
  preservedState w' = None /\
  secsSlept w' =
    (if State_eqb (initial_state_of w) stateLS then 0 else secsSlept w).

(** The engine [PowerFSM_create] builds in state [s] from the profile, the
    configuration and the power source of [w]: where it stands, the checks
    its tables pass, and the rules that depend on the profile. *)
Definition engine_of_create (pf : Platform) (w : World) (s : State) (f : Fsm)
  : Prop :=
  m_current_state f = s /\
  m_initialized f = true /\
  m_entry_time f = millis w /\
  table_avoids_SDS f = true /\
  table_actions_plain f = true /\
  timed_rules_from stateBOOT f =
    (if State_eqb s stateBOOT
     then [mkTimedTransition stateBOOT
             (if hasUSB_of w then statePOWER else stateON) 3000 None]
     else []) /\
  Fsm_target f stateLS EVENT_WAKE_TIMER =
    Some (if ARCH_ESP32 pf
          then (if bluetooth_enabled (active_profile w)
                then stateDARK else stateNB)
          else stateDARK) /\
  Fsm_target f stateLS EVENT_PACKET_FOR_PHONE =
    Some (if bluetooth_enabled (active_profile w)
          then stateDARK else stateNB) /\
  Fsm_target f stateDARK EVENT_PRESS =
    Some (if hasUSB_of w then statePOWER else stateON) /\
  Fsm_target f stateLS EVENT_RECEIVED_MSG =
    Some (if screen_stays_responsive (active_profile w)
          then stateON else stateLS) /\
  Fsm_target f stateNB EVENT_RECEIVED_MSG =
    Some (if screen_stays_responsive (active_profile w)
          then stateON else stateNB) /\
  Fsm_target f stateDARK EVENT_RECEIVED_MSG =
    Some (if screen_stays_responsive (active_profile w)
          then stateON else stateDARK) /\
  Fsm_target f stateNB EVENT_NODEDB_UPDATED =
    Some (if screen_stays_responsive (active_profile w)
          then stateON else stateNB) /\
  Fsm_target f stateDARK EVENT_NODEDB_UPDATED =
    Some (if screen_stays_responsive (active_profile w)
          then stateON else stateDARK) /\
  timed_rules_from stateON f =
    (if screenTimeoutGuard pf w
     then [mkTimedTransition stateON stateDARK
             (wrap32 (screenTimeoutSecs_of pf w * 1000)) None]
     else []) /\
  timed_rules_from statePOWER f =
    (if screenTimeoutGuard pf w
     then [mkTimedTransition statePOWER stateDARK
             (wrap32 (screenTimeoutSecs_of pf w * 1000)) None]
     else []) /\
  timed_rules_from stateNB f =
    (if ARCH_ESP32 pf
     then
       if HAS_WIFI pf || negb (MESHTASTIC_EXCLUDE_WIFI pf)
       then
         if lightSleepEligible w
         then [mkTimedTransition stateNB stateLS
                 (wrap32 (minWakeSecs_of pf w * 1000)) None]
         else []
       else []
     else []) /\
  timed_rules_from stateDARK f =
    (if ARCH_ESP32 pf
     then
       if HAS_WIFI pf || negb (MESHTASTIC_EXCLUDE_WIFI pf)
       then
         if lightSleepEligible w
         then [mkTimedTransition stateDARK stateLS
                 (wrap32 (bluetoothTimeoutSecs_of pf w * 1000)) None]
         else [mkTimedTransition stateDARK stateDARK
                 (wrap32 (screenTimeoutSecs_of pf w * 1000)) None]
       else []
     else [mkTimedTransition stateDARK stateDARK
             (wrap32 (screenTimeoutSecs_of pf w * 1000)) None]).

(** The calls of the deep-sleep primitive the entry hook of [s] makes when
    no rule leaves SDS. *)
Definition deep_sleeps_on_entry (pf : Platform) (w : World) (s : State)
  : list Ev :=
  match s with
  | stateSDS =>
      if allow_deep_sleep (active_profile w)
      then [EvDoDeepSleep
              (getConfiguredOrDefaultMs1 pf (power_sds_secs (config w)))
              false false]
      else []
  | stateLowBattSDS =>
      [EvDoDeepSleep
         (getConfiguredOrDefaultMs1 pf (power_sds_secs (config w)))
         false true]
  | _ => []
  end.

(** The trace of [PowerFSM_create]: one critical section around everything
    it does. *)
Definition trace_of_create (pf : Platform) (w : World) (evs : list Ev)
  : Prop :=
  exists body,
    evs = EvLock :: body ++ [EvUnlock] /\
    lock_free body = true /\
    deep_sleeps body = deep_sleeps_on_entry pf w (initial_state_of w).

(* ===================================================================== *)
(** ** Scenarios                                                         *)
(* ===================================================================== *)

(** Granular mode, booted on USB; then the cable is pulled. *)
Definition unplugged_client : World :=
  plug false (booted (granular_config Role_CLIENT) true).

(** A sensor in granular mode, booted on battery; then USB is plugged. *)
Definition plugged_sensor : World :=
  plug true (booted (granular_config Role_SENSOR) false).

(** Legacy mode on USB, the profile manager initialised, the machine
    not yet set up. *)
Definition first_boot : World :=
  after init (power_on (legacy_config false) true).

(** Legacy mode, booted on battery, the machine in ON; then USB is
    plugged. *)
Definition on_with_usb : World :=
  plug true (in_state stateON (booted (legacy_config false) false)).

(** Legacy mode on battery, the machine in DARK; then power saving is
    switched on and the resolver runs. *)
Definition dark_then_saving : World :=
  after updateActiveProfile
    (reconfigure (legacy_config true)
       (in_state stateDARK (booted (legacy_config false) false))).

(** The same change of settings within the first three seconds, the
    machine still in BOOT. *)
Definition boot_then_saving : World :=
  after updateActiveProfile
    (reconfigure (legacy_config true) (booted (legacy_config false) true)).

(** Legacy mode on USB (deep sleep not allowed), the machine put in SDS. *)
Definition sds_entered : World :=
  in_state stateSDS (booted (legacy_config false) true).

(** The same machine put in LOW_BATT_SDS. *)
Definition low_battery_entered : World :=
  in_state stateLowBattSDS (booted (legacy_config false) true).

(** Legacy mode, booted on battery and still in BOOT one second later;
    USB has been plugged and a recreation requested. *)
Definition boot_then_plugged : World :=
  with_millis 1000
    (after PowerFSM_reconfigure
       (plug true (booted (legacy_config false) false))).


(* ===================================================================== *)
(** ** The tables of a build, as data                                    *)
(* ===================================================================== *)

(** The plain rules [PowerFSM_create] registers, in the order of the
    source, for a platform and for the profile, the configuration and the
    power source of a world. *)
Definition create_rules (pf : Platform) (w : World) : list Transition :=
  let wakeTarget :=
    if bluetooth_enabled (active_profile w) then stateDARK else stateNB in
  let pressTarget := if hasUSB_of w then statePOWER else stateON in
  [ mkTransition stateLS (if ARCH_ESP32 pf then wakeTarget else stateDARK)
      EVENT_WAKE_TIMER None;
    mkTransition stateLS wakeTarget EVENT_PACKET_FOR_PHONE None;
    mkTransition stateNB stateNB EVENT_PACKET_FOR_PHONE None;
    mkTransition stateNB stateDARK EVENT_PACKET_FOR_PHONE None;
    mkTransition stateLS stateON EVENT_PRESS None;
    mkTransition stateNB stateON EVENT_PRESS None;
    mkTransition stateDARK pressTarget EVENT_PRESS None;
    mkTransition statePOWER statePOWER EVENT_PRESS (Some screenPress_cb);
    mkTransition stateON stateON EVENT_PRESS (Some screenPress_cb);
    mkTransition stateSERIAL stateSERIAL EVENT_PRESS (Some screenPress_cb);
    mkTransition stateBOOT stateLowBattSDS EVENT_LOW_BATTERY None;
    mkTransition stateLS stateLowBattSDS EVENT_LOW_BATTERY None;
    mkTransition stateNB stateLowBattSDS EVENT_LOW_BATTERY None;
    mkTransition stateDARK stateLowBattSDS EVENT_LOW_BATTERY None;
    mkTransition stateON stateLowBattSDS EVENT_LOW_BATTERY None;
    mkTransition stateSERIAL stateLowBattSDS EVENT_LOW_BATTERY None;
    mkTransition stateBOOT stateSHUTDOWN EVENT_SHUTDOWN None;
    mkTransition stateLS stateSHUTDOWN EVENT_SHUTDOWN None;
    mkTransition stateNB stateSHUTDOWN EVENT_SHUTDOWN None;
    mkTransition stateDARK stateSHUTDOWN EVENT_SHUTDOWN None;
    mkTransition stateON stateSHUTDOWN EVENT_SHUTDOWN None;
    mkTransition stateSERIAL stateSHUTDOWN EVENT_SHUTDOWN None;
    mkTransition stateLS stateON EVENT_INPUT None;
    mkTransition stateNB stateON EVENT_INPUT None;
    mkTransition stateDARK stateON EVENT_INPUT None;
    mkTransition stateON stateON EVENT_INPUT None;
    mkTransition statePOWER statePOWER EVENT_INPUT None;
    mkTransition stateDARK stateON EVENT_BLUETOOTH_PAIR None;
    mkTransition stateON stateON EVENT_BLUETOOTH_PAIR None;
    mkTransition stateLS stateSERIAL EVENT_SERIAL_CONNECTED None;
    mkTransition stateNB stateSERIAL EVENT_SERIAL_CONNECTED None;
    mkTransition stateDARK stateSERIAL EVENT_SERIAL_CONNECTED None;
    mkTransition stateON stateSERIAL EVENT_SERIAL_CONNECTED None;
    mkTransition statePOWER stateSERIAL EVENT_SERIAL_CONNECTED None;
    mkTransition stateSERIAL stateON EVENT_SERIAL_DISCONNECTED None;
    mkTransition stateLS statePOWER EVENT_POWER_CONNECTED None;
    mkTransition stateNB statePOWER EVENT_POWER_CONNECTED None;
    mkTransition stateDARK statePOWER EVENT_POWER_CONNECTED None;
    mkTransition stateON statePOWER EVENT_POWER_CONNECTED None;
    mkTransition statePOWER stateON EVENT_POWER_DISCONNECTED None;
    mkTransition stateDARK stateDARK EVENT_CONTACT_FROM_PHONE None ]
  ++ (if screen_stays_responsive (active_profile w)
      then [ mkTransition stateLS stateON EVENT_RECEIVED_MSG None;
             mkTransition stateNB stateON EVENT_RECEIVED_MSG None;
             mkTransition stateDARK stateON EVENT_RECEIVED_MSG None;
             mkTransition stateNB stateON EVENT_NODEDB_UPDATED None;
             mkTransition stateDARK stateON EVENT_NODEDB_UPDATED None ]
      else [ mkTransition stateLS stateLS EVENT_RECEIVED_MSG None;
             mkTransition stateNB stateNB EVENT_RECEIVED_MSG None;
             mkTransition stateDARK stateDARK EVENT_RECEIVED_MSG None;
             mkTransition stateNB stateNB EVENT_NODEDB_UPDATED None;
             mkTransition stateDARK stateDARK EVENT_NODEDB_UPDATED None ])
  ++ [ mkTransition stateON stateON EVENT_RECEIVED_MSG None;
       mkTransition stateON stateON EVENT_NODEDB_UPDATED None ].

(** Whether the build registers the two light-sleep timeouts. *)
Definition lightSleepEnabled (pf : Platform) (w : World) : bool :=
  ARCH_ESP32 pf
  && (HAS_WIFI pf || negb (MESHTASTIC_EXCLUDE_WIFI pf))
  && lightSleepEligible w.

(** The timed rules [PowerFSM_create] registers when it starts in [s]. *)
Definition create_timed_rules (pf : Platform) (w : World) (s : State)
  : list TimedTransition :=
  (if State_eqb s stateBOOT
   then [mkTimedTransition stateBOOT
           (if hasUSB_of w then statePOWER else stateON) 3000 None]
   else [])
  ++ (if screenTimeoutGuard pf w
      then [ mkTimedTransition stateON stateDARK
               (wrap32 (screenTimeoutSecs_of pf w * 1000)) None;
             mkTimedTransition statePOWER stateDARK
               (wrap32 (screenTimeoutSecs_of pf w * 1000)) None ]
      else [])
  ++ (if ARCH_ESP32 pf
      then
        if HAS_WIFI pf || negb (MESHTASTIC_EXCLUDE_WIFI pf)
        then
          if lightSleepEligible w
          then [ mkTimedTransition stateNB stateLS
                   (wrap32 (minWakeSecs_of pf w * 1000)) None;
                 mkTimedTransition stateDARK stateLS
                   (wrap32 (bluetoothTimeoutSecs_of pf w * 1000)) None ]
          else [ mkTimedTransition stateDARK stateDARK
                   (wrap32 (screenTimeoutSecs_of pf w * 1000)) None ]
        else []
      else [ mkTimedTransition stateDARK stateDARK
               (wrap32 (screenTimeoutSecs_of pf w * 1000)) None ]).

(** The engine a build leaves. *)
Definition engine_built (pf : Platform) (w : World) (s : State) : Fsm :=
  mkFsm s (create_rules pf w) (create_timed_rules pf w s) true (millis w).

(** The rules registered for a (state, event) pair, in registration
    order. *)
Definition rules_for (s : State) (e : Event) (f : Fsm) : list Transition :=
  filter (fun t => State_eqb (state_from t) s && Event_eqb (event t) e)
    (m_transitions f).

(** What the machine and its coordinator never touch: the configuration,
    the power status, the collaborators, the clock, the profile records,
    the profile manager, the setup flag and the advertising controller. *)
Definition keeps_settings (w w' : World) : Prop :=
  config w' = config w /\
  powerStatus w' = powerStatus w /\
  external w' = external w /\
  millis w' = millis w /\
  profiles w' = profiles w /\
  powerProfileManager w' = powerProfileManager w /\
  fsmInitialSetupComplete w' = fsmInitialSetupComplete w /\
  nimbleBluetooth w' = nimbleBluetooth w.

(** The states from which [PowerFSM_create] registers the two rules that
    no profile can veto, for low battery and for shutdown. *)
Definition has_safety_rules (s : State) : bool :=
  match s with
  | stateBOOT | stateLS | stateNB | stateDARK | stateON | stateSERIAL => true
  | _ => false
  end.

(** A set of states that no registered rule leaves. *)
Definition closed_under_rules (inside : State -> bool) (f : Fsm) : bool :=
  forallb (fun t => implb (inside (state_from t)) (inside (state_to t)))
    (m_transitions f)
  && forallb (fun t => implb (inside (timed_from t)) (inside (timed_to t)))
       (m_timed_transitions f).

(** The states with the radio link and the processor awake: everything
    but light sleep, its wake-up state NB, and deep sleep. *)
Definition awake_state (s : State) : bool :=
  match s with
  | stateLS | stateNB | stateSDS => false
  | _ => true
  end.

(* ===================================================================== *)
(** ** What a resolution leaves                                          *)
(* ===================================================================== *)

(** The legacy profile of a configuration: the power-saving one for a
    router or with [is_power_saving] set. *)
Definition legacy_choice (cfg : Config) : ProfilePtr :=
  if power_is_power_saving cfg
     || match device_role cfg with Role_ROUTER => true | _ => false end
  then P_legacyPowerSavingProfile
  else P_legacyNormalProfile.

(** The address [selectActiveProfile] returns. *)
Definition selected_ptr (w : World) : ProfilePtr :=
  if granularEnabled (powerProfileManager w) then P_computedProfile
  else legacy_choice (config w).

(** The profile records after a resolution: in granular mode
    [computedProfile] holds the three layers, nothing else changes. *)
Definition resolved_profiles (w : World) : ProfileMem :=
  if granularEnabled (powerProfileManager w)
  then mem_store (profiles w) P_computedProfile
         (resolve_granular_spec (config w) (profiles w) (hasUSB_of w))
  else profiles w.

(** What the profile manager never touches. *)
Definition resolver_frame (w w' : World) : Prop :=
  config w' = config w /\
  powerStatus w' = powerStatus w /\
  external w' = external w /\
  millis w' = millis w /\
  powerFSM w' = powerFSM w /\
  preservedState w' = preservedState w /\
  fsmInitialSetupComplete w' = fsmInitialSetupComplete w /\
  secsSlept w' = secsSlept w /\
  nimbleBluetooth w' = nimbleBluetooth w.

(** The power source as the manager caches it when it publishes. *)
Definition usb_cache (w : World) : bool :=
  match powerStatus w with
  | Some s => getHasUSB s
  | None => lastUSBStatus (powerProfileManager w)
  end.

(* ===================================================================== *)
(** ** What the hooks and the dispatcher leave                           *)
(* ===================================================================== *)

(** What a hook does to the outside: the screen, the radio switch, the
    sleep calls, the power monitor, the LED, and events fired back into the
    machine.  Not among them: the lock, the pending flag, the profile
    records, the engine object, the advertising controller. *)
Definition hook_event (e : Ev) : bool :=
  match e with
  | EvTrigger _ | EvScreenSetOn _ | EvScreenPrint _ | EvScreenOnPress
  | EvSetBluetoothEnable _ | EvDoDeepSleep _ _ _ | EvPowerShutdown
  | EvPowerMonSetState | EvPowerMonClearState | EvLedBlinkSet _
  | EvDoLightSleep _ | EvDelay _ => true
  | _ => false
  end.

(** What a dispatch leaves of the globals: all but the light-sleep counter
    and the position of the engine. *)
Definition hook_frame (w w' : World) : Prop :=
  keeps_settings w w' /\
  fsmRecreationPending w' = fsmRecreationPending w /\
  preservedState w' = preservedState w /\
  same_tables (powerFSM w) (powerFSM w').

(** A computation that, whenever it returns, has kept [hook_frame] and
    has performed hook operations only. *)
Definition respects {A : Type} (m : M A) : Prop :=
  forall w a w' evs,
    m w = Some (a, w', evs) ->
    hook_frame w w' /\ forallb hook_event evs = true.

(** One round of [lsIdle] that sleeps and is woken by the timer. *)
Definition light_sleep_round (pf : Platform) : list Ev :=
  [ EvPowerMonSetState; EvLedBlinkSet false;
    EvDoLightSleep (SLEEP_TIME pf * 1000); EvPowerMonClearState;
    EvLedBlinkSet true; EvDoLightSleep 100 ].

(** A hook called [n] times in a row, as the main loop calls the idle hook
    of a state pass after pass. *)
Fixpoint repeat_call (n : nat) (m : M unit) : M unit :=
  match n with
  | O => ret tt
  | S k => m ;; repeat_call k m
  end.

(** Granular mode with a user profile for battery power. *)
Definition user_battery_config (role : Role) : Config :=
  {| device_role := role;
     device_button_gpio := 0;
     power_is_power_saving := false;
     power_use_granular_power_management := true;
     power_force_profile := PROFILE_AUTO;
     power_has_plugged_in_profile := false;
     power_has_battery_profile := true;
     power_sds_secs := 3600;
     power_ls_secs := 300;
     power_wait_bluetooth_secs := 0;
     power_min_wake_secs := 0;
     display_screen_on_secs := 0 |}.

(* ===================================================================== *)
(** * Proofs                                                             *)
(* ===================================================================== *)

(** ** Rules of the weakest precondition *)

Lemma wp_bind : forall (A B : Type) (m : M A) (k : A -> M B) Q w,
  wp m (fun a w1 l1 => wp (k a) (fun b w2 l2 => Q b w2 (l1 ++ l2)) w1) w ->
  wp (bind m k) Q w.
Proof.
  intros A B m k Q w. unfold wp, bind.
  destruct (m w) as [[[a w1] l1]|]; [|tauto].
  destruct (k a w1) as [[[b w2] l2]|]; tauto.
Qed.

Lemma wp_ret : forall (A : Type) (a : A) Q w, Q a w [] -> wp (ret a) Q w.
Proof. intros A a Q w H. exact H. Qed.

Lemma wp_gets : forall (A : Type) (f : World -> A) Q w,
  Q (f w) w [] -> wp (gets f) Q w.
Proof. intros A f Q w H. exact H. Qed.

Lemma wp_modify : forall f (Q : unit -> World -> list Ev -> Prop) w,
  Q tt (f w) [] -> wp (modify f) Q w.
Proof. intros f Q w H. exact H. Qed.

Lemma wp_emit : forall e (Q : unit -> World -> list Ev -> Prop) w,
  Q tt w [e] -> wp (emit e) Q w.
Proof. intros e Q w H. exact H. Qed.

Lemma wp_mono : forall (A : Type) (m : M A)
  (Q1 Q2 : A -> World -> list Ev -> Prop) w,
  wp m Q1 w -> (forall a w' l, Q1 a w' l -> Q2 a w' l) -> wp m Q2 w.
Proof.
  intros A m Q1 Q2 w H HQ. unfold wp in *.
  destruct (m w) as [[[a w'] l]|]; [apply HQ; exact H | exact H].
Qed.

Lemma wp_elim : forall (A : Type) (m : M A) Q w,
  wp m Q w -> exists a w' l, m w = Some (a, w', l) /\ Q a w' l.
Proof.
  intros A m Q w H. unfold wp in H.
  destruct (m w) as [[[a w'] l]|]; [|contradiction].
  exists a, w', l. split; [reflexivity | exact H].
Qed.

Lemma wp_intro : forall (A : Type) (m : M A)
  (Q : A -> World -> list Ev -> Prop) w a w' l,
  m w = Some (a, w', l) -> Q a w' l -> wp m Q w.
Proof. intros A m Q w a w' l E H. unfold wp. rewrite E. exact H. Qed.

(** ** Symbolic execution, one operation at a time *)

(** Normal form of a world or of a value read from it. *)
Ltac wnorm t :=
  eval cbv beta iota zeta delta
    [config powerStatus external millis profiles powerProfileManager powerFSM
     preservedState fsmRecreationPending fsmInitialSetupComplete secsSlept
     nimbleBluetooth with_profiles with_powerProfileManager with_powerFSM
     with_preservedState with_fsmRecreationPending
     with_fsmInitialSetupComplete with_secsSlept with_nimbleBluetooth
     with_powerStatus with_millis
     currentProfile granularEnabled lastUSBStatus advertisingActive getHasUSB
     m_current_state m_transitions m_timed_transitions m_initialized
     m_entry_time Fsm_new Fsm_add_transition Fsm_add_timed_transition
     Fsm_enter Fsm_set_initialized
     state_from state_to event on_transition
     timed_from timed_to interval timed_on_transition
     Fsm_lookup mem_store ProfilePtr_eqb ptr_eqb store_field
     allow_deep_sleep allow_light_sleep bluetooth_enabled wifi_enabled
     screen_stays_responsive gps_enabled screen_timeout_secs
     bluetooth_timeout_secs min_wake_secs max_power_state
     ARCH_ESP32 USE_EINK HAS_WIFI MESHTASTIC_EXCLUDE_WIFI BUTTON_PIN
     SLEEP_TIME getConfiguredOrDefaultMs1 getConfiguredOrDefaultMs
     default_screen_on_secs default_wait_bluetooth_secs default_min_wake_secs
     device_role device_button_gpio power_is_power_saving
     power_use_granular_power_management power_force_profile
     power_has_plugged_in_profile power_has_battery_profile power_sds_secs
     power_ls_secs power_wait_bluetooth_secs power_min_wake_secs
     display_screen_on_secs
     isWifiAvailable doPreflightSleep doLightSleep_cause digitalRead
     State_eqb Event_eqb on_enter on_exit on_state negb andb orb app] in t.

(** The constant at the head of an application. *)
Ltac head t := lazymatch t with ?f _ => head f | _ => t end.

(** A record read from the world gets a name and is taken apart, so that
    later tests on its fields compute. *)
Ltac name_value v :=
  first
    [ is_var v
    | lazymatch goal with H : _ = v |- _ => rewrite <- H end
    | lazymatch type of v with
      | PowerProfile =>
          lazymatch v with
          | mkProfile _ _ _ _ _ _ _ _ _ _ => idtac
          | _ => let x := fresh "ap" in remember v as x; destruct x
          end
      | PowerProfileManager =>
          lazymatch v with
          | mkManager _ _ _ => idtac
          | _ => let x := fresh "mgr" in remember v as x; destruct x
          end
      | _ => idtac
      end ].

(** Case analysis on an undecided test. *)
Ltac split_on c :=
  match c with
  | context [match ?s with _ => _ end] => is_var s; destruct s
  | _ => destruct c eqn:?
  end.

(** One step: the rule of the operation at the head, a test decided or
    split, or the definition of the function called unfolded. *)
Ltac wp_step :=
  lazymatch goal with
  | |- wp (bind _ _) _ _ => apply wp_bind
  | |- wp (ret _) _ _ => apply wp_ret; cbv beta zeta
  | |- wp (gets ?f) ?Q ?w =>
      apply wp_gets;
      let v := wnorm (f w) in change (Q v w []);
      name_value v; cbv beta zeta
  | |- wp (modify ?f) ?Q ?w =>
      apply wp_modify;
      let v := wnorm (f w) in change (Q tt v []); cbv beta zeta
  | |- wp (emit _) _ _ => apply wp_emit; cbv beta zeta
  | |- wp out_of_fuel _ _ => fail "out of fuel"
  | |- wp (when ?c ?m) ?Q ?w =>
      let c' := wnorm c in
      lazymatch c' with
      | true => change (wp m Q w)
      | false => change (wp (ret tt) Q w)
      | _ => change (wp (when c' m) Q w); split_on c'
      end
  | |- wp (if ?c then ?a else ?b) ?Q ?w =>
      let c' := wnorm c in
      lazymatch c' with
      | true => change (wp a Q w)
      | false => change (wp b Q w)
      | _ => change (wp (if c' then a else b) Q w); split_on c'
      end
  | |- wp (match ?x with _ => _ end) ?Q ?w =>
      let x' := wnorm x in
      first [ progress (change x with x'); cbv iota
            | split_on x ]
  | |- wp (Fsm_trigger ?pf (S ?n) ?e) ?Q ?w =>
      let m' := eval cbn [Fsm_trigger] in (Fsm_trigger pf (S n) e) in
      change (wp m' Q w)
  | |- wp ?m ?Q ?w =>
      let h := head m in
      let m' := eval cbv beta iota zeta delta [h] in m in change (wp m' Q w)
  end.

Ltac wp_run := repeat wp_step.

(** Puts the records loaded during a run back in place of their fields. *)
Ltac use_loads :=
  repeat match goal with
         | H : mkProfile _ _ _ _ _ _ _ _ _ _ = _ |- _ => rewrite <- H; clear H
         end.

(** ** The granular resolver *)

(** [computeLayeredProfile] always returns the address of
    [computedProfile], stores nowhere else, and leaves in it the profile the
    three layers give. *)
Lemma computeLayeredProfile_spec : forall w,
  wp computeLayeredProfile
    (fun p w' evs =>
       p = P_computedProfile /\
       profiles w' P_computedProfile =
         resolve_granular_spec (config w) (profiles w) (hasUSB_of w) /\
       (forall q, q <> P_computedProfile -> profiles w' q = profiles w q) /\
       w' = with_profiles (profiles w') w /\
       Forall (fun e => is_store_to P_computedProfile e = true) evs) w.
Proof.
  intros w.
  destruct w as [cfg ps ext ms prof mgr fsm pres pend comp slept nb].
  destruct cfg as [role gpio psav gran force hp hb sds lss wbt mwk son].
  destruct force.
  all: wp_run.
  all: (split; [reflexivity|]; split;
     [ cbv [resolve_granular_spec user_override_spec base_profile_spec
            role_modifiers_spec hasUSB_of config profiles powerStatus
            getHasUSB device_role power_force_profile
            power_has_plugged_in_profile power_has_battery_profile
            andb negb];
       use_loads; reflexivity
     | split;
       [ intros q Hq; destruct q; solve [reflexivity | congruence]
       | split; [reflexivity | repeat constructor] ] ]).
Qed.


(** ** Computations that register rules *)

Lemma with_powerFSM_twice : forall f g w,
  with_powerFSM g (with_powerFSM f w) = with_powerFSM g w.
Proof. intros. reflexivity. Qed.

Lemma Fsm_append_append : forall r1 t1 r2 t2 f,
  Fsm_append r2 t2 (Fsm_append r1 t1 f) = Fsm_append (r1 ++ r2) (t1 ++ t2) f.
Proof.
  intros. unfold Fsm_append. cbn. rewrite <- !app_assoc. reflexivity.
Qed.

Lemma repeat_writes : forall (a b c d : nat),
  repeat EvFsmWrite (a + b) ++ repeat EvFsmWrite (c + d) =
  repeat EvFsmWrite ((a + c) + (b + d)).
Proof.
  intros. rewrite <- repeat_app. f_equal. lia.
Qed.

Lemma reg_ret : registers (ret tt) (fun _ => []) (fun _ => []).
Proof.
  split; [intros f w; reflexivity|]. split; [intros f w; reflexivity|].
  intros w. unfold ret. cbn. unfold Fsm_append. rewrite !app_nil_r.
  destruct w as [a b c d e f g h i j k l]; destruct g; reflexivity.
Qed.

Lemma reg_add_transition : forall from to e action name,
  registers (add_transition from to e action name)
    (fun _ => [mkTransition from to e action]) (fun _ => []).
Proof.
  intros. split; [intros f w; reflexivity|]. split; [intros f w; reflexivity|].
  intros w. unfold add_transition, bind, modify, emit, Fsm_append,
    Fsm_add_transition. cbn. rewrite app_nil_r. reflexivity.
Qed.

Lemma reg_add_timed_transition : forall from to ms action name,
  registers (add_timed_transition from to ms action name)
    (fun _ => []) (fun _ => [mkTimedTransition from to ms action]).
Proof.
  intros. split; [intros f w; reflexivity|]. split; [intros f w; reflexivity|].
  intros w. unfold add_timed_transition, bind, modify, emit, Fsm_append,
    Fsm_add_timed_transition. cbn. rewrite app_nil_r. reflexivity.
Qed.

Lemma reg_seq : forall m1 m2 r1 t1 r2 t2,
  registers m1 r1 t1 -> registers m2 r2 t2 ->
  registers (m1 ;; m2) (fun w => r1 w ++ r2 w) (fun w => t1 w ++ t2 w).
Proof.
  intros m1 m2 r1 t1 r2 t2 (Sr1 & St1 & H1) (Sr2 & St2 & H2).
  split; [intros f w; rewrite Sr1, Sr2; reflexivity|].
  split; [intros f w; rewrite St1, St2; reflexivity|].
  intros w. unfold bind. rewrite H1, H2, Sr2, St2.
  cbn [powerFSM with_powerFSM]. rewrite with_powerFSM_twice.
  rewrite Fsm_append_append, !length_app, repeat_writes. reflexivity.
Qed.

Lemma zip_if_eq : forall (A : Type) (c : bool) (l1 l2 : list A),
  zip_if c l1 l2 = if c then l1 else l2.
Proof.
  intros A c l1. induction l1 as [|a l1 IH]; intros l2.
  - destruct l2; destruct c; reflexivity.
  - destruct l2 as [|b l2]; [reflexivity|]. cbn [zip_if]. rewrite IH.
    destruct c; reflexivity.
Qed.

Lemma registers_ext : forall m r t (R : World -> list Transition)
  (T : World -> list TimedTransition),
  (forall w, R w = r w) -> (forall w, T w = t w) ->
  registers m r t -> registers m R T.
Proof.
  intros m r t R T HR HT (Sr & St & H).
  split; [intros f w; rewrite !HR; apply Sr|].
  split; [intros f w; rewrite !HT; apply St|].
  intros w. rewrite HR, HT. apply H.
Qed.

Lemma registers_eq : forall m r t R T,
  registers m r t -> R = r -> T = t -> registers m R T.
Proof. intros m r t R T H -> ->. exact H. Qed.

Lemma reg_if : forall (c : bool) m1 m2 r1 t1 r2 t2,
  registers m1 r1 t1 -> registers m2 r2 t2 ->
  registers (if c then m1 else m2)
    (fun w => zip_if c (r1 w) (r2 w)) (fun w => zip_if c (t1 w) (t2 w)).
Proof.
  intros c m1 m2 r1 t1 r2 t2 H1 H2.
  apply registers_ext with (r := fun w => if c then r1 w else r2 w)
                           (t := fun w => if c then t1 w else t2 w).
  - intros w. apply zip_if_eq.
  - intros w. apply zip_if_eq.
  - destruct c; assumption.
Qed.

Lemma reg_when : forall (c : bool) m r t,
  registers m r t ->
  registers (when c m)
    (fun w => zip_if c (r w) []) (fun w => zip_if c (t w) []).
Proof.
  intros c m r t H. unfold when. apply reg_if; [exact H | exact reg_ret].
Qed.

Lemma reg_read : forall (A : Type) (rd : M A) (v : World -> A)
  (k : A -> M unit) r t,
  pure_read rd v ->
  (forall x, registers (k x) (r x) (t x)) ->
  registers (bind rd k) (fun w => r (v w) w) (fun w => t (v w) w).
Proof.
  intros A rd v k r t (Sv & Hrd) Hk.
  split; [intros f w; rewrite Sv; apply (Hk (v w))|].
  split; [intros f w; rewrite Sv; apply (Hk (v w))|].
  intros w. unfold bind. rewrite Hrd.
  destruct (Hk (v w)) as (_ & _ & H). rewrite H. reflexivity.
Qed.

Lemma pure_read_gets : forall (A : Type) (f : World -> A),
  stable f -> pure_read (gets f) f.
Proof. intros A f H. split; [exact H | intros w; reflexivity]. Qed.

Lemma pure_read_query : forall (A : Type) (field : PowerProfile -> A),
  pure_read (query field) (fun w => field (active_profile w)).
Proof. intros. split; [intros f w; reflexivity | intros w; reflexivity]. Qed.

Lemma pure_read_getScreenTimeoutSecs : forall pf,
  pure_read (getScreenTimeoutSecs pf) (screenTimeoutSecs_of pf).
Proof. intros. split; [intros f w; reflexivity | intros w; reflexivity]. Qed.

Lemma pure_read_getBluetoothTimeoutSecs : forall pf,
  pure_read (getBluetoothTimeoutSecs pf) (bluetoothTimeoutSecs_of pf).
Proof. intros. split; [intros f w; reflexivity | intros w; reflexivity]. Qed.

Lemma pure_read_getMinWakeSecs : forall pf,
  pure_read (getMinWakeSecs pf) (minWakeSecs_of pf).
Proof. intros. split; [intros f w; reflexivity | intros w; reflexivity]. Qed.

Lemma pure_read_hasUSB : pure_read read_hasUSB hasUSB_of.
Proof. split; [intros f w; reflexivity | intros w; reflexivity]. Qed.

Lemma wp_bind_read : forall (A B : Type) (rd : M A) (v : World -> A)
  (k : A -> M B) Q w,
  pure_read rd v -> wp (k (v w)) Q w -> wp (bind rd k) Q w.
Proof.
  intros A B rd v k Q w (_ & Hrd) H. unfold wp, bind in *. rewrite Hrd.
  destruct (k (v w) w) as [[[b w2] l2]|]; exact H.
Qed.

Lemma wp_bind_registers : forall (B : Type) m r t (k : unit -> M B) Q w,
  registers m r t ->
  wp (k tt)
     (fun b w2 l2 =>
        Q b w2 (repeat EvFsmWrite (List.length (r w) + List.length (t w)) ++ l2))
     (with_powerFSM (Fsm_append (r w) (t w) (powerFSM w)) w) ->
  wp (bind m k) Q w.
Proof.
  intros B m r t k Q w (_ & _ & Hm) H. unfold wp, bind in *. rewrite Hm.
  destruct (k tt _) as [[[b w2] l2]|]; exact H.
Qed.


(** ** Symbolic execution of the build *)

(** The reads of the build, each with the value it returns. *)
Ltac pure_reads :=
  first
    [ apply pure_read_hasUSB
    | apply pure_read_getScreenTimeoutSecs
    | apply pure_read_getBluetoothTimeoutSecs
    | apply pure_read_getMinWakeSecs
    | apply pure_read_query
    | apply pure_read_gets; intros ? ?; reflexivity ].

(** Finds the rules a block of registrations appends. *)
Ltac reg :=
  cbv beta zeta;
  lazymatch goal with
  | |- registers (add_transition _ _ _ _ _) _ _ => apply reg_add_transition
  | |- registers (add_timed_transition _ _ _ _ _) _ _ =>
      apply reg_add_timed_transition
  | |- registers (ret tt) _ _ => apply reg_ret
  | |- registers (when _ _) _ _ =>
      eapply registers_eq; [eapply reg_when; reg | reflexivity | reflexivity]
  | |- registers (if _ then _ else _) _ _ =>
      eapply registers_eq; [eapply reg_if; reg | reflexivity | reflexivity]
  | |- registers (bind (add_transition _ _ _ _ _) _) _ _ =>
      eapply registers_eq;
      [eapply reg_seq; [apply reg_add_transition | reg]
      | reflexivity | reflexivity]
  | |- registers (bind (add_timed_transition _ _ _ _ _) _) _ _ =>
      eapply registers_eq;
      [eapply reg_seq; [apply reg_add_timed_transition | reg]
      | reflexivity | reflexivity]
  | |- registers (bind _ _) _ _ =>
      eapply registers_eq;
      [eapply reg_read; [pure_reads | intros ?; reg]
      | reflexivity | reflexivity]
  | |- registers ?m _ _ =>
      let h := head m in unfold h; reg
  end.


(** Normal form of a world: setters, projections and tests on states
    and events computed, lists of rules left as appended. *)
Ltac engine_norm t :=
  eval cbv beta iota zeta delta
    [config powerStatus external millis profiles powerProfileManager powerFSM
     preservedState fsmRecreationPending fsmInitialSetupComplete secsSlept
     nimbleBluetooth with_profiles with_powerProfileManager with_powerFSM
     with_preservedState with_fsmRecreationPending
     with_fsmInitialSetupComplete with_secsSlept with_nimbleBluetooth
     with_powerStatus with_millis
     currentProfile granularEnabled lastUSBStatus advertisingActive getHasUSB
     m_current_state m_transitions m_timed_transitions m_initialized
     m_entry_time Fsm_new Fsm_add_transition Fsm_add_timed_transition
     Fsm_enter Fsm_set_initialized Fsm_append
     state_from state_to event on_transition
     timed_from timed_to interval timed_on_transition
     Fsm_lookup mem_store ProfilePtr_eqb ptr_eqb store_field
     State_eqb Event_eqb on_enter on_exit on_state
     hasUSB_of active_profile screenTimeoutSecs_of bluetoothTimeoutSecs_of
     minWakeSecs_of
     negb andb orb] in t.

(** After a block of registrations: the engine and the count of its
    writes brought to normal form. *)
Ltac wp_tidy :=
  lazymatch goal with
  | |- wp ?m ?Q ?w =>
      let m' := eval cbv beta zeta in m in
      let Q' := eval cbn beta iota zeta delta
        [zip_if repeat List.length Nat.add app] in Q in
      let w' := engine_norm w in
      change (wp m' Q' w')
  end.

(** Case analysis on the innermost scrutinee of an undecided test. *)
Ltac split_atom c :=
  match c with
  | context [match ?s with _ => _ end] =>
      lazymatch s with
      | context [match _ with _ => _ end] => fail
      | _ => first [ is_var s; destruct s | destruct s eqn:? ]
      end
  | _ => destruct c eqn:?
  end.

(** The value of a read, in terms of the fields of the start world. *)
Ltac read_value :=
  lazymatch goal with
  | |- wp (?k ?x) ?Q ?w =>
      let x' := eval cbv beta iota zeta delta
        [hasUSB_of active_profile screenTimeoutSecs_of bluetoothTimeoutSecs_of
         minWakeSecs_of
         config powerStatus external millis profiles powerProfileManager
         powerFSM preservedState fsmRecreationPending
         fsmInitialSetupComplete secsSlept nimbleBluetooth] in x in
      let m' := eval cbv beta zeta in (k x') in
      change (wp m' Q w)
  end.

(** One step of the build: a block that only registers rules is taken
    at once, tests included, so that the run does not fork on them. *)
Ltac build_step :=
  lazymatch goal with
  | |- wp (bind (add_transition _ _ _ _ _) _) _ _ =>
      eapply wp_bind_registers; [apply reg_add_transition | wp_tidy]
  | |- wp (bind (add_timed_transition _ _ _ _ _) _) _ _ =>
      eapply wp_bind_registers; [apply reg_add_timed_transition | wp_tidy]
  | |- wp (bind (when _ _) _) _ _ =>
      eapply wp_bind_registers; [reg | wp_tidy]
  | |- wp (bind (if _ then _ else _) _) _ _ =>
      first [ eapply wp_bind_registers; [reg | wp_tidy] | apply wp_bind ]
  | |- wp (bind (bind _ _) _) _ _ => apply wp_bind
  | |- wp (bind (match _ with _ => _ end) _) _ _ => apply wp_bind
  | |- wp (bind ?rd _) _ _ =>
      first [ eapply wp_bind_read; [pure_reads | read_value]
            | apply wp_bind ]
  | |- wp (ret _) _ _ => apply wp_ret; cbv beta zeta
  | |- wp (gets ?f) ?Q ?w =>
      apply wp_gets;
      let v := engine_norm (f w) in change (Q v w []); cbv beta zeta
  | |- wp (modify ?f) ?Q ?w =>
      apply wp_modify;
      let v := engine_norm (f w) in change (Q tt v []); cbv beta zeta
  | |- wp (emit _) _ _ => apply wp_emit; cbv beta zeta
  | |- wp out_of_fuel _ _ => fail "out of fuel"
  | |- wp (when ?c ?m) ?Q ?w =>
      let c' := engine_norm c in
      lazymatch c' with
      | true => change (wp m Q w)
      | false => change (wp (ret tt) Q w)
      | _ => change (wp (when c' m) Q w); split_atom c'
      end
  | |- wp (if ?c then ?a else ?b) ?Q ?w =>
      let c' := engine_norm c in
      lazymatch c' with
      | true => change (wp a Q w)
      | false => change (wp b Q w)
      | _ => change (wp (if c' then a else b) Q w); split_atom c'
      end
  | |- wp (match ?x with _ => _ end) ?Q ?w =>
      let x' := engine_norm x in
      first [ progress (change x with x'); cbv iota
            | split_atom x ]
  | |- wp (Fsm_trigger ?pf (S ?n) ?e) ?Q ?w =>
      let m' := eval cbn [Fsm_trigger] in (Fsm_trigger pf (S n) e) in
      change (wp m' Q w)
  | |- wp ?m ?Q ?w =>
      let h := head m in
      let m' := eval cbv beta iota zeta delta [h] in m in change (wp m' Q w)
  end.


(** Everything computed, lists of rules included. *)
Ltac leaf_norm :=
  cbv beta iota zeta delta
    [frame_of_create engine_of_create initial_state_of
     hasUSB_of active_profile screenTimeoutSecs_of bluetoothTimeoutSecs_of
     minWakeSecs_of lightSleepEligible screenTimeoutGuard
     table_avoids_SDS rule_avoids_SDS timed_rule_avoids_SDS timed_rules_from
     table_actions_plain rule_action_plain timed_rule_action_plain
     Fsm_target Fsm_lookup forallb filter deep_sleeps
     is_fsm_write is_trigger is_deep_sleep is_lock_event is_pending_access
     config powerStatus external millis profiles powerProfileManager powerFSM
     preservedState fsmRecreationPending fsmInitialSetupComplete secsSlept
     nimbleBluetooth
     currentProfile granularEnabled lastUSBStatus advertisingActive getHasUSB
     m_current_state m_transitions m_timed_transitions m_initialized
     m_entry_time Fsm_set_initialized
     state_from state_to event on_transition
     timed_from timed_to interval timed_on_transition
     State_eqb Event_eqb negb andb orb zip_if repeat List.length Nat.add app].

(** Case analysis on the innermost undecided tests of the goal. *)
Ltac decide_ifs :=
  repeat match goal with
         | |- context [match ?c with _ => _ end] =>
             lazymatch c with
             | context [match _ with _ => _ end] => fail
             | _ => destruct c
             end
         end.

(** ** The engine's dispatch *)

Lemma Fsm_trigger_ignored : forall pf fuel e w,
  Fsm_lookup (m_current_state (powerFSM w)) e (m_transitions (powerFSM w))
    = None ->
  Fsm_trigger pf (S fuel) e w = Some (tt, w, [EvTrigger e]).
Proof.
  intros pf fuel e w H. cbn [Fsm_trigger]. unfold bind, emit, gets.
  rewrite H. reflexivity.
Qed.

(** The first pass of a fresh engine runs the entry hook of its state, and
    that is all it does when no rule leaves SDS. *)
Lemma Fsm_run_machine_spec : forall pf fuel w,
  m_initialized (powerFSM w) = false ->
  (forall e, Fsm_lookup stateSDS e (m_transitions (powerFSM w)) = None) ->
  wp (Fsm_run_machine pf (S fuel))
     (fun _ w' evs =>
        w' = with_secsSlept
               (if State_eqb (m_current_state (powerFSM w)) stateLS
                then 0 else secsSlept w)
               (with_powerFSM
                  (Fsm_set_initialized (millis w) (powerFSM w)) w) /\
        forallb quiet_event evs = true /\
        deep_sleeps evs =
          deep_sleeps_on_entry pf w (m_current_state (powerFSM w))) w.
Proof.
  intros pf fuel w Hinit Hsds.
  destruct w as [cfg ps ext ms prof mgr fsm pres pend comp slept nb].
  destruct fsm as [cur tr tt ini et].
  destruct mgr as [cp gran lu].
  cbn in Hinit, Hsds. subst ini.
  unfold Fsm_run_machine.
  do 6 build_step.
  destruct cur.
  all: repeat
    lazymatch goal with
    | |- wp (Fsm_trigger _ (S _) _) _ _ =>
        eapply wp_intro; [apply Fsm_trigger_ignored; apply Hsds | cbv beta]
    | |- _ => build_step
    end.
  all: cbv beta iota zeta delta
         [active_profile profiles powerProfileManager config currentProfile
          m_current_state powerFSM State_eqb secsSlept millis with_secsSlept
          with_powerFSM Fsm_set_initialized app deep_sleeps_on_entry].
  all: repeat match goal with
       | H : ?c = _ |- context [?c] => rewrite H
       end.
  all: repeat split.
Qed.

(** ** Critical sections *)




Lemma quiet_lock_free : forall evs,
  forallb quiet_event evs = true -> lock_free evs = true.
Proof.
  intros evs H. unfold lock_free. rewrite forallb_forall in *. intros e He.
  specialize (H e He). unfold quiet_event in H.
  rewrite negb_orb in H. apply andb_true_iff in H. tauto.
Qed.

Lemma lock_free_app : forall a b,
  lock_free (a ++ b) = lock_free a && lock_free b.
Proof. intros. apply forallb_app. Qed.

Lemma lock_free_writes : forall n, lock_free (repeat EvFsmWrite n) = true.
Proof. induction n as [|n IH]; [reflexivity | exact IH]. Qed.

Lemma lock_free_cons_write : forall l,
  lock_free (EvFsmWrite :: l) = lock_free l.
Proof. reflexivity. Qed.

Lemma deep_sleeps_app : forall a b,
  deep_sleeps (a ++ b) = deep_sleeps a ++ deep_sleeps b.
Proof. intros. unfold deep_sleeps. apply filter_app. Qed.

Lemma deep_sleeps_writes : forall n, deep_sleeps (repeat EvFsmWrite n) = [].
Proof. induction n as [|n IH]; [reflexivity | exact IH]. Qed.

Lemma deep_sleeps_cons_write : forall l,
  deep_sleeps (EvFsmWrite :: l) = deep_sleeps l.
Proof. reflexivity. Qed.


(** ** The build, once and for all *)

(** The tests of the goal computed, lists of rules left as appended. *)
Ltac cond_norm :=
  cbv beta iota zeta delta
    [initial_state_of
     hasUSB_of active_profile screenTimeoutSecs_of bluetoothTimeoutSecs_of
     minWakeSecs_of lightSleepEligible screenTimeoutGuard
     table_avoids_SDS table_actions_plain timed_rules_from Fsm_target
     config powerStatus external millis profiles powerProfileManager powerFSM
     preservedState fsmRecreationPending fsmInitialSetupComplete secsSlept
     nimbleBluetooth
     currentProfile granularEnabled lastUSBStatus advertisingActive getHasUSB
     m_current_state m_transitions m_timed_transitions m_initialized
     m_entry_time
     State_eqb Event_eqb negb andb orb].

(** Case analysis on the tests that decide which rules a list holds. *)
Ltac decide_spines :=
  rewrite ?zip_if_eq;
  repeat match goal with
         | |- context [if ?c then ?a else _] =>
             lazymatch type of a with
             | list _ => destruct c
             end
         end.

(** One fact of [engine_of_create], on the plain or on the timed table. *)
Ltac engine_fact :=
  lazymatch goal with
  | |- andb _ _ = true => apply andb_true_intro; split; engine_fact
  | |- context [timed_rule_avoids_SDS] =>
      cond_norm; decide_spines; leaf_norm; decide_ifs; reflexivity
  | |- context [timed_rule_action_plain] =>
      cond_norm; decide_spines; leaf_norm; decide_ifs; reflexivity
  | |- context [filter] =>
      cond_norm; decide_spines; try reflexivity;
      leaf_norm; decide_ifs; reflexivity
  | |- _ => leaf_norm; decide_ifs; reflexivity
  end.

Ltac engine_facts :=
  cbv [with_secsSlept with_powerFSM powerFSM Fsm_set_initialized
       m_timed_transitions m_transitions m_current_state m_initialized
       m_entry_time];
  unfold engine_of_create;
  cbv beta iota delta
    [m_current_state m_transitions m_timed_transitions m_initialized
     m_entry_time table_avoids_SDS table_actions_plain timed_rules_from
     Fsm_target];
  repeat apply conj; engine_fact.

(** The trace of the build is the lock, the writes and the entry pass,
    the release. *)
Ltac trace_facts Hq Hd :=
  unfold trace_of_create;
  lazymatch goal with
  | |- context [EvLock :: EvFsmWrite :: ?X ++ [EvUnlock] ++ []] =>
      exists (EvFsmWrite :: X);
      split; [reflexivity | split];
      [ repeat (rewrite lock_free_app || rewrite lock_free_writes
                || rewrite lock_free_cons_write || cbn [app andb]);
        exact Hq
      | repeat (rewrite deep_sleeps_app || rewrite deep_sleeps_writes
                || rewrite deep_sleeps_cons_write || cbn [app]);
        rewrite Hd; reflexivity ]
  end.

Lemma PowerFSM_create_spec : forall pf w fuel,
  wp (PowerFSM_create pf (S fuel))
     (fun _ w' evs =>
        frame_of_create w w' /\
        engine_of_create pf w (initial_state_of w) (powerFSM w') /\
        trace_of_create pf w evs) w.
Proof.
  intros pf w fuel.
  destruct w as [cfg ps ext ms prof mgr fsm pres pend comp slept nb].
  destruct mgr as [cp gran lu].
  repeat
    lazymatch goal with
    | |- wp (Fsm_run_machine _ _) _ _ => fail
    | |- _ => build_step
    end.
  all: (eapply wp_mono;
    [ apply Fsm_run_machine_spec;
      [ reflexivity | intros e; leaf_norm; decide_ifs; reflexivity ]
    | ]).
  all: intros [] w' evs (-> & Hq & Hd); cbv beta.
  all: repeat build_step.
  all: apply quiet_lock_free in Hq.
  all: split; [|split].
  1,4: leaf_norm; cbv [with_secsSlept with_powerFSM]; repeat apply conj;
       reflexivity.
  1,3: engine_facts.
  all: trace_facts Hq Hd.
Qed.

(* ===================================================================== *)
(** * The claims                                                         *)
(* ===================================================================== *)

(** ** The profile resolver *)

(** Resolution touches nothing but profile records. *)
Lemma selectActiveProfile_spec : forall w,
  wp selectActiveProfile
    (fun p w' evs => w' = with_profiles (profiles w') w) w.
Proof.
  intros w. unfold selectActiveProfile.
  apply wp_bind, wp_gets.
  destruct (granularEnabled (powerProfileManager w)); cbn [negb].
  - eapply wp_mono; [apply computeLayeredProfile_spec|].
    intros p w' evs (_ & _ & _ & H & _). exact H.
  - destruct w as [cfg ps ext ms prof mgr fsm pres pend comp slept nb].
    wp_run; reflexivity.
Qed.

(** X1.  [updateActiveProfile] compares addresses: when the address the
    resolver returns is the published one, nothing is published and the
    call returns [false]; otherwise the address is published, a recreation
    is scheduled if the initial setup is complete, and the call returns
    [true]. *)
Lemma updateActiveProfile_by_identity : forall w,
  exists p w1 evs1 w2,
    selectActiveProfile w = Some (p, w1, evs1) /\
    let same := ptr_eqb (Some p) (currentProfile (powerProfileManager w)) in
    updateActiveProfile w =
      Some (negb same, w2,
            evs1 ++ (if negb same && fsmInitialSetupComplete w
                     then [EvPendingWrite true] else [])) /\
    currentProfile (powerProfileManager w2) =
      (if same then currentProfile (powerProfileManager w) else Some p) /\
    profiles w2 = profiles w1 /\
    fsmRecreationPending w2 =
      (negb same && fsmInitialSetupComplete w || fsmRecreationPending w) /\
    (same = true -> w2 = w1).
Proof.
  intros w.
  destruct (wp_elim _ _ _ _ (selectActiveProfile_spec w))
    as (p & w1 & evs1 & E & Hw1).
  set (m := profiles w1) in *. clearbody m. subst w1.
  exists p, (with_profiles m w), evs1.
  unfold updateActiveProfile, bind. rewrite E.
  destruct w as [cfg ps ext ms prof mgr fsm pres pend comp slept nb].
  destruct mgr as [cp gran lu].
  cbn -[ptr_eqb].
  destruct (ptr_eqb (Some p) cp); cbn.
  - eexists. split; [reflexivity|].
    split; [rewrite app_nil_r; reflexivity|]. repeat split.
  - destruct ps as [s|], comp; cbn; eexists;
      (split; [reflexivity|]); (split; [reflexivity|]); repeat split;
      intros; discriminate.
Qed.

(** C5.  Granular resolution is the three layers of the specification:
    in granular mode [selectActiveProfile] is [computeLayeredProfile], which
    returns, whatever the world, and leaves in the record it returns the
    base profile chosen by the forced override (by the power source when
    automatic), with the modifiers of the role applied, unless the user
    profile of the current power source exists, which then replaces it
    whole; no other record changes. *)
Theorem granular_resolution_layers : forall w,
  selectActiveProfile w =
    (if granularEnabled (powerProfileManager w) then computeLayeredProfile w
     else getLegacyProfile w) /\
  exists w' evs,
    computeLayeredProfile w = Some (P_computedProfile, w', evs) /\
    profiles w' P_computedProfile =
      resolve_granular_spec (config w) (profiles w) (hasUSB_of w) /\
    (forall q, q <> P_computedProfile -> profiles w' q = profiles w q).
Proof.
  intros w. split.
  - unfold selectActiveProfile, bind, gets.
    destruct (granularEnabled (powerProfileManager w)); cbn [negb].
    + destruct (computeLayeredProfile w) as [[[a w1] l]|]; reflexivity.
    + destruct (getLegacyProfile w) as [[[a w1] l]|]; reflexivity.
  - destruct (wp_elim _ _ _ _ (computeLayeredProfile_spec w))
      as (p & w' & evs & E & Hp & Hres & Hframe & _).
    subst p. exists w', evs. auto.
Qed.

(** C9.  [isPowerStateAllowed] returns whether the candidate is ordinally
    at or above the ceiling of the active profile, so it is true exactly
    then, and it is monotone: a state less deep than an allowed one is
    allowed. *)
Theorem isPowerStateAllowed_ceiling : forall w,
  (forall c,
     isPowerStateAllowed c w =
       Some (MaxPowerState_ord c >=?
               MaxPowerState_ord (max_power_state (active_profile w)),
             w, [])) /\
  (forall c,
     isPowerStateAllowed c w = Some (true, w, []) <->
     MaxPowerState_ord (max_power_state (active_profile w))
       <= MaxPowerState_ord c) /\
  (forall s1 s2,
     MaxPowerState_ord s2 < MaxPowerState_ord s1 ->
     isPowerStateAllowed s2 w = Some (true, w, []) ->
     isPowerStateAllowed s1 w = Some (true, w, [])).
Proof.
  intros w.
  assert (E : forall c,
     isPowerStateAllowed c w =
       Some (MaxPowerState_ord c >=?
               MaxPowerState_ord (max_power_state (active_profile w)),
             w, []))
    by (intros c; reflexivity).
  assert (I : forall c,
     isPowerStateAllowed c w = Some (true, w, []) <->
     MaxPowerState_ord (max_power_state (active_profile w))
       <= MaxPowerState_ord c).
  { intros c. rewrite E. split.
    - intros H. injection H as H. rewrite Z.geb_leb in H.
      apply Z.leb_le. exact H.
    - intros H. apply Z.leb_le in H. rewrite Z.geb_leb, H. reflexivity. }
  split; [exact E|]. split; [exact I|].
  intros s1 s2 Hlt H2. apply I. apply I in H2. lia.
Qed.

(** C1, where the code departs from the claim.  Granular mode, booted on
    USB, setup complete; the cable is pulled.  The published address is
    that of [computedProfile], which holds the plugged defaults.  The call
    rewrites that record to the battery defaults, yet returns [false],
    publishes nothing and schedules no recreation: the resolver returns
    the same address every time, so the comparison never sees the change. *)
Theorem granular_source_flip_undetected :
  currentProfile (powerProfileManager unplugged_client)
    = Some P_computedProfile /\
  profiles unplugged_client P_computedProfile = systemDefaultPluggedProfile /\
  granularEnabled (powerProfileManager unplugged_client) = true /\
  hasUSB_of unplugged_client = false /\
  fsmInitialSetupComplete unplugged_client = true /\
  exists w2 evs,
    updateActiveProfile unplugged_client = Some (false, w2, evs) /\
    currentProfile (powerProfileManager w2) = Some P_computedProfile /\
    profiles w2 P_computedProfile = systemDefaultBatteryProfile /\
    fsmRecreationPending w2 = false.
Proof.
  vm_compute. repeat split. eexists. eexists. repeat split.
Qed.

(** C2, where the code departs from the claim.  A sensor in granular mode,
    booted on battery; USB is plugged.  The record the published pointer
    leads to has Bluetooth off.  The first thing the call does is store
    the plugged defaults, Bluetooth on, into that very record; the role
    modifiers switch it off again two stores later.  The scratch record of
    the resolver is the published one. *)
Theorem published_record_overwritten :
  currentProfile (powerProfileManager plugged_sensor)
    = Some P_computedProfile /\
  bluetooth_enabled (active_profile plugged_sensor) = false /\
  exists v rest w2,
    updateActiveProfile plugged_sensor =
      Some (false, w2, EvProfileStore P_computedProfile v :: rest) /\
    v = systemDefaultPluggedProfile /\
    bluetooth_enabled v = true /\
    bluetooth_enabled (active_profile w2) = false /\
    currentProfile (powerProfileManager w2) = Some P_computedProfile.
Proof.
  vm_compute. repeat split. do 3 eexists. repeat split.
Qed.

(** ** Tables that avoid SDS *)

Lemma State_eqb_eq : forall a b, State_eqb a b = true <-> a = b.
Proof. intros a b; split; [destruct a, b; (reflexivity || discriminate)|].
  intros ->. destruct b; reflexivity. Qed.

Lemma Event_eqb_eq : forall a b, Event_eqb a b = true <-> a = b.
Proof. intros a b; split; [destruct a, b; (reflexivity || discriminate)|].
  intros ->. destruct b; reflexivity. Qed.

(** The effective rule of a pair is a registered rule of that pair. *)
Lemma Fsm_lookup_some : forall s e ts t,
  Fsm_lookup s e ts = Some t ->
  In t ts /\ state_from t = s /\ event t = e.
Proof.
  intros s e ts. induction ts as [|t0 ts IH]; intros t H.
  - discriminate H.
  - cbn [Fsm_lookup] in H.
    destruct (Fsm_lookup s e ts) as [t'|] eqn:E.
    + injection H as <-. destruct (IH t' eq_refl) as (Hin & Hs & He).
      split; [right; exact Hin | split; assumption].
    + destruct (State_eqb (state_from t0) s && Event_eqb (event t0) e) eqn:C;
        [|discriminate H].
      injection H as <-. apply andb_true_iff in C. destruct C as [Cs Ce].
      apply State_eqb_eq in Cs. apply Event_eqb_eq in Ce.
      split; [left; reflexivity | split; assumption].
Qed.

Section AvoidsSDS.

Variable f : Fsm.
Hypothesis Havoid : table_avoids_SDS f = true.

Lemma rule_avoids : forall t,
  In t (m_transitions f) ->
  state_to t <> stateSDS /\ state_from t <> stateSDS /\
  state_from t <> stateLowBattSDS.
Proof.
  intros t Hin. unfold table_avoids_SDS in Havoid.
  apply andb_true_iff in Havoid. destruct Havoid as [Hp _].
  rewrite forallb_forall in Hp. specialize (Hp t Hin).
  unfold rule_avoids_SDS in Hp.
  destruct (state_to t), (state_from t); try discriminate Hp;
    repeat split; discriminate.
Qed.

Lemma timed_rule_avoids : forall t,
  In t (m_timed_transitions f) ->
  timed_to t <> stateSDS /\ timed_from t <> stateSDS /\
  timed_from t <> stateLowBattSDS.
Proof.
  intros t Hin. unfold table_avoids_SDS in Havoid.
  apply andb_true_iff in Havoid. destruct Havoid as [_ Ht].
  rewrite forallb_forall in Ht. specialize (Ht t Hin).
  unfold timed_rule_avoids_SDS in Ht.
  destruct (timed_to t), (timed_from t); try discriminate Ht;
    repeat split; discriminate.
Qed.

Lemma no_rule_from_SDS : forall e,
  Fsm_lookup stateSDS e (m_transitions f) = None.
Proof.
  intros e. destruct (Fsm_lookup stateSDS e (m_transitions f)) as [t|] eqn:E;
    [|reflexivity].
  apply Fsm_lookup_some in E. destruct E as (Hin & Hs & _).
  apply rule_avoids in Hin. tauto.
Qed.

Lemma no_rule_from_LowBattSDS : forall e,
  Fsm_lookup stateLowBattSDS e (m_transitions f) = None.
Proof.
  intros e.
  destruct (Fsm_lookup stateLowBattSDS e (m_transitions f)) as [t|] eqn:E;
    [|reflexivity].
  apply Fsm_lookup_some in E. destruct E as (Hin & Hs & _).
  apply rule_avoids in Hin. tauto.
Qed.

(** No step enters SDS: "not in SDS" is an invariant of the machine. *)
Lemma step_avoids_SDS : forall a b, Fsm_step f a b -> b <> stateSDS.
Proof.
  intros a b H. destruct H as [t Hin | t Hin].
  - apply rule_avoids in Hin. tauto.
  - apply timed_rule_avoids in Hin. tauto.
Qed.

Lemma SDS_unreachable : forall a b,
  Fsm_reachable f a b -> a <> stateSDS -> b <> stateSDS.
Proof.
  intros a b H. unfold Fsm_reachable in H.
  induction H as [a b Hstep | a | a b c _ IH1 _ IH2]; intros Ha.
  - eapply step_avoids_SDS. exact Hstep.
  - exact Ha.
  - apply IH2, IH1, Ha.
Qed.

End AvoidsSDS.

(** ** The coordinator *)

(** Runs up to the call of [PowerFSM_create], which [PowerFSM_create_spec]
    then answers for. *)
Ltac wp_to_create :=
  repeat lazymatch goal with
         | |- wp (PowerFSM_create _ _) _ _ => fail
         | |- _ => wp_step
         end;
  (eapply wp_mono; [apply PowerFSM_create_spec|]).

Lemma PowerFSM_setup_spec : forall pf w fuel,
  wp (PowerFSM_setup pf (S fuel))
     (fun _ w' evs =>
        fsmInitialSetupComplete w' = true /\
        engine_of_create pf w (initial_state_of w) (powerFSM w') /\
        trace_of_create pf w evs) w.
Proof.
  intros pf w fuel. unfold PowerFSM_setup.
  wp_to_create.
  intros [] w' evs (Hf & He & Ht). cbv beta.
  wp_run. rewrite app_nil_r.
  split; [reflexivity|]. split; [exact He | exact Ht].
Qed.

Lemma PowerFSM_recreate_spec : forall pf w fuel,
  wp (PowerFSM_recreate pf (S fuel))
     (fun _ w' evs =>
        fsmRecreationPending w' = fsmRecreationPending w /\
        engine_of_create pf w (m_current_state (powerFSM w)) (powerFSM w') /\
        exists body,
          evs = EvLock :: (EvLock :: body ++ [EvUnlock]) ++ [EvUnlock] /\
          lock_free body = true /\
          deep_sleeps body =
            deep_sleeps_on_entry pf w (m_current_state (powerFSM w))) w.
Proof.
  intros pf w fuel. unfold PowerFSM_recreate, LockGuard, getState.
  wp_to_create.
  intros [] w' evs (Hf & He & body & -> & Hlf & Hds). cbv beta.
  wp_run.
  split; [apply Hf|]. split; [exact He|].
  exists body. split; [|split; [exact Hlf | exact Hds]].
  cbn [app]. rewrite <- !app_assoc. reflexivity.
Qed.

Lemma PowerFSM_processRecreation_spec : forall pf w fuel,
  fsmRecreationPending w = true ->
  wp (PowerFSM_processRecreation pf (S fuel))
     (fun _ w' evs =>
        fsmRecreationPending w' = false /\
        engine_of_create pf w (m_current_state (powerFSM w)) (powerFSM w') /\
        exists body,
          evs = EvPendingRead :: EvPendingWrite false
                  :: EvLock :: (EvLock :: body ++ [EvUnlock]) ++ [EvUnlock] /\
          lock_free body = true /\
          deep_sleeps body =
            deep_sleeps_on_entry pf w (m_current_state (powerFSM w))) w.
Proof.
  intros pf w fuel Hpending. unfold PowerFSM_processRecreation.
  apply wp_bind, wp_emit. apply wp_bind, wp_gets. rewrite Hpending.
  apply wp_bind, wp_modify. apply wp_bind, wp_emit.
  eapply wp_mono; [apply PowerFSM_recreate_spec|].
  intros [] w' evs (Hp & He & body & -> & Hlf & Hds).
  split; [exact Hp|]. split; [exact He|].
  exists body. split; [reflexivity | split; [exact Hlf | exact Hds]].
Qed.

Lemma PowerFSM_processRecreation_idle : forall pf w fuel,
  fsmRecreationPending w = false ->
  PowerFSM_processRecreation pf fuel w = Some (tt, w, [EvPendingRead]).
Proof.
  intros pf w fuel H. unfold PowerFSM_processRecreation, bind, emit, gets.
  rewrite H. reflexivity.
Qed.

(** ** Timed rules *)

Lemma Fsm_lookup_timed_filter : forall s elapsed ts,
  Fsm_lookup_timed s elapsed ts =
  Fsm_lookup_timed s elapsed
    (filter (fun t => State_eqb (timed_from t) s) ts).
Proof.
  intros s elapsed ts. induction ts as [|t ts IH]; [reflexivity|].
  cbn [Fsm_lookup_timed filter].
  destruct (State_eqb (timed_from t) s) eqn:E; cbn [andb Fsm_lookup_timed].
  - rewrite E. cbn [andb]. rewrite IH. reflexivity.
  - exact IH.
Qed.

Lemma Fsm_lookup_timed_none : forall s elapsed ts,
  (forall t, In t ts -> timed_from t <> s) ->
  Fsm_lookup_timed s elapsed ts = None.
Proof.
  intros s elapsed ts H. induction ts as [|t ts IH]; [reflexivity|].
  cbn [Fsm_lookup_timed].
  destruct (State_eqb (timed_from t) s) eqn:E.
  - apply State_eqb_eq in E. exfalso. apply (H t); [left; reflexivity | exact E].
  - cbn [andb]. apply IH. intros t' Hin. apply H. right. exact Hin.
Qed.

(** The runs of [PowerFSM_create], as an equation. *)
Lemma PowerFSM_create_returns : forall pf w fuel,
  exists w' evs,
    PowerFSM_create pf (S fuel) w = Some (tt, w', evs) /\
    frame_of_create w w' /\
    engine_of_create pf w (initial_state_of w) (powerFSM w') /\
    trace_of_create pf w evs.
Proof.
  intros pf w fuel.
  destruct (wp_elim _ _ _ _ (PowerFSM_create_spec pf w fuel))
    as ([] & w' & evs & E & H).
  exists w', evs. split; [exact E | exact H].
Qed.

(** ** The machine *)

(** C4, as the code has it.  Processing a pending recreation returns; the
    new engine is in the state the old one was in; it has the timed rule
    out of BOOT exactly when that state is BOOT, a rebuild in BOOT adding
    it again; and it is the engine [PowerFSM_create] builds from the
    profile, the configuration and the power source in force at the
    rebuild. *)
Theorem rebuild_preserves_state : forall pf w fuel,
  fsmRecreationPending w = true ->
  exists w' evs,
    PowerFSM_processRecreation pf (S fuel) w = Some (tt, w', evs) /\
    fsmRecreationPending w' = false /\
    m_current_state (powerFSM w') = m_current_state (powerFSM w) /\
    timed_rules_from stateBOOT (powerFSM w') =
      (if State_eqb (m_current_state (powerFSM w)) stateBOOT
       then [mkTimedTransition stateBOOT
               (if hasUSB_of w then statePOWER else stateON) 3000 None]
       else []) /\
    engine_of_create pf w (m_current_state (powerFSM w)) (powerFSM w').
Proof.
  intros pf w fuel Hpending.
  destruct (wp_elim _ _ _ _ (PowerFSM_processRecreation_spec pf w fuel Hpending))
    as ([] & w' & evs & E & Hp & He & _).
  exists w', evs. split; [exact E|]. split; [exact Hp|].
  split; [apply He|]. split; [apply He | exact He].
Qed.

Lemma rebuild_preserves_state_witness :
  fsmRecreationPending dark_then_saving = true /\
  m_current_state (powerFSM dark_then_saving) = stateDARK /\
  bluetooth_enabled (active_profile dark_then_saving) = false /\
  Fsm_target (powerFSM dark_then_saving) stateLS EVENT_WAKE_TIMER
    = Some stateDARK /\
  exists w' evs,
    PowerFSM_processRecreation esp32 2 dark_then_saving
      = Some (tt, w', evs) /\
    m_current_state (powerFSM w') = stateDARK /\
    timed_rules_from stateBOOT (powerFSM w') = [] /\
    Fsm_target (powerFSM w') stateLS EVENT_WAKE_TIMER = Some stateNB.
Proof.
  split; [reflexivity|]. split; [reflexivity|]. split; [reflexivity|].
  split; [reflexivity|].
  destruct (rebuild_preserves_state esp32 dark_then_saving 1 eq_refl)
    as (w' & evs & E & _ & Hs & Hb & He).
  exists w', evs. split; [exact E|]. split; [exact Hs|]. split; [exact Hb|].
  apply He.
Defined.

(** C4, the claim as written fails: the timed rule out of BOOT is not
    added on the first build only.  A recreation requested one second
    after the boot, USB plugged in the meantime, is processed with the
    machine still in BOOT; the rebuilt engine is a new one, entered at the
    time of the rebuild, and it has the timed rule again, now to POWER
    where the first build had it to ON. *)
Lemma rebuild_in_BOOT_adds_timer_again :
  fsmInitialSetupComplete boot_then_plugged = true /\
  fsmRecreationPending boot_then_plugged = true /\
  m_current_state (powerFSM boot_then_plugged) = stateBOOT /\
  m_entry_time (powerFSM boot_then_plugged) = 0 /\
  timed_rules_from stateBOOT (powerFSM boot_then_plugged)
    = [mkTimedTransition stateBOOT stateON 3000 None] /\
  fsmRecreationPending
    (after (PowerFSM_processRecreation esp32 2) boot_then_plugged) = false /\
  m_current_state
    (powerFSM (after (PowerFSM_processRecreation esp32 2) boot_then_plugged))
    = stateBOOT /\
  m_entry_time
    (powerFSM (after (PowerFSM_processRecreation esp32 2) boot_then_plugged))
    = 1000 /\
  timed_rules_from stateBOOT
    (powerFSM (after (PowerFSM_processRecreation esp32 2) boot_then_plugged))
    = [mkTimedTransition stateBOOT statePOWER 3000 None].
Proof. vm_compute. repeat split. Qed.

(** What the timed rule out of BOOT does once the machine is polled. *)
Lemma boot_rule_fires : forall pf fuel w target entered now,
  m_current_state (powerFSM w) = stateBOOT ->
  m_entry_time (powerFSM w) = entered ->
  timed_rules_from stateBOOT (powerFSM w) =
    [mkTimedTransition stateBOOT target 3000 None] ->
  target = statePOWER \/ target = stateON ->
  exists w2 evs2,
    Fsm_check_timed_transitions pf fuel (with_millis now w)
      = Some (tt, w2, evs2) /\
    m_current_state (powerFSM w2) =
      (if 3000 <? now - entered then target else stateBOOT).
Proof.
  intros pf fuel w target entered now Hcur Hent Hrules Htarget.
  unfold Fsm_check_timed_transitions, bind, gets.
  change (powerFSM (with_millis now w)) with (powerFSM w).
  change (millis (with_millis now w)) with now.
  rewrite Hcur, Hent, Fsm_lookup_timed_filter.
  change (filter (fun t => State_eqb (timed_from t) stateBOOT)
            (m_timed_transitions (powerFSM w)))
    with (timed_rules_from stateBOOT (powerFSM w)).
  rewrite Hrules.
  cbn [Fsm_lookup_timed State_eqb timed_from timed_to interval
       timed_on_transition andb].
  destruct (3000 <? now - entered).
  - destruct Htarget; subst target; cbn; eexists; eexists;
      (split; [reflexivity|]); reflexivity.
  - cbn. eexists; eexists. split; [reflexivity | exact Hcur].
Qed.

(** C8, as the code has it.  Every build returns.  The engine it leaves
    has the timed rule out of BOOT, to POWER if USB was present at the
    build and to ON otherwise, exactly when the build starts in BOOT: on
    the first build, and on a rebuild processed while the machine is still
    in BOOT.  Polled after such a build, the machine leaves BOOT for that
    target once more than 3000 ms have passed, and not before. *)
Theorem boot_timeout : forall pf w fuel,
  exists w' evs,
    PowerFSM_create pf (S fuel) w = Some (tt, w', evs) /\
    timed_rules_from stateBOOT (powerFSM w') =
      (if State_eqb (initial_state_of w) stateBOOT
       then [mkTimedTransition stateBOOT
               (if hasUSB_of w then statePOWER else stateON) 3000 None]
       else []) /\
    (preservedState w = None -> initial_state_of w = stateBOOT) /\
    (initial_state_of w = stateBOOT ->
     forall now fuel',
       exists w2 evs2,
         Fsm_check_timed_transitions pf fuel' (with_millis now w')
           = Some (tt, w2, evs2) /\
         m_current_state (powerFSM w2) =
           (if 3000 <? now - millis w
            then (if hasUSB_of w then statePOWER else stateON)
            else stateBOOT)).
Proof.
  intros pf w fuel.
  destruct (PowerFSM_create_returns pf w fuel)
    as (w' & evs & E & _ & He & _).
  exists w', evs. split; [exact E|].
  destruct He as (Hcur & _ & Hent & _ & _ & Hboot & _).
  split; [exact Hboot|].
  split; [intros Hp; unfold initial_state_of; rewrite Hp; reflexivity|].
  intros Hinit now fuel'. rewrite Hinit in Hboot, Hcur.
  apply boot_rule_fires.
  - exact Hcur.
  - exact Hent.
  - exact Hboot.
  - destruct (hasUSB_of w); [left | right]; reflexivity.
Qed.

(** C8, the claim as written fails: a recreation scheduled within the
    first three seconds is processed with the machine still in BOOT, and
    the rebuilt engine has the timed rule out of BOOT. *)
Lemma boot_timer_added_on_rebuild :
  fsmInitialSetupComplete boot_then_saving = true /\
  fsmRecreationPending boot_then_saving = true /\
  m_current_state (powerFSM boot_then_saving) = stateBOOT /\
  timed_rules_from stateBOOT
    (powerFSM (after (PowerFSM_processRecreation esp32 2) boot_then_saving))
    = [mkTimedTransition stateBOOT statePOWER 3000 None].
Proof. vm_compute. repeat split. Qed.

(** C10.  Every build returns, and in the tables it leaves no plain or
    timed rule leads to SDS and none leaves SDS or LOW_BATT_SDS.  So SDS
    is not reachable from BOOT, and a machine that runs these tables and
    is in LOW_BATT_SDS ignores every event and fires no timed rule. *)
Theorem built_tables_avoid_SDS : forall pf w fuel,
  exists w' evs,
    PowerFSM_create pf (S fuel) w = Some (tt, w', evs) /\
    table_avoids_SDS (powerFSM w') = true /\
    ~ Fsm_reachable (powerFSM w') stateBOOT stateSDS /\
    (forall w1 e fuel',
       same_tables (powerFSM w') (powerFSM w1) ->
       m_current_state (powerFSM w1) = stateLowBattSDS ->
       Fsm_trigger pf (S fuel') e w1 = Some (tt, w1, [EvTrigger e]) /\
       Fsm_check_timed_transitions pf fuel' w1 = Some (tt, w1, [])).
Proof.
  intros pf w fuel.
  destruct (PowerFSM_create_returns pf w fuel)
    as (w' & evs & E & _ & He & _).
  exists w', evs. split; [exact E|].
  destruct He as (_ & _ & _ & Havoid & _).
  split; [exact Havoid|]. split.
  - intros Hreach.
    apply (SDS_unreachable _ Havoid _ _ Hreach); [discriminate | reflexivity].
  - intros w1 e fuel' (Hplain & Htimed) Hcur. split.
    + apply Fsm_trigger_ignored. rewrite Hcur, Hplain.
      apply no_rule_from_LowBattSDS. exact Havoid.
    + unfold Fsm_check_timed_transitions, bind, gets.
      rewrite Hcur, Htimed, Fsm_lookup_timed_none; [reflexivity|].
      intros t Hin. apply (timed_rule_avoids _ Havoid) in Hin. tauto.
Qed.

(** ** Hooks and dispatch take no lock *)



















Lemma PowerFSM_scheduleRecreation_spec : forall w,
  PowerFSM_scheduleRecreation w =
    Some (tt,
          (if fsmInitialSetupComplete w
           then with_fsmRecreationPending true w else w),
          (if fsmInitialSetupComplete w then [EvPendingWrite true] else [])).
Proof.
  intros w. unfold PowerFSM_scheduleRecreation, bind, gets.
  destruct (fsmInitialSetupComplete w); reflexivity.
Qed.




(** ** Entry hooks of the two deep-sleep states *)

(** C6.  The entry hook of SDS calls the deep-sleep primitive exactly
    when the active profile allows deep sleep; when it does not, all the
    hook does is fire EVENT_WAKE_TIMER, which a machine in SDS on a table
    with no rule out of SDS ignores, so the primitive is not called.  The
    entry hook of LOW_BATT_SDS calls the primitive whatever the profile,
    the state of the machine and its tables are; so does every transition
    into LOW_BATT_SDS, after the exit hook of the state it leaves. *)
Theorem sds_entry_gate : forall pf w,
  (forall trig,
     call pf trig (on_enter stateSDS) w =
       if allow_deep_sleep (active_profile w)
       then Some (tt, w,
                  [EvDoDeepSleep
                     (getConfiguredOrDefaultMs1 pf (power_sds_secs (config w)))
                     false false])
       else trig EVENT_WAKE_TIMER w) /\
  (forall fuel,
     m_current_state (powerFSM w) = stateSDS ->
     table_avoids_SDS (powerFSM w) = true ->
     call pf (Fsm_trigger pf (S fuel)) (on_enter stateSDS) w =
       Some (tt, w,
             if allow_deep_sleep (active_profile w)
             then [EvDoDeepSleep
                     (getConfiguredOrDefaultMs1 pf
                        (power_sds_secs (config w)))
                     false false]
             else [EvTrigger EVENT_WAKE_TIMER])) /\
  (forall trig,
     call pf trig (on_enter stateLowBattSDS) w =
       Some (tt, w,
             [EvDoDeepSleep
                (getConfiguredOrDefaultMs1 pf (power_sds_secs (config w)))
                false true])) /\
  (forall trig from,
     make_transition pf trig from stateLowBattSDS None w =
       Some (tt, in_state stateLowBattSDS w,
             events_of (call pf trig (on_exit from)) w
             ++ [EvDoDeepSleep
                   (getConfiguredOrDefaultMs1 pf (power_sds_secs (config w)))
                   false true])).
Proof.
  intros pf w.
  assert (Hhook : forall trig,
     call pf trig (on_enter stateSDS) w =
       if allow_deep_sleep (active_profile w)
       then Some (tt, w,
                  [EvDoDeepSleep
                     (getConfiguredOrDefaultMs1 pf (power_sds_secs (config w)))
                     false false])
       else trig EVENT_WAKE_TIMER w).
  { intros trig. cbn [on_enter call].
    unfold sdsEnter, allowDeepSleep, query, getActiveProfile, load, bind,
      gets, ret, emit.
    change (profiles w (active_ptr (currentProfile (powerProfileManager w))))
      with (active_profile w).
    destruct (allow_deep_sleep (active_profile w)); cbn [negb app].
    - reflexivity.
    - destruct (trig EVENT_WAKE_TIMER w) as [[[[] w'] l]|]; reflexivity. }
  split; [exact Hhook|]. split; [|split].
  - intros fuel Hcur Havoid.
    rewrite Hhook. destruct (allow_deep_sleep (active_profile w)).
    + reflexivity.
    + apply Fsm_trigger_ignored. rewrite Hcur.
      apply no_rule_from_SDS. exact Havoid.
  - intros trig. reflexivity.
  - intros trig from. destruct from; reflexivity.
Qed.

Lemma sds_entry_gate_witness :
  allow_deep_sleep (active_profile sds_entered) = false /\
  call esp32 (Fsm_trigger esp32 1) (on_enter stateSDS) sds_entered =
    Some (tt, sds_entered, [EvTrigger EVENT_WAKE_TIMER]) /\
  m_current_state (powerFSM low_battery_entered) = stateLowBattSDS /\
  call esp32 (Fsm_trigger esp32 1) (on_enter stateLowBattSDS)
    low_battery_entered =
    Some (tt, low_battery_entered, [EvDoDeepSleep 3600000 false true]).
Proof.
  split; [reflexivity|].
  split.
  { destruct (sds_entry_gate esp32 sds_entered) as (_ & Hsds & _).
    exact (Hsds 0%nat eq_refl eq_refl). }
  split; [reflexivity|].
  destruct (sds_entry_gate esp32 low_battery_entered) as (_ & _ & Hlow & _).
  apply Hlow.
Defined.

(** ** The advertising controller *)

(** C7.  On a disconnect the controller reads the profile that is active
    then: it starts advertising when that profile has Bluetooth on (with
    no radio call if advertising is already on), and does nothing at all
    when it has Bluetooth off, whatever the profile was when advertising
    was last toggled. *)
Theorem disconnect_rereads_profile : forall w,
  exists w',
    onClientDisconnect w =
      Some (tt, w',
            if bluetooth_enabled (active_profile w)
               && negb (advertisingActive (nimbleBluetooth w))
            then [EvRadioStartAdvertising] else []) /\
    advertisingActive (nimbleBluetooth w') =
      (advertisingActive (nimbleBluetooth w)
       || bluetooth_enabled (active_profile w)) /\
    (bluetooth_enabled (active_profile w) = false -> w' = w).
Proof.
  intros w.
  unfold onClientDisconnect, bluetoothEnabled, query, getActiveProfile, load,
    startAdvertising, bind, gets, ret, emit, modify.
  change (profiles w (active_ptr (currentProfile (powerProfileManager w))))
    with (active_profile w).
  destruct (bluetooth_enabled (active_profile w));
    destruct (advertisingActive (nimbleBluetooth w)) eqn:Ha;
    cbn [andb negb orb app]; eexists;
    (split; [reflexivity|]); split;
    first [exact Ha | reflexivity | intros; discriminate].
Qed.

Lemma disconnect_rereads_profile_witness :
  bluetooth_enabled (active_profile dark_then_saving) = false /\
  advertisingActive (nimbleBluetooth dark_then_saving) = false /\
  onClientDisconnect dark_then_saving = Some (tt, dark_then_saving, []).
Proof.
  split; [reflexivity|]. split; [reflexivity|].
  destruct (disconnect_rereads_profile dark_then_saving) as (w' & E & _ & Hw).
  rewrite (Hw eq_refl) in E. exact E.
Defined.

(** ** The claims on concrete machines *)

Lemma boot_timeout_witness :
  exists w' evs,
    PowerFSM_create esp32 2 first_boot = Some (tt, w', evs) /\
    timed_rules_from stateBOOT (powerFSM w') =
      [mkTimedTransition stateBOOT statePOWER 3000 None] /\
    (exists w2 evs2,
       Fsm_check_timed_transitions esp32 1 (with_millis 3000 w')
         = Some (tt, w2, evs2) /\
       m_current_state (powerFSM w2) = stateBOOT) /\
    (exists w2 evs2,
       Fsm_check_timed_transitions esp32 1 (with_millis 3001 w')
         = Some (tt, w2, evs2) /\
       m_current_state (powerFSM w2) = statePOWER).
Proof.
  destruct (boot_timeout esp32 first_boot 1)
    as (w' & evs & E & Hb & _ & Hfire).
  exists w', evs. split; [exact E|]. split; [exact Hb|]. split.
  - destruct (Hfire eq_refl 3000 1%nat) as (w2 & evs2 & E2 & Hs).
    exists w2, evs2. split; [exact E2 | exact Hs].
  - destruct (Hfire eq_refl 3001 1%nat) as (w2 & evs2 & E2 & Hs).
    exists w2, evs2. split; [exact E2 | exact Hs].
Defined.

Lemma built_tables_avoid_SDS_witness :
  exists w' evs,
    PowerFSM_create esp32 2 first_boot = Some (tt, w', evs) /\
    table_avoids_SDS (powerFSM w') = true /\
    Fsm_trigger esp32 1 EVENT_PRESS (in_state stateLowBattSDS w') =
      Some (tt, in_state stateLowBattSDS w', [EvTrigger EVENT_PRESS]).
Proof.
  destruct (built_tables_avoid_SDS esp32 first_boot 1)
    as (w' & evs & E & Ha & _ & Hlow).
  exists w', evs. split; [exact E|]. split; [exact Ha|].
  apply (Hlow (in_state stateLowBattSDS w') EVENT_PRESS 0%nat).
  - split; reflexivity.
  - reflexivity.
Defined.

(** ** Further properties of the coordinator and of the resolver *)

(** X2.  A recreation requested before the initial setup is complete is
    dropped: the flag is not set and nothing else happens. *)
Theorem schedule_before_setup_dropped : forall w,
  fsmInitialSetupComplete w = false ->
  PowerFSM_scheduleRecreation w = Some (tt, w, []) /\
  PowerFSM_reconfigure w = Some (tt, w, []).
Proof.
  intros w H. unfold PowerFSM_reconfigure.
  rewrite PowerFSM_scheduleRecreation_spec, H. split; reflexivity.
Qed.

Lemma schedule_before_setup_dropped_witness :
  fsmInitialSetupComplete first_boot = false /\
  PowerFSM_scheduleRecreation first_boot = Some (tt, first_boot, []).
Proof.
  split; [reflexivity|].
  apply (schedule_before_setup_dropped first_boot). reflexivity.
Defined.

(** X3.  In granular mode, once the address of [computedProfile] is
    published, [updateActiveProfile] never reports a change, whatever the
    configuration and the power source have become: it leaves the three
    layers of the moment in the published record, returns [false] and
    leaves the pending flag alone. *)
Theorem granular_change_never_reported : forall w,
  granularEnabled (powerProfileManager w) = true ->
  currentProfile (powerProfileManager w) = Some P_computedProfile ->
  exists w' evs,
    updateActiveProfile w = Some (false, w', evs) /\
    currentProfile (powerProfileManager w') = Some P_computedProfile /\
    profiles w' P_computedProfile =
      resolve_granular_spec (config w) (profiles w) (hasUSB_of w) /\
    fsmRecreationPending w' = fsmRecreationPending w.
Proof.
  intros w Hg Hc.
  destruct (wp_elim _ _ _ _ (computeLayeredProfile_spec w))
    as (p & w1 & evs & E & -> & Hres & _ & Hw1 & _).
  assert (Hm : powerProfileManager w1 = powerProfileManager w)
    by (rewrite Hw1; reflexivity).
  assert (Hp : fsmRecreationPending w1 = fsmRecreationPending w)
    by (rewrite Hw1; reflexivity).
  exists w1, (evs ++ []).
  unfold updateActiveProfile, selectActiveProfile, bind, gets.
  rewrite Hg. cbn [negb]. rewrite E, Hm, Hc.
  cbn [ptr_eqb ProfilePtr_eqb negb ret].
  split; [reflexivity|]. split; [reflexivity|].
  split; [exact Hres | exact Hp].
Qed.

Lemma granular_change_never_reported_witness :
  exists w' evs,
    updateActiveProfile unplugged_client = Some (false, w', evs) /\
    profiles w' P_computedProfile = systemDefaultBatteryProfile.
Proof.
  destruct (granular_change_never_reported unplugged_client eq_refl eq_refl)
    as (w' & evs & E & _ & Hres & _).
  exists w', evs. split; [exact E | exact Hres].
Defined.


(* ===================================================================== *)
(** * The tables, the coordinator, the resolver and the hooks            *)
(* ===================================================================== *)

(** ** The engine of a build, exactly *)

Lemma PowerFSM_create_engine : forall pf w fuel,
  wp (PowerFSM_create pf (S fuel))
     (fun _ w' _ => powerFSM w' = engine_built pf w (initial_state_of w)) w.
Proof.
  intros pf w fuel.
  destruct w as [cfg ps ext ms prof mgr fsm pres pend comp slept nb].
  destruct mgr as [cp gran lu].
  repeat
    lazymatch goal with
    | |- wp (Fsm_run_machine _ _) _ _ => fail
    | |- _ => build_step
    end.
  all: (eapply wp_mono;
    [ apply Fsm_run_machine_spec;
      [ reflexivity | intros e; leaf_norm; decide_ifs; reflexivity ]
    | ]).
  all: intros [] w' evs (-> & _ & _); cbv beta.
  all: repeat build_step.
  all: cbv [with_secsSlept with_powerFSM powerFSM Fsm_set_initialized
            m_timed_transitions m_transitions m_current_state m_initialized
            m_entry_time engine_built initial_state_of preservedState millis].
  all: f_equal.
  1,3: unfold create_rules; leaf_norm; decide_ifs; reflexivity.
  all: unfold create_timed_rules; cond_norm; decide_spines; reflexivity.
Qed.

Lemma wp_conj : forall (A : Type) (m : M A)
  (Q1 Q2 : A -> World -> list Ev -> Prop) w,
  wp m Q1 w -> wp m Q2 w ->
  wp m (fun a w' l => Q1 a w' l /\ Q2 a w' l) w.
Proof.
  intros A m Q1 Q2 w H1 H2. unfold wp in *.
  destruct (m w) as [[[a w'] l]|]; [split; assumption | exact H1].
Qed.

(** A build, with all that is known of it. *)
Lemma PowerFSM_create_builds : forall pf w fuel,
  exists w' evs,
    PowerFSM_create pf (S fuel) w = Some (tt, w', evs) /\
    powerFSM w' = engine_built pf w (initial_state_of w) /\
    frame_of_create w w' /\
    trace_of_create pf w evs.
Proof.
  intros pf w fuel.
  destruct (wp_elim _ _ _ _
              (wp_conj _ _ _ _ _ (PowerFSM_create_engine pf w fuel)
                 (PowerFSM_create_spec pf w fuel)))
    as ([] & w' & evs & E & He & Hf & _ & Ht).
  exists w', evs.
  split; [exact E|]. split; [exact He|]. split; [exact Hf | exact Ht].
Qed.

(** The engine of a build reads the configuration, the power status, the
    collaborators, the clock, the profile records and the published
    pointer, and nothing else. *)
Lemma engine_built_ext : forall pf w1 w2 s,
  config w1 = config w2 ->
  powerStatus w1 = powerStatus w2 ->
  external w1 = external w2 ->
  millis w1 = millis w2 ->
  profiles w1 = profiles w2 ->
  powerProfileManager w1 = powerProfileManager w2 ->
  engine_built pf w1 s = engine_built pf w2 s.
Proof.
  intros pf w1 w2 s Hc Hp He Hm Hr Hg.
  destruct w1, w2. cbn in Hc, Hp, He, Hm, Hr, Hg. subst. reflexivity.
Qed.

Lemma PowerFSM_create_full : forall pf w fuel,
  wp (PowerFSM_create pf (S fuel))
     (fun _ w' evs =>
        powerFSM w' = engine_built pf w (initial_state_of w) /\
        frame_of_create w w' /\
        trace_of_create pf w evs) w.
Proof.
  intros pf w fuel.
  eapply wp_mono;
    [ apply (wp_conj _ _ _ _ _ (PowerFSM_create_engine pf w fuel)
               (PowerFSM_create_spec pf w fuel)) |].
  intros [] w' evs (He & Hf & _ & Ht).
  split; [exact He|]. split; [exact Hf | exact Ht].
Qed.

Lemma keeps_settings_refl : forall w, keeps_settings w w.
Proof. intros w. repeat split. Qed.

Lemma keeps_settings_trans : forall w1 w2 w3,
  keeps_settings w1 w2 -> keeps_settings w2 w3 -> keeps_settings w1 w3.
Proof.
  intros w1 w2 w3 (A1 & A2 & A3 & A4 & A5 & A6 & A7 & A8)
    (B1 & B2 & B3 & B4 & B5 & B6 & B7 & B8).
  repeat split; congruence.
Qed.

Lemma engine_built_keeps : forall pf w w' s,
  keeps_settings w w' -> engine_built pf w' s = engine_built pf w s.
Proof.
  intros pf w w' s (A1 & A2 & A3 & A4 & A5 & A6 & _).
  apply engine_built_ext; assumption.
Qed.

(** Processing a pending recreation, with all that is known of it. *)
Lemma PowerFSM_processRecreation_builds : forall pf w fuel,
  fsmRecreationPending w = true ->
  exists w' body,
    PowerFSM_processRecreation pf (S fuel) w =
      Some (tt, w',
            EvPendingRead :: EvPendingWrite false
              :: EvLock :: (EvLock :: body ++ [EvUnlock]) ++ [EvUnlock]) /\
    powerFSM w' = engine_built pf w (m_current_state (powerFSM w)) /\
    keeps_settings w w' /\
    fsmRecreationPending w' = false /\
    preservedState w' = None /\
    secsSlept w' =
      (if State_eqb (m_current_state (powerFSM w)) stateLS
       then 0 else secsSlept w) /\
    lock_free body = true /\
    deep_sleeps body =
      deep_sleeps_on_entry pf w (m_current_state (powerFSM w)).
Proof.
  intros pf w fuel Hpending.
  assert (H : wp (PowerFSM_processRecreation pf (S fuel))
    (fun _ w' evs =>
       powerFSM w' = engine_built pf w (m_current_state (powerFSM w)) /\
       keeps_settings w w' /\
       fsmRecreationPending w' = false /\
       preservedState w' = None /\
       secsSlept w' =
         (if State_eqb (m_current_state (powerFSM w)) stateLS
          then 0 else secsSlept w) /\
       exists body,
         evs = EvPendingRead :: EvPendingWrite false
                 :: EvLock :: (EvLock :: body ++ [EvUnlock]) ++ [EvUnlock] /\
         lock_free body = true /\
         deep_sleeps body =
           deep_sleeps_on_entry pf w (m_current_state (powerFSM w))) w).
  { unfold PowerFSM_processRecreation.
    apply wp_bind, wp_emit. apply wp_bind, wp_gets. rewrite Hpending.
    apply wp_bind, wp_modify. apply wp_bind, wp_emit.
    unfold PowerFSM_recreate, LockGuard, getState.
    repeat lazymatch goal with
           | |- wp (PowerFSM_create _ _) _ _ => fail
           | |- _ => wp_step
           end.
    eapply wp_mono; [apply PowerFSM_create_full|].
    intros [] w' evs (He & Hf & body & -> & Hlf & Hds). cbv beta.
    wp_run.
    destruct Hf as (F1 & F2 & F3 & F4 & F5 & F6 & F7 & F8 & F9 & F10 & F11).
    split; [exact He|].
    split; [repeat split; assumption|].
    split; [exact F7|]. split; [exact F10|]. split; [exact F11|].
    exists body. split; [|split; [exact Hlf | exact Hds]].
    cbn [app]. rewrite <- !app_assoc. reflexivity. }
  destruct (wp_elim _ _ _ _ H)
    as ([] & w' & evs & E & He & Hk & Hp & Hpr & Hs & body & -> & Hlf & Hds).
  exists w', body. repeat (split; [assumption|]). assumption.
Qed.


(** ** Sets of states that the rules do not leave *)

Lemma closed_step : forall inside f a b,
  closed_under_rules inside f = true ->
  Fsm_step f a b -> inside a = true -> inside b = true.
Proof.
  intros inside f a b Hc Hstep Ha.
  unfold closed_under_rules in Hc. apply andb_true_iff in Hc.
  destruct Hc as [Hp Ht]. rewrite forallb_forall in Hp, Ht.
  destruct Hstep as [t Hin | t Hin].
  - specialize (Hp t Hin). rewrite Ha in Hp. exact Hp.
  - specialize (Ht t Hin). rewrite Ha in Ht. exact Ht.
Qed.

Lemma closed_reachable : forall inside f a b,
  closed_under_rules inside f = true ->
  Fsm_reachable f a b -> inside a = true -> inside b = true.
Proof.
  intros inside f a b Hc H. unfold Fsm_reachable in H.
  induction H as [a b Hstep | a | a b c _ IH1 _ IH2]; intros Ha.
  - exact (closed_step _ _ _ _ Hc Hstep Ha).
  - exact Ha.
  - apply IH2, IH1, Ha.
Qed.

(** Case analysis on everything a table depends on. *)
Ltac decide_build pf w s :=
  unfold lightSleepEnabled in *;
  destruct (hasUSB_of w), (bluetooth_enabled (active_profile w)),
    (screen_stays_responsive (active_profile w)), (ARCH_ESP32 pf),
    (lightSleepEligible w), (screenTimeoutGuard pf w),
    (HAS_WIFI pf || negb (MESHTASTIC_EXCLUDE_WIFI pf)),
    (State_eqb s stateBOOT).

Ltac table_compute :=
  cbv [closed_under_rules rules_for engine_built create_rules
       create_timed_rules m_transitions m_timed_transitions
       forallb filter app implb negb andb orb List.length Nat.leb
       State_eqb Event_eqb state_from state_to event on_transition
       timed_from timed_to interval timed_on_transition
       awake_state has_safety_rules].

Lemma awake_closed : forall pf w s,
  lightSleepEnabled pf w = false ->
  closed_under_rules awake_state (engine_built pf w s) = true.
Proof.
  intros pf w s H. unfold closed_under_rules, engine_built.
  cbv [m_transitions m_timed_transitions create_rules create_timed_rules].
  decide_build pf w s; try discriminate H; table_compute; reflexivity.
Qed.

(** ** The tables of every build *)

(** X4.  Low battery and shutdown cannot be vetoed: whatever the profile,
    the role, the platform and the start state, a build registers from
    each of BOOT, LS, NB, DARK, ON and SERIAL exactly one rule for
    EVENT_LOW_BATTERY, to LOW_BATT_SDS, and exactly one for EVENT_SHUTDOWN,
    to SHUTDOWN.  From POWER (and from the three terminal states) it
    registers none: both events find no rule there. *)
Theorem safety_rules_in_every_build : forall pf w fuel,
  exists w' evs,
    PowerFSM_create pf (S fuel) w = Some (tt, w', evs) /\
    forall s,
      rules_for s EVENT_LOW_BATTERY (powerFSM w') =
        (if has_safety_rules s
         then [mkTransition s stateLowBattSDS EVENT_LOW_BATTERY None]
         else []) /\
      rules_for s EVENT_SHUTDOWN (powerFSM w') =
        (if has_safety_rules s
         then [mkTransition s stateSHUTDOWN EVENT_SHUTDOWN None]
         else []).
Proof.
  intros pf w fuel.
  destruct (PowerFSM_create_builds pf w fuel) as (w' & evs & E & He & _).
  exists w', evs. split; [exact E|]. intros s. rewrite He.
  unfold rules_for, engine_built. cbv [m_transitions create_rules].
  destruct (screen_stays_responsive (active_profile w)), s;
    table_compute; split; reflexivity.
Qed.

(** X5.  A build registers at most one rule for every pair of a state and
    an event, with one exception: for NB and EVENT_PACKET_FOR_PHONE it
    registers two, first NB to NB, then NB to DARK. *)
Theorem one_rule_per_pair_but_one : forall pf w fuel,
  exists w' evs,
    PowerFSM_create pf (S fuel) w = Some (tt, w', evs) /\
    (forall s e,
       Nat.leb (List.length (rules_for s e (powerFSM w'))) 1 =
       negb (State_eqb s stateNB && Event_eqb e EVENT_PACKET_FOR_PHONE)) /\
    rules_for stateNB EVENT_PACKET_FOR_PHONE (powerFSM w') =
      [ mkTransition stateNB stateNB EVENT_PACKET_FOR_PHONE None;
        mkTransition stateNB stateDARK EVENT_PACKET_FOR_PHONE None ].
Proof.
  intros pf w fuel.
  destruct (PowerFSM_create_builds pf w fuel) as (w' & evs & E & He & _).
  exists w', evs. split; [exact E|]. rewrite He.
  unfold rules_for, engine_built. cbv [m_transitions create_rules].
  split.
  - intros s e.
    destruct (screen_stays_responsive (active_profile w)), s, e;
      table_compute; reflexivity.
  - destruct (screen_stays_responsive (active_profile w));
      table_compute; reflexivity.
Qed.

(** X6.  In the tables of every build no rule leads back to BOOT and none
    leaves SHUTDOWN: BOOT is reachable from BOOT alone, and from SHUTDOWN
    nothing but SHUTDOWN is reachable. *)
Theorem boot_is_initial_shutdown_is_terminal : forall pf w fuel,
  exists w' evs,
    PowerFSM_create pf (S fuel) w = Some (tt, w', evs) /\
    (forall a, Fsm_reachable (powerFSM w') a stateBOOT -> a = stateBOOT) /\
    (forall b, Fsm_reachable (powerFSM w') stateSHUTDOWN b ->
               b = stateSHUTDOWN).
Proof.
  intros pf w fuel.
  destruct (PowerFSM_create_builds pf w fuel) as (w' & evs & E & He & _).
  exists w', evs. split; [exact E|]. rewrite He.
  set (s := initial_state_of w). clearbody s.
  split.
  - intros a Hreach.
    assert (Hc : closed_under_rules
                   (fun x => negb (State_eqb x stateBOOT))
                   (engine_built pf w s) = true).
    { unfold closed_under_rules, engine_built.
      cbv [m_transitions m_timed_transitions create_rules
           create_timed_rules].
      decide_build pf w s; table_compute; reflexivity. }
    destruct (State_eqb a stateBOOT) eqn:Ha;
      [apply State_eqb_eq; exact Ha|].
    assert (Hb := closed_reachable _ _ _ _ Hc Hreach).
    cbv beta in Hb. rewrite Ha in Hb. specialize (Hb eq_refl).
    discriminate Hb.
  - intros b Hreach.
    assert (Hc : closed_under_rules (fun x => State_eqb x stateSHUTDOWN)
                   (engine_built pf w s) = true).
    { unfold closed_under_rules, engine_built.
      cbv [m_transitions m_timed_transitions create_rules
           create_timed_rules].
      decide_build pf w s; table_compute; reflexivity. }
    apply State_eqb_eq.
    exact (closed_reachable _ _ _ _ Hc Hreach eq_refl).
Qed.

(** X7.  The profile gates light sleep.  In every build a step leads
    from DARK to LS exactly when the build enables light sleep (ESP32 with
    WiFi support, a profile that allows light sleep, WiFi down, a role
    other than tracker and sensor), and no plain rule leads to LS from
    another state: LS is entered by a timeout only.  When light sleep is
    not enabled, no rule leads from an awake state into LS or NB, so
    neither is reachable from BOOT. *)
Theorem light_sleep_gated_by_profile : forall pf w fuel,
  exists w' evs,
    PowerFSM_create pf (S fuel) w = Some (tt, w', evs) /\
    (Fsm_step (powerFSM w') stateDARK stateLS <->
     lightSleepEnabled pf w = true) /\
    (forall t, In t (m_transitions (powerFSM w')) ->
               state_to t = stateLS -> state_from t = stateLS) /\
    (lightSleepEnabled pf w = false ->
     ~ Fsm_reachable (powerFSM w') stateBOOT stateLS /\
     ~ Fsm_reachable (powerFSM w') stateBOOT stateNB).
Proof.
  intros pf w fuel.
  destruct (PowerFSM_create_builds pf w fuel) as (w' & evs & E & He & _).
  exists w', evs. split; [exact E|]. rewrite He.
  set (s := initial_state_of w). clearbody s.
  assert (Hplain : forall t, In t (m_transitions (engine_built pf w s)) ->
                   state_to t = stateLS -> state_from t = stateLS).
  { assert (Hall : forallb
        (fun t => implb (State_eqb (state_to t) stateLS)
                    (State_eqb (state_from t) stateLS))
        (m_transitions (engine_built pf w s)) = true).
    { unfold engine_built. cbv [m_transitions create_rules].
      decide_build pf w s; table_compute; reflexivity. }
    rewrite forallb_forall in Hall. intros t Hin Hto.
    specialize (Hall t Hin). rewrite Hto in Hall. cbn in Hall.
    apply State_eqb_eq. exact Hall. }
  split; [|split; [exact Hplain|]].
  - split.
    + intros Hstep.
      assert (Htimed : forallb
          (fun t => implb (State_eqb (timed_from t) stateDARK
                           && State_eqb (timed_to t) stateLS)
                      (lightSleepEnabled pf w))
          (m_timed_transitions (engine_built pf w s)) = true).
      { unfold engine_built.
        cbv [m_timed_transitions create_timed_rules].
        decide_build pf w s; table_compute; reflexivity. }
      rewrite forallb_forall in Htimed.
      inversion Hstep as [t Hin Hf Ht | t Hin Hf Ht].
      * apply Hplain in Hin; [|exact Ht]. rewrite Hf in Hin.
        discriminate Hin.
      * specialize (Htimed t Hin). rewrite Hf, Ht in Htimed.
        exact Htimed.
    + intros Hon.
      apply (step_timed _
               (mkTimedTransition stateDARK stateLS
                  (wrap32 (bluetoothTimeoutSecs_of pf w * 1000)) None)).
      unfold engine_built. cbv [m_timed_transitions create_timed_rules].
      unfold lightSleepEnabled in Hon.
      apply andb_true_iff in Hon. destruct Hon as [Hon Hel].
      apply andb_true_iff in Hon. destruct Hon as [Harch Hwifi].
      rewrite Harch, Hwifi, Hel.
      apply in_or_app. right. apply in_or_app. right.
      right. left. reflexivity.
  - intros Hoff.
    assert (Hc := awake_closed pf w s Hoff).
    split; intros Hreach;
      assert (H := closed_reachable _ _ _ _ Hc Hreach eq_refl);
      discriminate H.
Qed.


(** ** The coordinator *)

Lemma keeps_settings_with_powerFSM : forall f w,
  keeps_settings w (with_powerFSM f w).
Proof. intros f w. repeat split. Qed.

(** X8.  A rebuild keeps nothing of the engine it replaces but the current
    state.  The engine a processed recreation leaves is a function of the
    platform, the configuration, the power status, WiFi, the clock, the
    profile and the state the machine was in: two worlds that agree on
    these get the same engine, whatever their tables were.  Its entry time
    is the time of the rebuild: the timeouts of the current state start
    again. *)
Theorem rebuild_depends_on_settings_only : forall pf w v fuel,
  fsmRecreationPending w = true ->
  fsmRecreationPending v = true ->
  keeps_settings w v ->
  m_current_state (powerFSM v) = m_current_state (powerFSM w) ->
  exists w' evw v' evv,
    PowerFSM_processRecreation pf (S fuel) w = Some (tt, w', evw) /\
    PowerFSM_processRecreation pf (S fuel) v = Some (tt, v', evv) /\
    powerFSM v' = powerFSM w' /\
    powerFSM w' = engine_built pf w (m_current_state (powerFSM w)) /\
    m_entry_time (powerFSM w') = millis w.
Proof.
  intros pf w v fuel Hw Hv Hk Hs.
  destruct (PowerFSM_processRecreation_builds pf w fuel Hw)
    as (w' & bw & Ew & Hew & _).
  destruct (PowerFSM_processRecreation_builds pf v fuel Hv)
    as (v' & bv & Ev & Hev & _).
  exists w'. eexists. exists v'. eexists.
  split; [exact Ew|]. split; [exact Ev|].
  split; [|split; [exact Hew | rewrite Hew; reflexivity]].
  rewrite Hev, Hew, Hs. apply engine_built_keeps. exact Hk.
Qed.



(** ** The profile manager *)

Lemma ptr_eqb_eq : forall p q, ptr_eqb (Some p) q = true -> q = Some p.
Proof.
  intros p [q|] H; [|discriminate H]. cbn in H.
  destruct p, q; (reflexivity || discriminate H).
Qed.

Lemma ptr_eqb_refl : forall p, ptr_eqb (Some p) (Some p) = true.
Proof. intros p. destruct p; reflexivity. Qed.

(** A resolution, with all that is known of it. *)
Lemma selectActiveProfile_full : forall w,
  wp selectActiveProfile
    (fun p w' evs =>
       p = selected_ptr w /\
       w' = with_profiles (profiles w') w /\
       (forall q, profiles w' q = resolved_profiles w q) /\
       Forall (fun e => is_store_to P_computedProfile e = true) evs /\
       (granularEnabled (powerProfileManager w) = false ->
        evs = [] /\ w' = w)) w.
Proof.
  intros w. unfold selectActiveProfile, selected_ptr, resolved_profiles.
  apply wp_bind, wp_gets.
  destruct (granularEnabled (powerProfileManager w)) eqn:G; cbn [negb].
  - eapply wp_mono; [apply computeLayeredProfile_spec|].
    intros p w' evs (Hp & Hres & Hfr & Hw & Hst). cbn [app].
    split; [exact Hp|]. split; [exact Hw|]. split.
    + intros q. unfold mem_store.
      destruct (ProfilePtr_eqb q P_computedProfile) eqn:Q.
      * destruct q; try discriminate Q. exact Hres.
      * apply Hfr. intros ->. discriminate Q.
    + split; [exact Hst | intros H; discriminate H].
  - unfold getLegacyProfile, legacy_choice. apply wp_bind, wp_gets.
    destruct (power_is_power_saving (config w)
              || match device_role (config w) with
                 | Role_ROUTER => true
                 | _ => false
                 end);
      apply wp_ret; cbn [app];
      (split; [reflexivity|]); (split; [destruct w; reflexivity|]);
      (split; [intros q; reflexivity|]);
      (split; [constructor | intros _; split; reflexivity]).
Qed.

Lemma updateActiveProfile_full : forall w,
  wp updateActiveProfile
    (fun changed w' evs =>
       changed =
         negb (ptr_eqb (Some (selected_ptr w))
                 (currentProfile (powerProfileManager w))) /\
       powerProfileManager w' =
         mkManager (Some (selected_ptr w))
           (granularEnabled (powerProfileManager w))
           (if changed then usb_cache w
            else lastUSBStatus (powerProfileManager w)) /\
       (forall q, profiles w' q = resolved_profiles w q) /\
       fsmRecreationPending w' =
         (changed && fsmInitialSetupComplete w || fsmRecreationPending w) /\
       resolver_frame w w' /\
       exists stores,
         evs = stores ++ (if changed && fsmInitialSetupComplete w
                          then [EvPendingWrite true] else []) /\
         Forall (fun e => is_store_to P_computedProfile e = true) stores /\
         (granularEnabled (powerProfileManager w) = false ->
          stores = [])) w.
Proof.
  intros w. unfold updateActiveProfile. apply wp_bind.
  eapply wp_mono; [apply selectActiveProfile_full|].
  intros p w1 evs1 (-> & Hw1 & Hres & Hst & Hleg). cbv beta.
  set (m := profiles w1) in *. clearbody m. subst w1.
  set (sel := selected_ptr w) in *. clearbody sel.
  set (rp := resolved_profiles w) in *. clearbody rp.
  unfold usb_cache, resolver_frame.
  destruct w as [cfg ps ext ms prof mgr fsm pres pend comp slept nb].
  destruct mgr as [cp gran lu].
  apply wp_bind, wp_gets.
  cbn [powerProfileManager currentProfile with_profiles granularEnabled
       lastUSBStatus powerStatus fsmInitialSetupComplete
       fsmRecreationPending config external millis powerFSM preservedState
       secsSlept nimbleBluetooth profiles] in *.
  destruct (ptr_eqb (Some sel) cp) eqn:Hsame; cbn [negb].
  - apply ptr_eqb_eq in Hsame. subst cp.
    apply wp_ret. cbn.
    split; [reflexivity|]. split; [reflexivity|]. split; [exact Hres|].
    split; [reflexivity|]. split; [repeat split|].
    exists evs1. split; [reflexivity|]. split; [exact Hst|].
    intros G. apply Hleg in G. apply G.
  - assert (Hleg' : gran = false -> evs1 = [])
      by (intros G; apply Hleg in G; apply G).
    clear Hleg.
    unfold wp, bind, currentProfile_store, lastUSBStatus_store,
      PowerFSM_scheduleRecreation, gets, modify, ret, emit.
    destruct ps as [s|], comp; cbn;
      (split; [reflexivity|]); (split; [reflexivity|]);
      (split; [exact Hres|]); (split; [reflexivity|]);
      (split; [repeat split|]);
      exists evs1; (split; [rewrite ?app_nil_r; reflexivity|]);
      (split; [exact Hst | exact Hleg']).
Qed.

Lemma init_full : forall w,
  wp init
    (fun _ w' evs =>
       let g := power_use_granular_power_management (config w) in
       let sel :=
         if g then P_computedProfile else legacy_choice (config w) in
       let changed :=
         negb (ptr_eqb (Some sel) (currentProfile (powerProfileManager w))) in
       powerProfileManager w' = mkManager (Some sel) g (usb_cache w) /\
       (forall q, q <> P_computedProfile -> profiles w' q = profiles w q) /\
       (if g
        then profiles w' P_computedProfile =
               resolve_granular_spec (config w) (profiles w) (hasUSB_of w)
        else profiles w' P_computedProfile = profiles w P_computedProfile) /\
       fsmRecreationPending w' =
         (changed && fsmInitialSetupComplete w || fsmRecreationPending w) /\
       resolver_frame w w' /\
       exists stores,
         evs = stores ++ (if changed && fsmInitialSetupComplete w
                          then [EvPendingWrite true] else []) /\
         Forall (fun e => is_store_to P_computedProfile e = true) stores) w.
Proof.
  intros w. unfold init.
  apply wp_bind, wp_gets. apply wp_bind.
  unfold granularEnabled_store. apply wp_modify.
  apply wp_bind, wp_gets. apply wp_bind.
  set (w0 := with_powerProfileManager
               (mkManager (currentProfile (powerProfileManager w))
                  (power_use_granular_power_management (config w))
                  (usb_cache w)) w).
  apply wp_intro with (a := tt) (w' := w0) (l := []).
  { unfold w0, usb_cache, lastUSBStatus_store, modify, ret.
    destruct w as [cfg ps ext ms prof mgr fsm pres pend comp slept nb].
    destruct mgr, ps; reflexivity. }
  apply wp_bind.
  eapply wp_mono; [apply updateActiveProfile_full|].
  intros changed w' evs (Hch & Hm & Hp & Hpend & Hfr & stores & Hev & Hst & _).
  apply wp_ret. cbv zeta.
  assert (Hu : usb_cache w0 = usb_cache w).
  { unfold w0, usb_cache.
    destruct w as [cfg ps ext ms prof mgr fsm pres pend comp slept nb].
    destruct ps; reflexivity. }
  assert (Hsel : selected_ptr w0 =
                 if power_use_granular_power_management (config w)
                 then P_computedProfile else legacy_choice (config w)).
  { unfold w0, selected_ptr. destruct w; reflexivity. }
  assert (Hres : resolved_profiles w0 =
                 if power_use_granular_power_management (config w)
                 then mem_store (profiles w) P_computedProfile
                        (resolve_granular_spec (config w) (profiles w)
                           (hasUSB_of w))
                 else profiles w).
  { unfold w0, resolved_profiles. destruct w; reflexivity. }
  change (currentProfile (powerProfileManager w0))
    with (currentProfile (powerProfileManager w)) in Hch.
  change (granularEnabled (powerProfileManager w0))
    with (power_use_granular_power_management (config w)) in Hm.
  change (lastUSBStatus (powerProfileManager w0)) with (usb_cache w) in Hm.
  change (fsmInitialSetupComplete w0) with (fsmInitialSetupComplete w)
    in Hpend, Hev.
  change (fsmRecreationPending w0) with (fsmRecreationPending w) in Hpend.
  rewrite Hsel in Hch, Hm. rewrite Hu in Hm. rewrite Hres in Hp.
  rewrite <- Hch. cbn [app]. rewrite app_nil_r.
  split; [rewrite Hm; destruct changed; reflexivity|].
  split.
  { intros q Hq. rewrite Hp.
    destruct (power_use_granular_power_management (config w));
      [|reflexivity].
    unfold mem_store. destruct q; (reflexivity || congruence). }
  split.
  { rewrite Hp.
    destruct (power_use_granular_power_management (config w)); reflexivity. }
  split; [exact Hpend|]. split; [|exists stores; split; assumption].
  unfold resolver_frame in *. unfold w0 in Hfr.
  destruct w. exact Hfr.
Qed.


(** The layers read the system defaults and the user profiles, never the
    computed record. *)
Lemma resolve_granular_spec_ext : forall cfg m1 m2 usb,
  (forall q, q <> P_computedProfile -> m1 q = m2 q) ->
  resolve_granular_spec cfg m1 usb = resolve_granular_spec cfg m2 usb.
Proof.
  intros cfg m1 m2 usb H.
  unfold resolve_granular_spec, user_override_spec, base_profile_spec.
  rewrite (H P_systemDefaultPluggedProfile), (H P_systemDefaultBatteryProfile),
    (H P_config_plugged_in_profile), (H P_config_battery_profile);
    (reflexivity || discriminate).
Qed.

Lemma resolved_profiles_other : forall w q,
  q <> P_computedProfile -> resolved_profiles w q = profiles w q.
Proof.
  intros w q Hq. unfold resolved_profiles.
  destruct (granularEnabled (powerProfileManager w)); [|reflexivity].
  unfold mem_store. destruct q; (reflexivity || congruence).
Qed.

(** X10.  [init] always leaves a published profile: afterwards
    [currentProfile] is the address of [computedProfile] in granular mode
    and of the legacy profile of the configuration otherwise, so
    [getActiveProfile] no longer falls back; [granularEnabled] is the
    configured flag and [lastUSBStatus] the power source ([powerStatus]
    missing, it keeps its value).  The machine, the configuration and every
    record but [computedProfile] are untouched, and no recreation is
    scheduled while the initial setup is not complete. *)
Theorem init_publishes_a_profile : forall w,
  exists w' evs,
    init w = Some (tt, w', evs) /\
    powerProfileManager w' =
      mkManager
        (Some (if power_use_granular_power_management (config w)
               then P_computedProfile else legacy_choice (config w)))
        (power_use_granular_power_management (config w))
        (usb_cache w) /\
    getActiveProfile w' =
      Some (if power_use_granular_power_management (config w)
            then P_computedProfile else legacy_choice (config w), w', []) /\
    (forall q, q <> P_computedProfile -> profiles w' q = profiles w q) /\
    resolver_frame w w' /\
    (fsmInitialSetupComplete w = false ->
     fsmRecreationPending w' = fsmRecreationPending w).
Proof.
  intros w.
  destruct (wp_elim _ _ _ _ (init_full w))
    as ([] & w' & evs & E & Hm & Hp & _ & Hpend & Hfr & _).
  cbv zeta in Hm, Hpend.
  exists w', evs. split; [exact E|]. split; [exact Hm|].
  split; [unfold getActiveProfile, bind, gets, ret; rewrite Hm;
          reflexivity|].
  split; [exact Hp|]. split; [exact Hfr|].
  intros Hc. rewrite Hpend, Hc, andb_false_r. reflexivity.
Qed.

(** X11.  [updateActiveProfile] is idempotent: called again right after
    itself it returns [false], schedules nothing, and leaves the profile
    manager, the pending flag and the content of every profile record as
    the first call left them. *)
Theorem updateActiveProfile_idempotent : forall w,
  exists changed w1 evs1 w2 evs2,
    updateActiveProfile w = Some (changed, w1, evs1) /\
    updateActiveProfile w1 = Some (false, w2, evs2) /\
    powerProfileManager w2 = powerProfileManager w1 /\
    (forall q, profiles w2 q = profiles w1 q) /\
    fsmRecreationPending w2 = fsmRecreationPending w1 /\
    resolver_frame w1 w2 /\
    Forall (fun e => is_store_to P_computedProfile e = true) evs2.
Proof.
  intros w.
  destruct (wp_elim _ _ _ _ (updateActiveProfile_full w))
    as (c1 & w1 & evs1 & E1 & _ & Hm1 & Hp1 & _ & Hfr1 & _).
  destruct (wp_elim _ _ _ _ (updateActiveProfile_full w1))
    as (c2 & w2 & evs2 & E2 & Hc2 & Hm2 & Hp2 & Hpend2 & Hfr2
        & stores & Hev & Hst & _).
  assert (Hg : granularEnabled (powerProfileManager w1)
               = granularEnabled (powerProfileManager w))
    by (rewrite Hm1; reflexivity).
  assert (Hcfg : config w1 = config w) by apply Hfr1.
  assert (Hsel : selected_ptr w1 = selected_ptr w)
    by (unfold selected_ptr; rewrite Hg, Hcfg; reflexivity).
  assert (Hcur : currentProfile (powerProfileManager w1)
                 = Some (selected_ptr w))
    by (rewrite Hm1; reflexivity).
  rewrite Hsel, Hcur, ptr_eqb_refl in Hc2. cbn [negb] in Hc2. subst c2.
  cbn [andb orb app] in Hpend2, Hev. rewrite app_nil_r in Hev. subst evs2.
  exists c1, w1, evs1, w2, stores.
  split; [exact E1|]. split; [exact E2|].
  split.
  { rewrite Hm2, Hsel, Hg, Hm1. reflexivity. }
  split.
  { intros q. rewrite Hp2. unfold resolved_profiles. rewrite Hg.
    destruct (granularEnabled (powerProfileManager w)) eqn:G;
      [|reflexivity].
    unfold mem_store.
    destruct (ProfilePtr_eqb q P_computedProfile) eqn:Q; [|reflexivity].
    destruct q; try discriminate Q.
    rewrite (Hp1 P_computedProfile). unfold resolved_profiles.
    rewrite G. cbn [mem_store ProfilePtr_eqb].
    assert (Hps : powerStatus w1 = powerStatus w) by apply Hfr1.
    unfold hasUSB_of. rewrite Hps, Hcfg.
    apply resolve_granular_spec_ext.
    intros q Hq. rewrite Hp1. apply resolved_profiles_other. exact Hq. }
  split; [exact Hpend2|]. split; [exact Hfr2 | exact Hst].
Qed.

(** X12.  The profile manager writes one record only.  Every store of
    [updateActiveProfile] goes to [computedProfile]; the two system
    defaults, the two legacy profiles and the two user profiles read as
    before.  In legacy mode it stores nothing at all.  The engine and every
    global of the machine but the pending flag are untouched, and the flag
    is never cleared. *)
Theorem resolver_writes_computedProfile_only : forall w,
  exists changed w' evs,
    updateActiveProfile w = Some (changed, w', evs) /\
    (forall q, q <> P_computedProfile -> profiles w' q = profiles w q) /\
    (forall p v, In (EvProfileStore p v) evs -> p = P_computedProfile) /\
    (granularEnabled (powerProfileManager w) = false ->
     (forall q, profiles w' q = profiles w q) /\
     forall p v, ~ In (EvProfileStore p v) evs) /\
    resolver_frame w w' /\
    (fsmRecreationPending w = true -> fsmRecreationPending w' = true).
Proof.
  intros w.
  destruct (wp_elim _ _ _ _ (updateActiveProfile_full w))
    as (c & w' & evs & E & _ & _ & Hp & Hpend & Hfr
        & stores & Hev & Hst & Hleg).
  exists c, w', evs. split; [exact E|].
  assert (Hin : forall p v, In (EvProfileStore p v) evs ->
                In (EvProfileStore p v) stores).
  { intros p v H. rewrite Hev in H. apply in_app_or in H.
    destruct H as [H|H]; [exact H|].
    destruct (c && fsmInitialSetupComplete w); cbn in H;
      [destruct H as [H|[]]; discriminate H | destruct H]. }
  split.
  { intros q Hq. rewrite Hp. apply resolved_profiles_other. exact Hq. }
  split.
  { intros p v H. apply Hin in H. rewrite Forall_forall in Hst.
    specialize (Hst _ H). cbn in Hst. destruct p; (reflexivity || discriminate). }
  split.
  { intros G. split.
    - intros q. rewrite Hp. unfold resolved_profiles. rewrite G.
      reflexivity.
    - intros p v H. apply Hin in H. rewrite (Hleg G) in H. exact H. }
  split; [exact Hfr|].
  intros H. rewrite Hpend, H. apply orb_true_r.
Qed.

(** X13.  A forced profile lasts until the next update.  [forceProfile]
    with an address publishes it, so [getActiveProfile] returns it;
    with [nullptr] it does nothing; either way it schedules no recreation
    and touches no record.  The next [updateActiveProfile] publishes the
    address the resolver selects again, and reports a change exactly when
    the forced address was another one. *)
Theorem forced_profile_lasts_until_update : forall w p,
  forceProfile None w = Some (tt, w, []) /\
  exists w1,
    forceProfile (Some p) w = Some (tt, w1, []) /\
    getActiveProfile w1 = Some (p, w1, []) /\
    profiles w1 = profiles w /\
    fsmRecreationPending w1 = fsmRecreationPending w /\
    resolver_frame w w1 /\
    exists w2 evs,
      updateActiveProfile w1 =
        Some (negb (ProfilePtr_eqb (selected_ptr w) p), w2, evs) /\
      currentProfile (powerProfileManager w2) = Some (selected_ptr w).
Proof.
  intros w p. split; [reflexivity|].
  set (w1 := with_powerProfileManager
               (mkManager (Some p) (granularEnabled (powerProfileManager w))
                  (lastUSBStatus (powerProfileManager w))) w).
  exists w1.
  split; [reflexivity|]. split; [reflexivity|]. split; [reflexivity|].
  split; [reflexivity|]. split; [repeat split|].
  destruct (wp_elim _ _ _ _ (updateActiveProfile_full w1))
    as (c & w2 & evs & E & Hc & Hm & _).
  assert (Hsel : selected_ptr w1 = selected_ptr w)
    by (unfold w1, selected_ptr; destruct w; reflexivity).
  rewrite Hsel in Hc, Hm.
  change (currentProfile (powerProfileManager w1)) with (Some p) in Hc.
  cbn [ptr_eqb] in Hc. subst c.
  exists w2, evs. split; [exact E | rewrite Hm; reflexivity].
Qed.

(** X14.  A router stays awake.  In granular mode, for the role ROUTER and
    with no user profile for the current power source, the profile an
    update leaves forbids deep sleep and light sleep whatever the system
    defaults hold, the minimum wake time is 1 s, and the allowed power
    states are DARK and ON and no deeper one.  A machine built from it
    never enables light sleep. *)
Theorem router_stays_awake : forall pf w,
  granularEnabled (powerProfileManager w) = true ->
  device_role (config w) = Role_ROUTER ->
  (if hasUSB_of w then power_has_plugged_in_profile (config w)
   else power_has_battery_profile (config w)) = false ->
  exists changed w' evs,
    updateActiveProfile w = Some (changed, w', evs) /\
    allowDeepSleep w' = Some (false, w', []) /\
    allowLightSleep w' = Some (false, w', []) /\
    getMinWakeSecs pf w' = Some (1, w', []) /\
    (forall s,
       isPowerStateAllowed s w' =
         Some (match s with MAX_DARK | MAX_ON => true | _ => false end,
               w', [])) /\
    lightSleepEnabled pf w' = false.
Proof.
  intros pf w Hg Hrole Hno.
  assert (Huser : user_override_spec (config w) (profiles w) (hasUSB_of w)
                  = None).
  { unfold user_override_spec. destruct (hasUSB_of w); rewrite Hno;
      reflexivity. }
  destruct (wp_elim _ _ _ _ (updateActiveProfile_full w))
    as (c & w' & evs & E & _ & Hm & Hp & _).
  exists c, w', evs. split; [exact E|].
  assert (Hact : active_profile w' =
                 role_modifiers_spec Role_ROUTER
                   (base_profile_spec (profiles w)
                      (power_force_profile (config w)) (hasUSB_of w))).
  { unfold active_profile. rewrite Hm. unfold selected_ptr. rewrite Hg.
    cbn [currentProfile active_ptr]. rewrite Hp.
    unfold resolved_profiles. rewrite Hg. cbn [mem_store ProfilePtr_eqb].
    unfold resolve_granular_spec. rewrite Huser, Hrole. reflexivity. }
  assert (Hq : forall (A : Type) (field : PowerProfile -> A),
             query field w' = Some (field (active_profile w'), w', []))
    by (intros; reflexivity).
  unfold allowDeepSleep, allowLightSleep, getMinWakeSecs, isPowerStateAllowed,
    getMaxPowerState, bind, gets, ret.
  rewrite !Hq, Hact. cbn.
  repeat split.
  - intros s. destruct s; reflexivity.
  - unfold lightSleepEnabled, lightSleepEligible. rewrite Hact. cbn.
    rewrite andb_false_r. reflexivity.
Qed.

(** X20.  A user profile replaces the other layers.  In granular mode,
    when the configuration holds a user profile for the current power
    source, the record an update publishes is that profile, field for
    field, whatever the role and the forced base are: the stay-awake
    settings of a router are overwritten with the rest. *)
Theorem user_profile_replaces_layers : forall w,
  granularEnabled (powerProfileManager w) = true ->
  (if hasUSB_of w then power_has_plugged_in_profile (config w)
   else power_has_battery_profile (config w)) = true ->
  exists changed w' evs,
    updateActiveProfile w = Some (changed, w', evs) /\
    getActiveProfile w' = Some (P_computedProfile, w', []) /\
    profiles w' P_computedProfile =
      profiles w (if hasUSB_of w then P_config_plugged_in_profile
                  else P_config_battery_profile) /\
    allowDeepSleep w' =
      Some (allow_deep_sleep
              (profiles w (if hasUSB_of w then P_config_plugged_in_profile
                           else P_config_battery_profile)), w', []) /\
    allowLightSleep w' =
      Some (allow_light_sleep
              (profiles w (if hasUSB_of w then P_config_plugged_in_profile
                           else P_config_battery_profile)), w', []).
Proof.
  intros w Hg Hhas.
  destruct (wp_elim _ _ _ _ (updateActiveProfile_full w))
    as (c & w' & evs & E & _ & Hm & Hp & _).
  exists c, w', evs. split; [exact E|].
  assert (Hrec : profiles w' P_computedProfile =
                 profiles w (if hasUSB_of w then P_config_plugged_in_profile
                             else P_config_battery_profile)).
  { rewrite Hp. unfold resolved_profiles. rewrite Hg.
    cbn [mem_store ProfilePtr_eqb].
    unfold resolve_granular_spec, user_override_spec.
    destruct (hasUSB_of w); rewrite Hhas; reflexivity. }
  assert (Hcur : currentProfile (powerProfileManager w')
                 = Some P_computedProfile).
  { rewrite Hm. unfold selected_ptr. rewrite Hg. reflexivity. }
  unfold allowDeepSleep, allowLightSleep, query, getActiveProfile, load,
    bind, gets, ret.
  rewrite Hcur. cbn [active_ptr app]. rewrite Hrec.
  repeat split.
Qed.


(** X15.  Requests coalesce and are served once.  After the initial
    setup, scheduling a recreation twice leaves the world that scheduling
    once leaves; processing then rebuilds once, clears the flag, and a
    further [PowerFSM_processRecreation] only reads the flag and does
    nothing. *)
Theorem requests_coalesce : forall pf w fuel,
  fsmInitialSetupComplete w = true ->
  exists w1 w2 evs,
    PowerFSM_scheduleRecreation w = Some (tt, w1, [EvPendingWrite true]) /\
    PowerFSM_scheduleRecreation w1 = Some (tt, w1, [EvPendingWrite true]) /\
    PowerFSM_processRecreation pf (S fuel) w1 = Some (tt, w2, evs) /\
    powerFSM w2 = engine_built pf w (m_current_state (powerFSM w)) /\
    PowerFSM_processRecreation pf (S fuel) w2 =
      Some (tt, w2, [EvPendingRead]).
Proof.
  intros pf w fuel Hc.
  set (w1 := with_fsmRecreationPending true w).
  assert (Hp1 : fsmRecreationPending w1 = true) by reflexivity.
  destruct (PowerFSM_processRecreation_builds pf w1 fuel Hp1)
    as (w2 & body & E & He & _ & Hp2 & _).
  exists w1, w2. eexists.
  split; [rewrite PowerFSM_scheduleRecreation_spec, Hc; reflexivity|].
  split.
  { rewrite PowerFSM_scheduleRecreation_spec.
    change (fsmInitialSetupComplete w1) with (fsmInitialSetupComplete w).
    rewrite Hc. unfold w1. destruct w; reflexivity. }
  split; [exact E|]. split.
  { rewrite He. unfold w1. destruct w; reflexivity. }
  apply PowerFSM_processRecreation_idle. exact Hp2.
Qed.

(** X16.  The boot sequence.  [init] followed by [PowerFSM_setup], run
    before any setup and with no preserved state, leaves the machine in
    BOOT with the engine of a first build, for the profile that [init]
    published; the setup flag is set; and the pending flag is as it was:
    the change of profile that [init] reports is not turned into a
    recreation. *)
Theorem boot_sequence : forall pf w fuel,
  fsmInitialSetupComplete w = false ->
  preservedState w = None ->
  exists w' evs,
    (init ;; PowerFSM_setup pf (S fuel)) w = Some (tt, w', evs) /\
    fsmInitialSetupComplete w' = true /\
    fsmRecreationPending w' = fsmRecreationPending w /\
    currentProfile (powerProfileManager w') =
      Some (if power_use_granular_power_management (config w)
            then P_computedProfile else legacy_choice (config w)) /\
    m_current_state (powerFSM w') = stateBOOT /\
    powerFSM w' = engine_built pf w' stateBOOT /\
    timed_rules_from stateBOOT (powerFSM w') =
      [mkTimedTransition stateBOOT
         (if hasUSB_of w then statePOWER else stateON) 3000 None].
Proof.
  intros pf w fuel Hc Hpres.
  assert (H : wp (init ;; PowerFSM_setup pf (S fuel))
    (fun _ w' _ =>
       fsmInitialSetupComplete w' = true /\
       fsmRecreationPending w' = fsmRecreationPending w /\
       currentProfile (powerProfileManager w') =
         Some (if power_use_granular_power_management (config w)
               then P_computedProfile else legacy_choice (config w)) /\
       m_current_state (powerFSM w') = stateBOOT /\
       powerFSM w' = engine_built pf w' stateBOOT /\
       timed_rules_from stateBOOT (powerFSM w') =
         [mkTimedTransition stateBOOT
            (if hasUSB_of w then statePOWER else stateON) 3000 None]) w).
  { apply wp_bind. eapply wp_mono; [apply init_full|].
    intros [] w0 evs0 (Hm & _ & _ & Hpend & Hfr & _). cbv zeta in Hm, Hpend.
    cbv beta. rewrite Hc, andb_false_r in Hpend. cbn [orb] in Hpend.
    destruct Hfr as (F1 & F2 & F3 & F4 & F5 & F6 & F7 & F8 & F9).
    unfold PowerFSM_setup. apply wp_bind.
    eapply wp_mono; [apply PowerFSM_create_full|].
    intros [] w1 evs1 (He & Hf & _). cbv beta.
    apply wp_modify.
    destruct Hf as (G1 & G2 & G3 & G4 & G5 & G6 & G7 & G8 & G9 & G10 & G11).
    assert (Hinit : initial_state_of w0 = stateBOOT)
      by (unfold initial_state_of; rewrite F6, Hpres; reflexivity).
    rewrite Hinit in He.
    change (powerFSM (with_fsmInitialSetupComplete true w1))
      with (powerFSM w1).
    change (powerProfileManager (with_fsmInitialSetupComplete true w1))
      with (powerProfileManager w1).
    split; [reflexivity|].
    split; [cbn [fsmRecreationPending with_fsmInitialSetupComplete];
            rewrite G7; exact Hpend|].
    split; [rewrite G6, Hm; reflexivity|].
    split; [rewrite He; reflexivity|].
    split.
    { rewrite He. apply engine_built_ext;
        cbn [config powerStatus external millis profiles powerProfileManager
             with_fsmInitialSetupComplete]; congruence. }
    rewrite He. unfold timed_rules_from, engine_built.
    cbv [m_timed_transitions create_timed_rules].
    assert (Hu : hasUSB_of w0 = hasUSB_of w)
      by (unfold hasUSB_of; rewrite F2; reflexivity).
    rewrite Hu.
    set (s := stateBOOT) at 2.
    destruct (hasUSB_of w), (ARCH_ESP32 pf), (lightSleepEligible w0),
      (screenTimeoutGuard pf w0),
      (HAS_WIFI pf || negb (MESHTASTIC_EXCLUDE_WIFI pf));
      reflexivity. }
  destruct (wp_elim _ _ _ _ H) as ([] & w' & evs & E & Hall).
  exists w', evs. split; [exact E | exact Hall].
Qed.


(** ** The hooks *)

Lemma lsIdle_round : forall pf trig w,
  ARCH_ESP32 pf = true ->
  doPreflightSleep (external w) = true ->
  doLightSleep_cause (external w) = ESP_SLEEP_WAKEUP_TIMER ->
  secsSlept w < power_ls_secs (config w) ->
  lsIdle pf trig w =
    Some (tt, with_secsSlept (wrap32 (secsSlept w + SLEEP_TIME pf)) w,
          light_sleep_round pf).
Proof.
  intros pf trig w Ha Hp Hc Hlt. apply Z.ltb_lt in Hlt.
  unfold lsIdle, bind, gets, emit, modify. rewrite Ha. cbv beta iota.
  rewrite Hlt, Hp, Hc. reflexivity.
Qed.

Lemma lsIdle_done : forall pf trig w,
  ARCH_ESP32 pf = true ->
  power_ls_secs (config w) <= secsSlept w ->
  lsIdle pf trig w = (emit (EvLedBlinkSet false) ;; trig EVENT_WAKE_TIMER) w.
Proof.
  intros pf trig w Ha Hge.
  assert (Hlt : (secsSlept w <? power_ls_secs (config w)) = false)
    by (apply Z.ltb_ge; exact Hge).
  unfold lsIdle, bind, gets, emit. rewrite Ha. cbv beta iota.
  rewrite Hlt.
  destruct (trig EVENT_WAKE_TIMER w) as [[[[] w'] l]|]; reflexivity.
Qed.

(** X17.  Light sleep in rounds.  On ESP32, while nothing stalls sleep and
    the timer is what wakes the processor, [n] calls of [lsIdle] sleep
    [n] rounds of SLEEP_TIME seconds, each followed by a 100 ms blink,
    fire no event, and add [n * SLEEP_TIME] to the counter (stored in 32
    bits), provided each round starts below [ls_secs]; they change nothing
    else.  A call at or above [ls_secs] does not sleep: it switches the
    LED off and fires EVENT_WAKE_TIMER. *)
Theorem light_sleep_rounds : forall pf trig n w,
  ARCH_ESP32 pf = true ->
  doPreflightSleep (external w) = true ->
  doLightSleep_cause (external w) = ESP_SLEEP_WAKEUP_TIMER ->
  0 < SLEEP_TIME pf ->
  0 <= secsSlept w < 4294967296 ->
  power_ls_secs (config w) <= 4294967296 ->
  secsSlept w + Z.of_nat n * SLEEP_TIME pf
    < power_ls_secs (config w) + SLEEP_TIME pf ->
  exists w',
    repeat_call n (lsIdle pf trig) w =
      Some (tt, w', List.concat (List.repeat (light_sleep_round pf) n)) /\
    w' = with_secsSlept (secsSlept w') w /\
    secsSlept w' = wrap32 (secsSlept w + Z.of_nat n * SLEEP_TIME pf) /\
    (power_ls_secs (config w) <= secsSlept w' ->
     lsIdle pf trig w' =
       (emit (EvLedBlinkSet false) ;; trig EVENT_WAKE_TIMER) w').
Proof.
  intros pf trig n. induction n as [|n IH]; intros w Ha Hp Hc HT H0 Hls Hn.
  - exists w. cbn [repeat_call List.repeat List.concat]. split; [reflexivity|].
    split; [destruct w; reflexivity|]. split.
    + unfold wrap32. cbn [Z.of_nat].
      rewrite Z.mul_0_l, Z.add_0_r, Z.mod_small; lia.
    + intros Hge. apply lsIdle_done; assumption.
  - assert (Hlt : secsSlept w < power_ls_secs (config w)) by nia.
    set (w1 := with_secsSlept (wrap32 (secsSlept w + SLEEP_TIME pf)) w).
    assert (E1 : lsIdle pf trig w = Some (tt, w1, light_sleep_round pf))
      by (apply lsIdle_round; assumption).
    destruct n as [|n].
    + exists w1. cbn [repeat_call List.repeat List.concat]. unfold bind.
      rewrite E1. split; [reflexivity|]. split; [reflexivity|]. split.
      * unfold w1. cbn [secsSlept with_secsSlept Z.of_nat].
        f_equal. lia.
      * intros Hge. apply lsIdle_done; assumption.
    + assert (Hs1 : secsSlept w1 = secsSlept w + SLEEP_TIME pf).
      { unfold w1. cbn [secsSlept with_secsSlept]. unfold wrap32.
        apply Z.mod_small. nia. }
      destruct (IH w1) as (w' & E & Hw' & Hs' & Hdone); try assumption.
      * rewrite Hs1. nia.
      * change (config w1) with (config w). rewrite Hs1. lia.
      * exists w'. split.
        { change (repeat_call (S (S n)) (lsIdle pf trig))
            with (lsIdle pf trig ;; repeat_call (S n) (lsIdle pf trig)).
          unfold bind at 1. rewrite E1, E. reflexivity. }
        split; [rewrite Hw' at 1; unfold w1; destruct w; reflexivity|].
        split; [|exact Hdone].
        rewrite Hs', Hs1. f_equal. lia.
Qed.


(** ** What a dispatch leaves *)

Lemma hook_frame_refl : forall w, hook_frame w w.
Proof.
  intros w. split; [apply keeps_settings_refl|].
  repeat split; reflexivity.
Qed.

Lemma hook_frame_trans : forall a b c,
  hook_frame a b -> hook_frame b c -> hook_frame a c.
Proof.
  intros a b c (K1 & P1 & S1 & T1 & U1) (K2 & P2 & S2 & T2 & U2).
  split; [exact (keeps_settings_trans _ _ _ K1 K2)|].
  repeat split; congruence.
Qed.

Lemma respects_ret : forall (A : Type) (a : A), respects (ret a).
Proof.
  intros A a w a' w' evs E. injection E as <- <- <-.
  split; [apply hook_frame_refl | reflexivity].
Qed.

Lemma respects_gets : forall (A : Type) (f : World -> A), respects (gets f).
Proof.
  intros A f w a w' evs E. injection E as <- <- <-.
  split; [apply hook_frame_refl | reflexivity].
Qed.

Lemma respects_emit : forall e, hook_event e = true -> respects (emit e).
Proof.
  intros e He w a w' evs E. unfold emit in E. inversion E; subst.
  split; [apply hook_frame_refl | unfold forallb; rewrite He; reflexivity].
Qed.

Lemma respects_modify : forall f,
  (forall w, hook_frame w (f w)) -> respects (modify f).
Proof.
  intros f Hf w a w' evs E. unfold modify in E. inversion E; subst.
  split; [apply Hf | reflexivity].
Qed.

Lemma respects_bind : forall (A B : Type) (m : M A) (k : A -> M B),
  respects m -> (forall a, respects (k a)) ->
  respects (bind m k).
Proof.
  intros A B m k Hm Hk w b w' evs E. unfold bind in E.
  destruct (m w) as [[[a w1] l1]|] eqn:E1; [|discriminate].
  destruct (k a w1) as [[[b' w2] l2]|] eqn:E2; [|discriminate].
  injection E as <- <- <-.
  destruct (Hm _ _ _ _ E1) as [F1 Q1]. destruct (Hk _ _ _ _ _ E2) as [F2 Q2].
  split; [exact (hook_frame_trans _ _ _ F1 F2)|].
  rewrite forallb_app, Q1, Q2. reflexivity.
Qed.

Lemma respects_if : forall (A : Type) (c : bool) (a b : M A),
  respects a -> respects b -> respects (if c then a else b).
Proof. intros A c a b Ha Hb. destruct c; assumption. Qed.

Ltac respects_step :=
  first
    [ apply respects_ret
    | apply respects_gets
    | apply respects_emit; reflexivity
    | apply respects_bind; [|intros ?]
    | apply respects_if
    | assumption ].

Lemma query_respects : forall (A : Type) (field : PowerProfile -> A),
  respects (query field).
Proof.
  intros A field. unfold query, getActiveProfile, load.
  repeat respects_step.
Qed.

Lemma with_secsSlept_frame : forall n w, hook_frame w (with_secsSlept n w).
Proof.
  intros n w. split; [|repeat split; reflexivity].
  repeat split; reflexivity.
Qed.

Lemma Fsm_enter_frame : forall s now w,
  hook_frame w (with_powerFSM (Fsm_enter s now (powerFSM w)) w).
Proof.
  intros s now w. split; [|repeat split; reflexivity].
  repeat split; reflexivity.
Qed.

Lemma call_respects : forall pf trig cb,
  (forall e, respects (trig e)) -> respects (call pf trig cb).
Proof.
  intros pf trig cb Ht.
  destruct cb as [[]|]; cbn [call];
    unfold sdsEnter, lowBattSDSEnter, shutdownEnter, lsEnter, lsIdle, lsExit,
      nbEnter, darkEnter, serialEnter, serialExit, powerEnter, powerIdle,
      powerExit, onEnter, onIdle, screenPress, bootEnter, allowDeepSleep,
      bluetoothEnabled, read_hasUSB;
    repeat first
      [ apply query_respects
      | apply Ht
      | apply respects_modify; intros ?; apply with_secsSlept_frame
      | respects_step
      | match goal with
        | |- respects (match ?x with _ => _ end) => destruct x
        end ].
Qed.

Lemma make_transition_respects : forall pf trig from to action,
  (forall e, respects (trig e)) ->
  respects (make_transition pf trig from to action).
Proof.
  intros pf trig from to action Ht. unfold make_transition.
  apply respects_bind; [apply call_respects; exact Ht | intros _].
  apply respects_bind; [apply respects_gets | intros now].
  apply respects_bind;
    [apply respects_modify; intros w; apply Fsm_enter_frame | intros _].
  apply respects_bind; [apply call_respects; exact Ht | intros _].
  apply call_respects; exact Ht.
Qed.

Lemma Fsm_trigger_respects : forall pf fuel e,
  respects (Fsm_trigger pf fuel e).
Proof.
  intros pf fuel. induction fuel as [|fuel IH]; intros e.
  - intros w a w' evs E. discriminate E.
  - cbn [Fsm_trigger].
    apply respects_bind; [apply respects_emit; reflexivity | intros _].
    apply respects_bind; [apply respects_gets | intros f].
    destruct (Fsm_lookup (m_current_state f) e (m_transitions f)) as [t|].
    + apply make_transition_respects. exact IH.
    + apply respects_ret.
Qed.


Lemma Fsm_check_timed_transitions_respects : forall pf fuel,
  respects (Fsm_check_timed_transitions pf fuel).
Proof.
  intros pf fuel. unfold Fsm_check_timed_transitions.
  apply respects_bind; [apply respects_gets | intros f].
  apply respects_bind; [apply respects_gets | intros now].
  destruct (Fsm_lookup_timed (m_current_state f) (now - m_entry_time f)
              (m_timed_transitions f)) as [t|].
  - apply make_transition_respects. apply Fsm_trigger_respects.
  - apply respects_ret.
Qed.





Lemma usb_rules : forall pf v,
  Fsm_lookup stateON EVENT_POWER_CONNECTED (create_rules pf v) =
    Some (mkTransition stateON statePOWER EVENT_POWER_CONNECTED None) /\
  Fsm_lookup statePOWER EVENT_POWER_DISCONNECTED (create_rules pf v) =
    Some (mkTransition statePOWER stateON EVENT_POWER_DISCONNECTED None).
Proof.
  intros pf v. unfold create_rules.
  destruct (screen_stays_responsive (active_profile v));
    split; reflexivity.
Qed.

(** X19.  The machine follows the cable within one pass.  On the rules of
    any build, a [tick] in ON or POWER leaves the machine in POWER when USB
    power is present and in ON when it is not (with the engine's tick and
    dispatch as the specification describes them).  When the state already
    matches, the tick does nothing at all; otherwise it fires
    EVENT_POWER_CONNECTED or EVENT_POWER_DISCONNECTED and the screen and
    Bluetooth are switched on by the hooks on the way. *)
Theorem tick_follows_usb : forall pf v w fuel,
  m_transitions (powerFSM w) = create_rules pf v ->
  (m_current_state (powerFSM w) = stateON \/
   m_current_state (powerFSM w) = statePOWER) ->
  exists w' evs,
    Fsm_tick pf (S fuel) w = Some (tt, w', evs) /\
    m_current_state (powerFSM w') =
      (if hasUSB_of w then statePOWER else stateON) /\
    (m_current_state (powerFSM w) =
       (if hasUSB_of w then statePOWER else stateON) ->
     w' = w /\ evs = []) /\
    (m_current_state (powerFSM w) <>
       (if hasUSB_of w then statePOWER else stateON) ->
     w' = with_powerFSM
            (Fsm_enter (if hasUSB_of w then statePOWER else stateON)
               (millis w) (powerFSM w)) w /\
     evs = EvTrigger (if hasUSB_of w then EVENT_POWER_CONNECTED
                      else EVENT_POWER_DISCONNECTED)
           :: (if hasUSB_of w then []
               else [EvScreenSetOn true; EvSetBluetoothEnable true])
           ++ [EvScreenSetOn true; EvSetBluetoothEnable true]).
Proof.
  intros pf v w fuel Hr Hs.
  destruct (usb_rules pf v) as [Hon Hpow].
  unfold Fsm_tick, bind, gets.
  destruct Hs as [Hs | Hs]; rewrite Hs; cbn [on_state call].
  - unfold onIdle, read_hasUSB, bind, gets, ret. fold (hasUSB_of w).
    destruct (hasUSB_of w) eqn:Hu.
    + cbn [Fsm_trigger]. unfold bind, emit, gets. rewrite Hs, Hr, Hon.
      eexists. eexists. split; [reflexivity|]. split; [reflexivity|].
      split; [intros H; discriminate H|]. intros _.
      split; reflexivity.
    + eexists. eexists. split; [reflexivity|]. split; [exact Hs|].
      split; [intros _; split; reflexivity|].
      intros H. exfalso. apply H. reflexivity.
  - unfold powerIdle, read_hasUSB, bind, gets, ret. fold (hasUSB_of w).
    destruct (hasUSB_of w) eqn:Hu; cbn [negb].
    + eexists. eexists. split; [reflexivity|]. split; [exact Hs|].
      split; [intros _; split; reflexivity|].
      intros H. exfalso. apply H. reflexivity.
    + cbn [Fsm_trigger]. unfold bind, emit, gets. rewrite Hs, Hr, Hpow.
      eexists. eexists. split; [reflexivity|]. split; [reflexivity|].
      split; [intros H; discriminate H|]. intros _.
      split; reflexivity.
Qed.


(** X21.  The timers of a build.  ON and POWER time out to DARK after the
    screen timeout (with E-Ink only when that timeout is positive).  DARK
    times out to LS after the Bluetooth timeout when light sleep is
    enabled; otherwise it re-enters itself every screen timeout, except on
    an ESP32 build without WiFi support, which registers no timer for
    DARK at all.  NB times out to LS after the minimum wake time when
    light sleep is enabled and has no timer otherwise.  No timer ever
    leaves LS, SERIAL, SDS, LOW_BATT_SDS or SHUTDOWN. *)
Theorem timers_of_a_build : forall pf w fuel,
  exists w' evs,
    PowerFSM_create pf (S fuel) w = Some (tt, w', evs) /\
    (forall s,
       s = stateON \/ s = statePOWER ->
       timed_rules_from s (powerFSM w') =
         (if screenTimeoutGuard pf w
          then [mkTimedTransition s stateDARK
                  (wrap32 (screenTimeoutSecs_of pf w * 1000)) None]
          else [])) /\
    timed_rules_from stateDARK (powerFSM w') =
      (if lightSleepEnabled pf w
       then [mkTimedTransition stateDARK stateLS
               (wrap32 (bluetoothTimeoutSecs_of pf w * 1000)) None]
       else if ARCH_ESP32 pf
               && negb (HAS_WIFI pf || negb (MESHTASTIC_EXCLUDE_WIFI pf))
            then []
            else [mkTimedTransition stateDARK stateDARK
                    (wrap32 (screenTimeoutSecs_of pf w * 1000)) None]) /\
    timed_rules_from stateNB (powerFSM w') =
      (if lightSleepEnabled pf w
       then [mkTimedTransition stateNB stateLS
               (wrap32 (minWakeSecs_of pf w * 1000)) None]
       else []) /\
    (forall s,
       In s [stateLS; stateSERIAL; stateSDS; stateLowBattSDS;
             stateSHUTDOWN] ->
       timed_rules_from s (powerFSM w') = []).
Proof.
  intros pf w fuel.
  destruct (PowerFSM_create_builds pf w fuel) as (w' & evs & E & He & _).
  exists w', evs. split; [exact E|]. rewrite He.
  unfold timed_rules_from, engine_built.
  cbv [m_timed_transitions create_timed_rules].
  split.
  { intros s [-> | ->];
      decide_build pf w (initial_state_of w); reflexivity. }
  split; [decide_build pf w (initial_state_of w); reflexivity|].
  split; [decide_build pf w (initial_state_of w); reflexivity|].
  intros s Hs. cbn [In] in Hs.
  destruct Hs as [<- | [<- | [<- | [<- | [<- | []]]]]];
    decide_build pf w (initial_state_of w); reflexivity.
Qed.


(** ** The properties above on concrete worlds *)

Lemma rebuild_depends_on_settings_only_witness :
  fsmRecreationPending dark_then_saving = true /\
  exists w' evw v' evv,
    PowerFSM_processRecreation esp32 2 dark_then_saving =
      Some (tt, w', evw) /\
    PowerFSM_processRecreation esp32 2
      (with_powerFSM (Fsm_new stateDARK) dark_then_saving) =
      Some (tt, v', evv) /\
    powerFSM v' = powerFSM w'.
Proof.
  split; [vm_compute; reflexivity|].
  destruct (rebuild_depends_on_settings_only esp32 dark_then_saving
              (with_powerFSM (Fsm_new stateDARK) dark_then_saving) 1)
    as (w' & evw & v' & evv & Ew & Ev & Heq & _).
  - vm_compute; reflexivity.
  - vm_compute; reflexivity.
  - apply keeps_settings_with_powerFSM.
  - vm_compute; reflexivity.
  - exists w', evw, v', evv.
    split; [exact Ew|]. split; [exact Ev | exact Heq].
Defined.


Lemma router_stays_awake_witness :
  granularEnabled
    (powerProfileManager (booted (granular_config Role_ROUTER) false))
    = true /\
  exists changed w' evs,
    updateActiveProfile (booted (granular_config Role_ROUTER) false) =
      Some (changed, w', evs) /\
    allowDeepSleep w' = Some (false, w', []) /\
    allowLightSleep w' = Some (false, w', []).
Proof.
  split; [vm_compute; reflexivity|].
  destruct (router_stays_awake esp32
              (booted (granular_config Role_ROUTER) false))
    as (c & w' & evs & E & Hd & Hl & _).
  - vm_compute; reflexivity.
  - vm_compute; reflexivity.
  - vm_compute; reflexivity.
  - exists c, w', evs. auto.
Defined.

Lemma user_profile_replaces_layers_witness :
  power_has_battery_profile (user_battery_config Role_ROUTER) = true /\
  exists changed w' evs,
    updateActiveProfile (booted (user_battery_config Role_ROUTER) false) =
      Some (changed, w', evs) /\
    profiles w' P_computedProfile = zeroProfile.
Proof.
  split; [reflexivity|].
  destruct (user_profile_replaces_layers
              (booted (user_battery_config Role_ROUTER) false))
    as (c & w' & evs & E & _ & Hrec & _).
  - vm_compute; reflexivity.
  - vm_compute; reflexivity.
  - exists c, w', evs. split; [exact E|]. rewrite Hrec.
    vm_compute; reflexivity.
Defined.

Lemma requests_coalesce_witness :
  fsmInitialSetupComplete (booted (legacy_config false) false) = true /\
  exists w1 w2 evs,
    PowerFSM_scheduleRecreation (booted (legacy_config false) false) =
      Some (tt, w1, [EvPendingWrite true]) /\
    PowerFSM_scheduleRecreation w1 = Some (tt, w1, [EvPendingWrite true]) /\
    PowerFSM_processRecreation esp32 2 w1 = Some (tt, w2, evs) /\
    PowerFSM_processRecreation esp32 2 w2 = Some (tt, w2, [EvPendingRead]).
Proof.
  split; [vm_compute; reflexivity|].
  destruct (requests_coalesce esp32 (booted (legacy_config false) false) 1)
    as (w1 & w2 & evs & E1 & E2 & E3 & _ & E4).
  - vm_compute; reflexivity.
  - exists w1, w2, evs. auto.
Defined.

Lemma boot_sequence_witness :
  fsmInitialSetupComplete (power_on (legacy_config false) true) = false /\
  preservedState (power_on (legacy_config false) true) = None /\
  exists w' evs,
    (init ;; PowerFSM_setup esp32 2) (power_on (legacy_config false) true) =
      Some (tt, w', evs) /\
    fsmInitialSetupComplete w' = true /\
    m_current_state (powerFSM w') = stateBOOT.
Proof.
  split; [reflexivity|]. split; [reflexivity|].
  destruct (boot_sequence esp32 (power_on (legacy_config false) true) 1)
    as (w' & evs & E & Hc & _ & _ & Hs & _).
  - reflexivity.
  - reflexivity.
  - exists w', evs. auto.
Defined.

Lemma light_sleep_rounds_witness :
  secsSlept (in_state stateLS (booted (legacy_config true) false)) = 0 /\
  power_ls_secs
    (config (in_state stateLS (booted (legacy_config true) false))) = 300 /\
  exists w',
    repeat_call 10 (lsIdle esp32 (Fsm_trigger esp32 1))
      (in_state stateLS (booted (legacy_config true) false)) =
      Some (tt, w', List.concat (List.repeat (light_sleep_round esp32) 10)) /\
    secsSlept w' = wrap32 (0 + 10 * 30).
Proof.
  split; [vm_compute; reflexivity|]. split; [vm_compute; reflexivity|].
  destruct (light_sleep_rounds esp32 (Fsm_trigger esp32 1) 10
              (in_state stateLS (booted (legacy_config true) false)))
    as (w' & E & _ & Hs & _).
  - reflexivity.
  - vm_compute; reflexivity.
  - vm_compute; reflexivity.
  - reflexivity.
  - vm_compute. split; [discriminate | reflexivity].
  - vm_compute. discriminate.
  - vm_compute. reflexivity.
  - exists w'. split; [exact E | exact Hs].
Defined.


Lemma tick_follows_usb_witness :
  m_current_state (powerFSM on_with_usb) = stateON /\
  hasUSB_of on_with_usb = true /\
  exists w' evs,
    Fsm_tick esp32 1 on_with_usb = Some (tt, w', evs) /\
    m_current_state (powerFSM w') = statePOWER.
Proof.
  split; [vm_compute; reflexivity|]. split; [vm_compute; reflexivity|].
  destruct (tick_follows_usb esp32
              (after init (power_on (legacy_config false) false))
              on_with_usb 0)
    as (w' & evs & E & Hs & _).
  - vm_compute; reflexivity.
  - left. vm_compute; reflexivity.
  - exists w', evs. split; [exact E | exact Hs].
Defined.
